(** * thoth-python: Pipfile / Pipfile.lock model and provenance checks

    A shallow embedding of [thoth/python/pipfile.py] and
    [thoth/python/project.py].  Python objects become records, ordered
    dictionaries become association lists that keep insertion order,
    exceptions become an explicit [result] type, and methods that mutate
    [self] thread the mutated object through a small state-and-exception
    monad.  Logging calls have no effect on any value and are left out. *)

From Stdlib Require Import List String Ascii Bool Arith NArith Lia.
From Stdlib Require Import Permutation.
From Stdlib Require Decimal DecimalString DecimalNat DecimalFacts OrderedTypeEx.
Import ListNotations.
#[local] Set Warnings "-register-all".
Local Open Scope string_scope.
Local Open Scope list_scope.

(** ** Exceptions *)

(** The exception classes that the two files raise or let through; the
    message carried by an exception is not modelled. *)
Inductive exn : Type :=
| PipfileParseError
| InternalError
| NotFound
| UnableLock
| NotImplementedError
| AttributeError.

Inductive result (A : Type) : Type :=
| Ok (a : A)
| Raise (e : exn).
Arguments Ok {A} a.
Arguments Raise {A} e.

Definition rbind {A B : Type} (r : result A) (k : A -> result B) : result B :=
  match r with
  | Ok a => k a
  | Raise e => Raise e
  end.

(** A method that mutates an object of type [S] and may raise: the object
    as it is left behind is returned in both cases, since a raise does not
    undo the assignments made before it. *)
Definition M (S A : Type) : Type := S -> result A * S.

Definition ret {S A : Type} (a : A) : M S A := fun s => (Ok a, s).
Definition raise {S A : Type} (e : exn) : M S A := fun s => (Raise e, s).
Definition bind {S A B : Type} (m : M S A) (k : A -> M S B) : M S B :=
  fun s => match m s with
           | (Ok a, s') => k a s'
           | (Raise e, s') => (Raise e, s')
           end.
Definition get_state {S : Type} : M S S := fun s => (Ok s, s).
Definition put_state {S : Type} (s : S) : M S unit := fun _ => (Ok tt, s).

Declare Scope py_scope.
Delimit Scope py_scope with py.
Notation "x <- m ;; k" := (bind m (fun x => k))
  (at level 61, m at next level, right associativity) : py_scope.
Notation "m ;;; k" := (bind m (fun _ => k))
  (at level 61, right associativity) : py_scope.

(** [for x in xs: body x] for a body that mutates the state and may raise. *)
Fixpoint for_each {S A : Type} (xs : list A) (body : A -> M S unit) : M S unit :=
  match xs with
  | [] => ret tt
  | x :: rest => bind (body x) (fun _ => for_each rest body)
  end.

(** ** Strings *)

Definition newline : string := String "010"%char EmptyString.
Definition dquote : ascii := "034"%char.
Definition squote : ascii := "'"%char.
Definition backslash : ascii := "\"%char.

(** [s[n:]] *)
Fixpoint drop_chars (n : nat) (s : string) : string :=
  match n, s with
  | O, _ => s
  | S n', String _ s' => drop_chars n' s'
  | S _, EmptyString => EmptyString
  end.

(** [s.startswith(p)] *)
Definition startswith (p s : string) : bool := String.prefix p s.

(** [c in s] for a single character [c] *)
Fixpoint has_char (c : ascii) (s : string) : bool :=
  match s with
  | EmptyString => false
  | String c' s' => Ascii.eqb c c' || has_char c s'
  end.

(** [sep.join(parts)] *)
Fixpoint join (sep : string) (parts : list string) : string :=
  match parts with
  | [] => ""
  | [p] => p
  | p :: rest => p ++ sep ++ join sep rest
  end.

(** [x in xs] for a list of strings *)
Definition mem_string (x : string) (xs : list string) : bool :=
  existsb (String.eqb x) xs.

Definition hex_digit (n : nat) : ascii :=
  match n with
  | 0 => "0" | 1 => "1" | 2 => "2" | 3 => "3" | 4 => "4" | 5 => "5"
  | 6 => "6" | 7 => "7" | 8 => "8" | 9 => "9" | 10 => "a" | 11 => "b"
  | 12 => "c" | 13 => "d" | 14 => "e" | _ => "f"
  end%char.

Definition hex2 (c : ascii) : string :=
  let n := nat_of_ascii c in
  String (hex_digit (n / 16)) (String (hex_digit (n mod 16)) EmptyString).

(** [repr(s)] of a [str], as the [!r] conversions of the f-strings use it:
    single quotes unless the text has a single quote and no double quote,
    backslash escapes for the quote, the backslash and the characters that
    are not printable: those below 32, those from 127 to 160 and 173.  The
    other characters up to 255 are kept as they are. *)
Definition repr_char (q : ascii) (c : ascii) : string :=
  let n := nat_of_ascii c in
  if Ascii.eqb c backslash then String backslash (String backslash EmptyString)
  else if Ascii.eqb c q then String backslash (String q EmptyString)
  else if Nat.eqb n 10 then String backslash "n"
  else if Nat.eqb n 13 then String backslash "r"
  else if Nat.eqb n 9 then String backslash "t"
  else if Nat.ltb n 32 || (Nat.leb 127 n && Nat.leb n 160) || Nat.eqb n 173
       then String backslash (String "x"%char (hex2 c))
  else String c EmptyString.

Fixpoint repr_body (q : ascii) (s : string) : string :=
  match s with
  | EmptyString => EmptyString
  | String c s' => repr_char q c ++ repr_body q s'
  end.

Definition repr (s : string) : string :=
  let q := if has_char squote s && negb (has_char dquote s) then dquote else squote in
  String q (repr_body q s ++ String q EmptyString).

(** ** Sets of strings, as Python's [set] compares them *)

Definition subsetb (xs ys : list string) : bool :=
  forallb (fun x => mem_string x ys) xs.

(** [set(xs) == set(ys)] *)
Definition set_eqb (xs ys : list string) : bool :=
  subsetb xs ys && subsetb ys xs.

(** ** Ordered dictionaries

    A Python [dict] keeps its keys in insertion order; assigning to a key
    that is present keeps the key's position. *)
Module PyDict.

Definition t (V : Type) : Type := list (string * V).

Section Ops.
Context {V : Type}.

(** [d.get(k)] *)
Fixpoint get (d : t V) (k : string) : option V :=
  match d with
  | [] => None
  | (k', v) :: d' => if String.eqb k' k then Some v else get d' k
  end.

(** [k in d] *)
Definition contains (d : t V) (k : string) : bool :=
  match get d k with
  | Some _ => true
  | None => false
  end.

(** [d[k] = v] *)
Fixpoint set (d : t V) (k : string) (v : V) : t V :=
  match d with
  | [] => [(k, v)]
  | (k', v') :: d' =>
      if String.eqb k' k then (k', v) :: d' else (k', v') :: set d' k v
  end.

Definition keys (d : t V) : list string := map fst d.
Definition values (d : t V) : list V := map snd d.
Definition items (d : t V) : list (string * V) := d.

(** A dictionary has every key once. *)
Definition wf (d : t V) : Prop := NoDup (keys d).

Fixpoint nodupb (ks : list string) : bool :=
  match ks with
  | [] => true
  | k :: ks' => negb (mem_string k ks') && nodupb ks'
  end.
Definition wfb (d : t V) : bool := nodupb (keys d).
End Ops.

End PyDict.

(** ** Parsed documents

    The key-value trees that [toml.loads] and [json.loads] return and that
    [json.dumps] and [toml.dumps] take. *)
Inductive json : Type :=
| JNull
| JBool (b : bool)
| JInt (n : nat)
| JStr (s : string)
| JList (l : list json)
| JDict (d : list (string * json)).

(** [d[k]] on a dictionary that is known to hold [k]; [None] stands for a
    key that is absent, which the callers below never ask for. *)
Definition getitem (d : PyDict.t json) (k : string) : json :=
  match PyDict.get d k with
  | Some v => v
  | None => JNull
  end.

(** ** Source *)
Module Source.

(** Modelled from the spec: [source.py] is not among the sources; a Source
    is [{name, url, verify_ssl, warehouse flag, warehouse_api_url}]. *)
Record t : Type := mk {
  name : string;
  url : string;
  verify_ssl : bool;
  warehouse : bool;
  warehouse_api_url : option string
}.

(** Modelled from the spec: [Source.to_dict], the entry of the [source]
    list of a manifest, [{name, url, verify_ssl}]. *)
Definition to_dict (self : t) : json :=
  JDict [("name", JStr (name self));
         ("url", JStr (url self));
         ("verify_ssl", JBool (verify_ssl self))].

End Source.

(** ** PackageVersion *)
Module PackageVersion.

(** Modelled from the spec: [package_version.py] is not among the sources;
    a PackageVersion is [{name, version, develop, index, hashes, markers}],
    [index] being the Source object the package is assigned to. *)
Record t : Type := mk {
  name : string;
  version : string;
  develop : bool;
  index : option Source.t;
  hashes : list string;
  markers : option string
}.

Definition set_version (self : t) (v : string) : t :=
  mk (name self) v (develop self) (index self) (hashes self) (markers self).

(** Modelled from the spec: [is_locked()] is true iff the version
    constraint is a single exact [==] pin. *)
Definition is_locked (self : t) : bool :=
  startswith "==" (version self) && negb (has_char ","%char (version self)).

(** Modelled from the spec: the pinned version, the text after [==]. *)
Definition locked_version (self : t) : string :=
  drop_chars 2 (version self).

(** Modelled from the spec: [negate_version()] rewrites an exact pin
    [==V] into the exclusion [!=V] in place and fails on a version that is
    not an exact pin. *)
Definition negate_version : M t unit :=
  fun self =>
    if is_locked self
    then (Ok tt, set_version self ("!=" ++ locked_version self))
    else (Raise InternalError, self).

(** Modelled from the spec: [to_pipfile()], the short form of the
    unlocked manifest, a version string or a [{version, index}] table. *)
Definition to_pipfile (self : t) : json :=
  match index self with
  | None => JStr (version self)
  | Some i => JDict [("version", JStr (version self));
                     ("index", JStr (Source.name i))]
  end.

End PackageVersion.

(** ** Packages *)
Module Packages.

(** Modelled from the spec: [packages.py] is not among the sources; a
    collection maps package names to PackageVersions in insertion order
    and carries the [develop] flag of its section. *)
Record t : Type := mk {
  develop : bool;
  packages : PyDict.t PackageVersion.t
}.

(** Modelled from the spec: the dict-like lookup [section.get(name)]. *)
Definition get (self : t) (package_name : string) : option PackageVersion.t :=
  PyDict.get (packages self) package_name.

(** Modelled from the spec: [name in section]. *)
Definition contains (self : t) (package_name : string) : bool :=
  PyDict.contains (packages self) package_name.

(** Modelled from the spec: [section[name] = package_version]. *)
Definition setitem (self : t) (package_name : string)
    (package_version : PackageVersion.t) : t :=
  mk (develop self) (PyDict.set (packages self) package_name package_version).

(** Modelled from the spec: [for package_version in section], the
    PackageVersions in insertion order. *)
Definition iter (self : t) : list PackageVersion.t :=
  PyDict.values (packages self).

(** Modelled from the spec: [to_pipfile()], the section of the unlocked
    manifest, a table from package name to the package's short form. *)
Definition to_pipfile (self : t) : json :=
  JDict (map (fun kv => (fst kv, PackageVersion.to_pipfile (snd kv)))
             (PyDict.items (packages self))).

End Packages.

(** ** PipfileMeta *)

Definition _DEFAULT_PIPFILE_SPEC : nat := 6.

Module PipfileMeta.

Record t : Type := mk {
  sources : PyDict.t Source.t;
  requires : option (PyDict.t json);
  pipenv : option (PyDict.t json);
  hash : option json;
  pipfile_spec : option nat
}.

Definition set_sources (self : t) (s : PyDict.t Source.t) : t :=
  mk s (requires self) (pipenv self) (hash self) (pipfile_spec self).

(** [x or {}] and the truth value of an optional dictionary *)
Definition or_empty (d : option (PyDict.t json)) : PyDict.t json :=
  match d with
  | Some (kv :: d') => kv :: d'
  | _ => []
  end.

Definition truthy (d : option (PyDict.t json)) : bool :=
  match d with
  | Some (_ :: _) => true
  | _ => false
  end.

Definition to_dict (self : t) (is_lock : bool) : PyDict.t json :=
  let sources_dict := map Source.to_dict (PyDict.values (sources self)) in
  let result_ : PyDict.t json := [] in
  if is_lock then
    let result_ := PyDict.set result_ "sources" (JList sources_dict) in
    let result_ := PyDict.set result_ "requires" (JDict (or_empty (requires self))) in
    let result_ := PyDict.set result_ "hash"
                     (match hash self with Some h => h | None => JNull end) in
    let result_ := PyDict.set result_ "pipfile-spec"
                     (JInt (match pipfile_spec self with
                            | Some (S n) => S n
                            | _ => _DEFAULT_PIPFILE_SPEC
                            end)) in
    result_
  else
    let result_ := PyDict.set result_ "source" (JList sources_dict) in
    let result_ := if truthy (pipenv self)
                   then PyDict.set result_ "pipenv" (JDict (or_empty (pipenv self)))
                   else result_ in
    let result_ := if truthy (requires self)
                   then PyDict.set result_ "requires" (JDict (or_empty (requires self)))
                   else result_ in
    result_.

Definition set_hash (hash_ : json) : M t unit :=
  fun self =>
    (Ok tt, mk (sources self) (requires self) (pipenv self) (Some hash_)
               (pipfile_spec self)).

(** What the loop variable of [to_requirements_index_conf] can hold:
    [dict.items()] yields [(key, value)] tuples, [dict.values()] the
    Source objects. *)
Inductive pyobj : Type :=
| ObjStr (s : string)
| ObjSource (s : Source.t)
| ObjTuple (elts : list pyobj).

(** [o.url]: only a Source has the attribute. *)
Definition getattr_url (o : pyobj) : result string :=
  match o with
  | ObjSource s => Ok (Source.url s)
  | _ => Raise AttributeError
  end.

(** [self.sources.items()] *)
Definition sources_items (self : t) : list pyobj :=
  map (fun kv => ObjTuple [ObjStr (fst kv); ObjSource (snd kv)])
      (PyDict.items (sources self)).

(** [self.sources.values()] *)
Definition sources_values (self : t) : list pyobj :=
  map ObjSource (PyDict.values (sources self)).

(** The loop of [to_requirements_index_conf] over the objects it is
    handed. *)
Fixpoint index_conf_loop (objs : list pyobj) (primary_index_added : bool)
    (result_ : string) : result string :=
  match objs with
  | [] => Ok result_
  | source :: rest =>
      if negb primary_index_added then
        rbind (getattr_url source) (fun u =>
          index_conf_loop rest true (result_ ++ "-i " ++ u ++ newline))
      else
        rbind (getattr_url source) (fun u =>
          index_conf_loop rest primary_index_added
            (result_ ++ "--extra-index-url " ++ u ++ newline))
  end.

Definition to_requirements_index_conf (self : t) : result string :=
  index_conf_loop (sources_items self) false "".

(** The rendering the documentation describes: the first source as the
    primary index, the others as extra index urls, in insertion order.
    It is the same loop run over [self.sources.values()]. *)
Definition requirements_index_conf_spec (self : t) : result string :=
  index_conf_loop (sources_values self) false "".

Definition add_source (source : Source.t) : M t unit :=
  fun self =>
    (Ok tt, set_sources self (PyDict.set (sources self) (Source.name source) source)).

End PipfileMeta.

(** ** [json.dumps(..., sort_keys=True, separators=(",", ":"))] *)

Definition hex4 (c : ascii) : string := "00" ++ hex2 c.

(** One character of [encode_basestring_ascii]: printable ASCII is kept,
    the quote and the backslash are escaped, everything else is written
    as a short escape or as [\uXXXX].  A character of a Rocq string
    stands for the code point of the same number. *)
Definition escape_char (c : ascii) : string :=
  let n := nat_of_ascii c in
  if Ascii.eqb c dquote then String backslash (String dquote EmptyString)
  else if Ascii.eqb c backslash then String backslash (String backslash EmptyString)
  else if Nat.eqb n 10 then String backslash "n"
  else if Nat.eqb n 13 then String backslash "r"
  else if Nat.eqb n 9 then String backslash "t"
  else if Nat.eqb n 8 then String backslash "b"
  else if Nat.eqb n 12 then String backslash "f"
  else if Nat.ltb n 32 || Nat.ltb 126 n then String backslash (String "u"%char (hex4 c))
  else String c EmptyString.

Fixpoint escape_body (s : string) : string :=
  match s with
  | EmptyString => EmptyString
  | String c s' => escape_char c ++ escape_body s'
  end.

Definition encode_basestring_ascii (s : string) : string :=
  String dquote (escape_body s ++ String dquote EmptyString).

(** [int.__repr__] of a number that is not negative: its decimal digits. *)
Definition str_of_nat (n : nat) : string :=
  DecimalString.NilEmpty.string_of_uint (Nat.to_uint n).

(** [sorted(items)]: insertion into a list sorted by key; among equal keys
    the earlier item stays first. *)
Fixpoint insert_item {V : Type} (kv : string * V) (l : list (string * V))
    : list (string * V) :=
  match l with
  | [] => [kv]
  | kv' :: l' =>
      if String.leb (fst kv) (fst kv') then kv :: kv' :: l'
      else kv' :: insert_item kv l'
  end.

Fixpoint sort_items {V : Type} (l : list (string * V)) : list (string * V) :=
  match l with
  | [] => []
  | kv :: l' => insert_item kv (sort_items l')
  end.

Definition dump_item (kv : string * string) : string :=
  encode_basestring_ascii (fst kv) ++ ":" ++ snd kv.

Fixpoint dumps (j : json) : string :=
  match j with
  | JNull => "null"
  | JBool true => "true"
  | JBool false => "false"
  | JInt n => str_of_nat n
  | JStr s => encode_basestring_ascii s
  | JList l => "[" ++ join "," (map dumps l) ++ "]"
  | JDict d =>
      "{" ++ join "," (map dump_item
                         (sort_items (map (fun kv => (fst kv, dumps (snd kv))) d)))
          ++ "}"
  end.

(** ** [hashlib.sha256(b).hexdigest()]

    SHA-256 as FIPS 180-4 states it, on 32-bit words held in [N]. *)
Module SHA256.

Local Open Scope N_scope.

Definition w32 (x : N) : N := N.land x 0xffffffff.
Definition add32 (x y : N) : N := w32 (x + y).
Definition rotr (n x : N) : N := N.lor (N.shiftr x n) (w32 (N.shiftl x (32 - n))).
Definition not32 (x : N) : N := N.lxor x 0xffffffff.
Definition Ch (x y z : N) : N := N.lxor (N.land x y) (N.land (not32 x) z).
Definition Maj (x y z : N) : N :=
  N.lxor (N.lxor (N.land x y) (N.land x z)) (N.land y z).
Definition Sigma0 (x : N) : N := N.lxor (N.lxor (rotr 2 x) (rotr 13 x)) (rotr 22 x).
Definition Sigma1 (x : N) : N := N.lxor (N.lxor (rotr 6 x) (rotr 11 x)) (rotr 25 x).
Definition sigma0 (x : N) : N := N.lxor (N.lxor (rotr 7 x) (rotr 18 x)) (N.shiftr x 3).
Definition sigma1 (x : N) : N := N.lxor (N.lxor (rotr 17 x) (rotr 19 x)) (N.shiftr x 10).

(** The first 64 primes. *)
Definition primes : list N :=
  [2; 3; 5; 7; 11; 13; 17; 19; 23; 29; 31; 37; 41; 43; 47; 53;
   59; 61; 67; 71; 73; 79; 83; 89; 97; 101; 103; 107; 109; 113; 127; 131;
   137; 139; 149; 151; 157; 163; 167; 173; 179; 181; 191; 193; 197; 199; 211; 223;
   227; 229; 233; 239; 241; 251; 257; 263; 269; 271; 277; 281; 283; 293; 307; 311].

(** The integer cube root of a number below [2 ^ 108], bit by bit. *)
Fixpoint cube_root_bits (bits : nat) (n r : N) : N :=
  match bits with
  | O => r
  | S bits' =>
      let r' := r + N.shiftl 1 (N.of_nat bits') in
      cube_root_bits bits' n (if r' * r' * r' <=? n then r' else r)
  end.

Definition cube_root (n : N) : N := cube_root_bits 36 n 0.

(** The round constants: the first 32 bits of the fractional parts of the
    cube roots of the first 64 primes. *)
Definition K : list N :=
  map (fun p => w32 (cube_root (N.shiftl p 96))) primes.

(** The initial hash value: the first 32 bits of the fractional parts of
    the square roots of the first 8 primes. *)
Definition H0 : list N :=
  map (fun p => w32 (N.sqrt (N.shiftl p 64))) (firstn 8 primes).

Fixpoint bytes_of (s : string) : list N :=
  match s with
  | EmptyString => []
  | String c s' => N_of_ascii c :: bytes_of s'
  end.

(** The big-endian bytes of [x], [n] of them. *)
Fixpoint be_bytes (n : nat) (x : N) : list N :=
  match n with
  | O => []
  | S n' => N.land (N.shiftr x (8 * N.of_nat n')) 0xff :: be_bytes n' x
  end.

Definition pad (msg : list N) : list N :=
  let len := N.of_nat (List.length msg) in
  let zeros := N.to_nat ((119 - len mod 64) mod 64) in
  msg ++ [0x80] ++ repeat 0 zeros ++ be_bytes 8 (8 * len).

Fixpoint words_of (fuel : nat) (bytes : list N) : list N :=
  match fuel, bytes with
  | S fuel', b3 :: b2 :: b1 :: b0 :: rest =>
      (N.shiftl b3 24 + N.shiftl b2 16 + N.shiftl b1 8 + b0) :: words_of fuel' rest
  | _, _ => []
  end.

Fixpoint extend (n : nat) (rev_w : list N) : list N :=
  match n with
  | O => rev_w
  | S n' =>
      let w := add32 (add32 (sigma1 (nth 1 rev_w 0)) (nth 6 rev_w 0))
                     (add32 (sigma0 (nth 14 rev_w 0)) (nth 15 rev_w 0)) in
      extend n' (w :: rev_w)
  end.

Definition schedule (block : list N) : list N := rev (extend 48 (rev block)).

Definition round (st : list N) (kw : N * N) : list N :=
  match st with
  | [a; b; c; d; e; f; g; h] =>
      let t1 := add32 (add32 (add32 h (Sigma1 e)) (add32 (Ch e f g) (fst kw))) (snd kw) in
      let t2 := add32 (Sigma0 a) (Maj a b c) in
      [add32 t1 t2; a; b; c; add32 d t1; e; f; g]
  | _ => st
  end.

Definition compress (hs : list N) (block : list N) : list N :=
  let st := fold_left round (combine K (schedule block)) hs in
  map (fun p => add32 (fst p) (snd p)) (combine hs st).

Fixpoint blocks (fuel : nat) (ws : list N) (hs : list N) : list N :=
  match fuel, ws with
  | S fuel', _ :: _ => blocks fuel' (skipn 16 ws) (compress hs (firstn 16 ws))
  | _, _ => hs
  end.

Definition hex_of_digit (d : N) : ascii :=
  ascii_of_N (if d <? 10 then 48 + d else 87 + d).

Fixpoint hex_of_bytes (bs : list N) : string :=
  match bs with
  | [] => EmptyString
  | b :: bs' => String (hex_of_digit (b / 16)) (String (hex_of_digit (b mod 16)) (hex_of_bytes bs'))
  end.

Definition hexdigest (msg : string) : string :=
  let bytes := pad (bytes_of msg) in
  let ws := words_of (List.length bytes) bytes in
  let hs := blocks (List.length ws) ws H0 in
  hex_of_bytes (flat_map (be_bytes 4) hs).

End SHA256.

(** ** [str.encode("utf8")]

    A character below 128 is one byte; a character from 128 to 255 takes
    two bytes. *)
Definition utf8_char (c : ascii) : string :=
  let n := nat_of_ascii c in
  if Nat.ltb n 128 then String c EmptyString
  else String (ascii_of_nat (192 + n / 64))
              (String (ascii_of_nat (128 + n mod 64)) EmptyString).

Fixpoint encode_utf8 (s : string) : string :=
  match s with
  | EmptyString => EmptyString
  | String c s' => utf8_char c ++ encode_utf8 s'
  end.

(** ** _PipfileBase, Pipfile and PipfileLock *)
Module _PipfileBase.

Record t : Type := mk {
  packages : Packages.t;
  dev_packages : Packages.t;
  meta : PipfileMeta.t
}.

Definition set_meta (self : t) (m : PipfileMeta.t) : t :=
  mk (packages self) (dev_packages self) m.

(** The class methods that [parse] dispatches on. *)
Class PipfileClass (T : Type) : Type := {
  cls_from_string : string -> result T;
  cls_from_requirements : string -> result T
}.

Definition from_requirements {T : Type} (requirements_content : string) : result T :=
  Raise NotImplementedError.

Definition from_string {T : Type} (content : string) : result T :=
  Raise NotImplementedError.

Definition parse {T : Type} {cls : PipfileClass T} (content : string) : result T :=
  match cls_from_string content with
  | Raise PipfileParseError => cls_from_requirements content
  | r => r
  end.

Definition add_package_version (package_version : PackageVersion.t) : M t unit :=
  fun self =>
    if PackageVersion.develop package_version then
      (Ok tt, mk (packages self)
                 (Packages.setitem (dev_packages self)
                    (PackageVersion.name package_version) package_version)
                 (meta self))
    else
      (Ok tt, mk (Packages.setitem (packages self)
                    (PackageVersion.name package_version) package_version)
                 (dev_packages self) (meta self)).

(** The local function of [sanitize_source_indexes].  Its first test,
    [source is package_version.index], returns early for one and the same
    object; both guards below are false for an object compared with
    itself, so the test changes no outcome and has no counterpart here. *)
Definition _index_check (index source : Source.t) : result unit :=
  if String.eqb (Source.name source) (Source.name index)
     && negb (String.eqb (Source.url source) (Source.url index))
  then Raise InternalError
  else if String.eqb (Source.name source) (Source.name index)
          && negb (Bool.eqb (Source.verify_ssl source) (Source.verify_ssl index))
  then Raise InternalError
  else Ok tt.

Definition lift {S A : Type} (r : result A) : M S A := fun s => (r, s).

(** The body of the loop of [sanitize_source_indexes], on [meta.sources]. *)
Definition sanitize_package (package_version : PackageVersion.t)
    : M (PyDict.t Source.t) unit :=
  match PackageVersion.index package_version with
  | None => ret tt
  | Some index =>
      (sources <- get_state ;;
       if negb (PyDict.contains sources (Source.name index)) then
         for_each (PyDict.values sources)
           (fun source => lift (_index_check index source)) ;;;
         put_state (PyDict.set sources (Source.name index) index)
       else
         match PyDict.get sources (Source.name index) with
         | Some source => lift (_index_check index source)
         | None => ret tt
         end)%py
  end.

Definition sanitize_sources (self : t) : M (PyDict.t Source.t) unit :=
  for_each (PyDict.values (Packages.packages (packages self))
            ++ PyDict.values (Packages.packages (dev_packages self)))
           sanitize_package.

Definition sanitize_source_indexes : M t unit :=
  fun self =>
    let (r, sources') := sanitize_sources self (PipfileMeta.sources (meta self)) in
    (r, set_meta self (PipfileMeta.set_sources (meta self) sources')).

End _PipfileBase.

Module Pipfile.

(** [class Pipfile(_PipfileBase)] adds no attribute. *)
Definition t : Type := _PipfileBase.t.

(** The property [data]. *)
Definition data (self : t) : json :=
  let meta := PipfileMeta.to_dict (_PipfileBase.meta self) true in
  let meta := [("requires", getitem meta "requires");
               ("sources", getitem meta "sources")] in
  JDict [("default", Packages.to_pipfile (_PipfileBase.packages self));
         ("develop", Packages.to_pipfile (_PipfileBase.dev_packages self));
         ("_meta", JDict meta)].

Definition hash (self : t) : PyDict.t string :=
  let content := dumps (data self) in
  let hexdigest := SHA256.hexdigest (encode_utf8 content) in
  [("sha256", hexdigest)].

Section External.

(** The two parsers and the constructor [from_dict], whose helpers
    [Packages.from_pipfile] and [Source.from_dict] are not among the
    sources.  A parser returns [None] where the library raises. *)
Variable toml_loads : string -> option json.
Variable json_loads : string -> option json.
Variable from_dict : json -> result t.

Definition from_string (pipfile_content : string) : result t :=
  match toml_loads pipfile_content with
  | Some parsed => from_dict parsed
  | None =>
      match json_loads pipfile_content with
      | Some parsed => from_dict parsed
      | None => Raise PipfileParseError
      end
  end.

(** [Pipfile] overrides [from_string] and inherits [from_requirements]. *)
Definition cls : _PipfileBase.PipfileClass t := {|
  _PipfileBase.cls_from_string := from_string;
  _PipfileBase.cls_from_requirements := _PipfileBase.from_requirements
|}.

Definition parse (pipfile_content : string) : result t :=
  @_PipfileBase.parse t cls pipfile_content.

End External.

End Pipfile.

Module PipfileLock.

(** [class PipfileLock(_PipfileBase)] adds the attribute [pipfile], a
    reference to the Pipfile object the lock was made from.  Inside a
    Project it is the project's own [pipfile] object, so the record holds
    no second copy of it. *)
Definition t : Type := _PipfileBase.t.

End PipfileLock.

(** ** Findings of the provenance check *)

Inductive FindingType : Type := ERROR | WARNING | INFO.

(** One entry of a digest report, [{"name": ..., "sha256": ...}]. *)
Record Artifact : Type := mkArtifact {
  artifact_name : option string;
  sha256 : string
}.

(** What [fetch_digests] returns: source url -> artifacts of the package. *)
Definition IndexReport : Type := PyDict.t (list Artifact).

(** The keys of a finding besides [type], [id] and [justification].  The
    entries that the code builds with [Source.to_dict] and
    [PackageVersion.to_pipfile_lock] are kept as the objects themselves;
    [package_name] and [package_version] are read off [package_locked]. *)
Inductive FindingContext : Type :=
| CtxSource (source : Source.t)
| CtxDifferentArtifacts (indexes : list string)
    (package_locked : PackageVersion.t) (sources : IndexReport)
| CtxOtherSources (source : option Source.t)
    (package_locked : PackageVersion.t) (indexes : list string)
    (sources : PyDict.t (list (option string * string)))
| CtxMissing (source : option Source.t)
    (package_locked : PackageVersion.t) (sources : IndexReport)
| CtxDigest (source : option Source.t)
    (package_locked : PackageVersion.t) (digest : string).

Record Finding : Type := mkFinding {
  type : FindingType;
  id : string;
  justification : string;
  context : FindingContext
}.

(** ** Project *)
Module Project.

(** The attributes [runtime_environment], [_graph_db] and [_workdir] take
    no part in the operations below. *)
Record t : Type := mk {
  pipfile : Pipfile.t;
  pipfile_lock : option PipfileLock.t
}.

Definition get_locked_package_version (self : t) (package_name : string)
    : result (option PackageVersion.t) :=
  match pipfile_lock self with
  | None => Raise AttributeError
  | Some lock =>
      let package_version :=
        Packages.get (_PipfileBase.dev_packages lock) package_name in
      let package_version :=
        match package_version with
        | None => Packages.get (_PipfileBase.packages lock) package_name
        | Some _ => package_version
        end in
      Ok package_version
  end.

Definition get_package_version (self : t) (package_name : string)
    : option PackageVersion.t :=
  let package_version :=
    Packages.get (_PipfileBase.dev_packages (pipfile self)) package_name in
  let package_version :=
    match package_version with
    | None => Packages.get (_PipfileBase.packages (pipfile self)) package_name
    | Some _ => package_version
    end in
  package_version.

Definition is_direct_dependency (self : t) (package_version : PackageVersion.t) : bool :=
  Packages.contains (_PipfileBase.packages (pipfile self))
    (PackageVersion.name package_version).

Definition iter_dependencies_locked (self : t) (with_devel : bool)
    : result (list PackageVersion.t) :=
  match pipfile_lock self with
  | None => Raise InternalError
  | Some lock =>
      if with_devel
      then Ok (Packages.iter (_PipfileBase.packages lock)
               ++ Packages.iter (_PipfileBase.dev_packages lock))
      else Ok (Packages.iter (_PipfileBase.packages lock))
  end.

Definition iter_dependencies (self : t) (with_devel : bool) : list PackageVersion.t :=
  if with_devel
  then Packages.iter (_PipfileBase.packages (pipfile self))
       ++ Packages.iter (_PipfileBase.dev_packages (pipfile self))
  else Packages.iter (_PipfileBase.packages (pipfile self)).

(** The section of the Pipfile that [exclude_package] works on, and the
    Pipfile with that section replaced. *)
Definition section_of (self : t) (develop : bool) : Packages.t :=
  if develop then _PipfileBase.dev_packages (pipfile self)
  else _PipfileBase.packages (pipfile self).

Definition set_section (self : t) (develop : bool) (section : Packages.t) : t :=
  let p := pipfile self in
  if develop
  then mk (_PipfileBase.mk (_PipfileBase.packages p) section (_PipfileBase.meta p))
          (pipfile_lock self)
  else mk (_PipfileBase.mk section (_PipfileBase.dev_packages p) (_PipfileBase.meta p))
          (pipfile_lock self).

(** ** Objects handed in by reference

    A method receives its PackageVersion argument by reference.  A place
    is an entry of a section of the Pipfile or of the lock; [held] lists
    the places of the project whose entry is the very object handed in,
    and what a method writes to that object shows at each of them. *)
Inductive place : Type :=
| InPipfile (develop : bool) (package_name : string)
| InLock (develop : bool) (package_name : string).

Definition place_eqb (a b : place) : bool :=
  match a, b with
  | InPipfile d k, InPipfile d' k' => Bool.eqb d d' && String.eqb k k'
  | InLock d k, InLock d' k' => Bool.eqb d d' && String.eqb k k'
  | _, _ => false
  end.

Definition holds (held : list place) (p : place) : bool :=
  existsb (place_eqb p) held.

Definition lock_section_of (lock : PipfileLock.t) (develop : bool) : Packages.t :=
  if develop then _PipfileBase.dev_packages lock else _PipfileBase.packages lock.

(** The entry at a place. *)
Definition at_place (self : t) (p : place) : option PackageVersion.t :=
  match p with
  | InPipfile develop package_name => Packages.get (section_of self develop) package_name
  | InLock develop package_name =>
      match pipfile_lock self with
      | Some lock => Packages.get (lock_section_of lock develop) package_name
      | None => None
      end
  end.

(** The entry under [package_name], if there is one, shows the state
    [package_version] of the object it is. *)
Definition rebind (section : Packages.t) (package_name : string)
    (package_version : PackageVersion.t) : Packages.t :=
  if Packages.contains section package_name
  then Packages.setitem section package_name package_version
  else section.

Definition rewrite_at (package_version : PackageVersion.t) (self : t) (p : place) : t :=
  match p with
  | InPipfile develop package_name =>
      set_section self develop
        (rebind (section_of self develop) package_name package_version)
  | InLock develop package_name =>
      match pipfile_lock self with
      | None => self
      | Some lock =>
          let section :=
            rebind (lock_section_of lock develop) package_name package_version in
          mk (pipfile self)
             (Some (if develop
                    then _PipfileBase.mk (_PipfileBase.packages lock) section
                           (_PipfileBase.meta lock)
                    else _PipfileBase.mk section (_PipfileBase.dev_packages lock)
                           (_PipfileBase.meta lock)))
      end
  end.

(** The project after the object handed in has been rewritten to
    [package_version]. *)
Definition rewrite_held (held : list place) (package_version : PackageVersion.t)
    (self : t) : t :=
  fold_left (rewrite_at package_version) held self.

Section Lock.

(** [pipenv lock] run on the Pipfile written to the working directory and
    the reading of the Pipfile.lock it leaves behind; a failing command
    surfaces as [UnableLock]. *)
Variable run_pipenv_lock : Pipfile.t -> result PipfileLock.t.

Definition pipenv_lock : M t unit :=
  fun self =>
    match run_pipenv_lock (pipfile self) with
    | Ok lock => (Ok tt, mk (pipfile self) (Some lock))
    | Raise e => (Raise e, self)
    end.

(** [package_version] is the state of the object handed in and [held] the
    places of the project that hold this object.  The method rewrites the
    version of the object and stores the object in the section.  When the
    section already holds the object under its name, [to_exclude_package]
    is the object itself, and its version is read after [negate_version]
    has rewritten it. *)
Definition exclude_package (package_version : PackageVersion.t) (held : list place)
    : M t unit :=
  fun self =>
    if negb (PackageVersion.is_locked package_version) then (Raise InternalError, self)
    else
      let develop := PackageVersion.develop package_version in
      let section := section_of self develop in
      let to_exclude_package := Packages.get section (PackageVersion.name package_version) in
      match to_exclude_package with
      | Some to_exclude_package =>
          match PackageVersion.negate_version package_version with
          | (Raise e, _) => (Raise e, self)
          | (Ok _, package_version) =>
              let to_exclude_package :=
                if holds held (InPipfile develop (PackageVersion.name package_version))
                then package_version
                else to_exclude_package in
              let package_version :=
                if negb (String.eqb (PackageVersion.version to_exclude_package) "*")
                then PackageVersion.set_version package_version
                       (PackageVersion.version package_version ++ ","
                        ++ PackageVersion.version to_exclude_package)
                else package_version in
              let self := rewrite_held held package_version self in
              let section :=
                Packages.setitem (section_of self develop)
                  (PackageVersion.name package_version) package_version in
              pipenv_lock (set_section self develop section)
          end
      | None =>
          match PackageVersion.negate_version package_version with
          | (Raise e, _) => (Raise e, self)
          | (Ok _, package_version) =>
              let self := rewrite_held held package_version self in
              let section :=
                Packages.setitem (section_of self develop)
                  (PackageVersion.name package_version) package_version in
              pipenv_lock (set_section self develop section)
          end
      end.

End Lock.

Section Indexes.

(** Modelled from the spec: the comparable version value that
    [semantic_version] parses the pin into, and
    [Source.get_latest_package_version], which fails with NotFound ([None])
    for a package the index does not have. *)
Variable Version : Type.
Variable Version_eqb : Version -> Version -> bool.
Variable parse_semantic_version : string -> Version.
Variable get_latest_package_version : Source.t -> string -> option Version.

Definition semantic_version (package_version : PackageVersion.t) : Version :=
  parse_semantic_version (PackageVersion.locked_version package_version).

Definition Outdated : Type := PyDict.t (PackageVersion.t * Version).

Definition record_outdated (package_version : PackageVersion.t) (latest : Version)
    (result_ : Outdated) : Outdated :=
  if negb (Version_eqb (semantic_version package_version) latest)
  then PyDict.set result_ (PackageVersion.name package_version)
         (package_version, latest)
  else result_.

(** The inner loop over [pipfile_lock.meta.sources.values()]. *)
Fixpoint probe_sources (package_version : PackageVersion.t)
    (indexes : list Source.t) (found : bool) (result_ : Outdated)
    : bool * Outdated :=
  match indexes with
  | [] => (found, result_)
  | index :: rest =>
      match get_latest_package_version index (PackageVersion.name package_version) with
      | None => probe_sources package_version rest found result_
      | Some latest =>
          probe_sources package_version rest true
            (record_outdated package_version latest result_)
      end
  end.

(** One round of the outer loop. *)
Definition check_outdated (sources : PyDict.t Source.t)
    (package_version : PackageVersion.t) (result_ : Outdated) : result Outdated :=
  match PackageVersion.index package_version with
  | Some index =>
      match get_latest_package_version index (PackageVersion.name package_version) with
      | None => Raise NotFound
      | Some latest => Ok (record_outdated package_version latest result_)
      end
  | None =>
      let (found, result_) :=
        probe_sources package_version (PyDict.values sources) false result_ in
      if negb found then Raise NotFound else Ok result_
  end.

Fixpoint outdated_loop (sources : PyDict.t Source.t)
    (deps : list PackageVersion.t) (result_ : Outdated) : result Outdated :=
  match deps with
  | [] => Ok result_
  | package_version :: rest =>
      rbind (check_outdated sources package_version result_)
            (outdated_loop sources rest)
  end.

Definition get_outdated_package_versions (self : t) (devel : bool) : result Outdated :=
  match pipfile_lock self with
  | None => Raise InternalError
  | Some lock =>
      rbind (iter_dependencies_locked self devel)
            (fun deps =>
               outdated_loop (PipfileMeta.sources (_PipfileBase.meta lock)) deps [])
  end.

End Indexes.

(** What one source adds to the report of [_check_sources]. *)
Definition check_source (whitelisted_sources : option (list string))
    (source : Source.t) : list Finding :=
  let whitelist_given :=
    match whitelisted_sources with
    | Some (_ :: _) => true
    | _ => false
    end in
  let whitelist := match whitelisted_sources with Some l => l | None => [] end in
  if whitelist_given && negb (mem_string (Source.url source) whitelist) then
    [mkFinding ERROR "SOURCE-NOT-WHITELISTED"
       ("Provided index " ++ repr (Source.name source)
        ++ " is not stated in the whitelisted package sources listing")
       (CtxSource source)]
  else if negb (Source.verify_ssl source) then
    [mkFinding WARNING "INSECURE-SOURCE"
       ("Source " ++ repr (Source.name source)
        ++ " does not use SSL/TLS verification")
       (CtxSource source)]
  else [].

Definition _check_sources (self : t) (whitelisted_sources : option (list string))
    : list Finding :=
  flat_map (check_source whitelisted_sources)
    (PyDict.values (PipfileMeta.sources (_PipfileBase.meta (pipfile self)))).

(** [h[len("sha256:"):]] *)
Definition strip_sha256 (h : string) : string := drop_chars 7 h.

(** The truth value of [index_report.get(url)] *)
Definition reports_any (index_report : IndexReport) (index_url : string) : bool :=
  match PyDict.get index_report index_url with
  | Some (_ :: _) => true
  | _ => false
  end.

(** [index_report[url]] *)
Definition report_of (index_report : IndexReport) (index_url : string) : list Artifact :=
  match PyDict.get index_report index_url with
  | Some entry => entry
  | None => []
  end.

(** The body of the inner loop that collects [other_sources]. *)
Definition visit_other_source (index : Source.t) (artifact_hash : string)
    (other_sources : PyDict.t (list (option string * string)))
    (item : string * list Artifact) : PyDict.t (list (option string * string)) :=
  let index_url := fst item in
  let index_info := snd item in
  if String.eqb index_url (Source.url index) then other_sources
  else
    let artifact_entry :=
      map (fun i => (artifact_name i, sha256 i))
          (filter (fun i => String.eqb (sha256 i) artifact_hash) index_info) in
    match artifact_entry with
    | [] => other_sources
    | _ :: _ =>
        let present :=
          match PyDict.get other_sources index_url with
          | Some l => l
          | None => []
          end in
        PyDict.set other_sources index_url (present ++ artifact_entry)
    end.

Definition find_other_sources (index : Source.t) (hashes : list string)
    (index_report : IndexReport) : PyDict.t (list (option string * string)) :=
  fold_left
    (fun other_sources artifact_hash =>
       fold_left (visit_other_source index (strip_sha256 artifact_hash))
                 (PyDict.items index_report) other_sources)
    hashes [].

(** First check: sources with different artifacts, no index assigned. *)
Definition check_different_artifacts (package_version : PackageVersion.t)
    (index_report : IndexReport) : list Finding :=
  let hashes := map (map sha256) (PyDict.values index_report) in
  match PackageVersion.index package_version with
  | None =>
      if Nat.ltb 1 (List.length (PyDict.keys index_report)) then
        if negb (set_eqb (List.concat hashes) (nth 0 hashes [])) then
          let sources_reported := join ", " (PyDict.keys index_report) in
          [mkFinding WARNING "DIFFERENT-ARTIFACTS-ON-SOURCES"
             ("Configured sources (" ++ sources_reported
              ++ ") have different artifacts available, specify explicitly source to be used")
             (CtxDifferentArtifacts (PyDict.keys index_report) package_version
                index_report)]
        else []
      else []
  | Some _ => []
  end.

(** Second check: artifacts that are, or can be, installed from a source
    other than the assigned one. *)
Definition check_different_source (package_version : PackageVersion.t)
    (index_report : IndexReport) : list Finding :=
  let hashes := map (map sha256) (PyDict.values index_report) in
  match PackageVersion.index package_version with
  | Some index =>
      if reports_any index_report (Source.url index)
         && Nat.ltb 1 (List.length hashes) then
        let used_package_version_hashes :=
          map strip_sha256 (PackageVersion.hashes package_version) in
        let configured_index_hashes :=
          map sha256 (report_of index_report (Source.url index)) in
        let other_sources :=
          find_other_sources index (PackageVersion.hashes package_version)
            index_report in
        if negb (subsetb used_package_version_hashes configured_index_hashes) then
          [mkFinding ERROR "ARTIFACT-DIFFERENT-SOURCE"
             ("Artifacts are installed from different sources ("
              ++ join "," (PyDict.keys other_sources)
              ++ ") not respecting configuration")
             (CtxOtherSources (Some index) package_version
                (PyDict.keys other_sources) other_sources)]
        else
          match other_sources with
          | _ :: _ =>
              [mkFinding INFO "ARTIFACT-POSSIBLE-DIFFERENT-SOURCE"
                 ("Artifacts can be installed from different sources ("
                  ++ join "," (PyDict.keys other_sources)
                  ++ ") not respecting configuration that expects "
                  ++ repr (Source.name index))
                 (CtxOtherSources (Some index) package_version
                    (PyDict.keys other_sources) other_sources)]
          | [] => []
          end
      else []
  | None => []
  end.

(** Third check: the assigned index has no record of the package. *)
Definition check_missing_package (package_version : PackageVersion.t)
    (index_report : IndexReport) : list Finding :=
  match PackageVersion.index package_version with
  | Some index =>
      if negb (reports_any index_report (Source.url index)) then
        [mkFinding ERROR "MISSING-PACKAGE"
           ("Source index " ++ repr (Source.name index)
            ++ " explicitly assigned to package "
            ++ repr (PackageVersion.name package_version)
            ++ " but there was not found any record for the given package")
           (CtxMissing (Some index) package_version index_report)]
      else []
  | None => []
  end.

(** Fourth check, the [for ... else] over the digests of the package. *)
Definition digest_known (index_report : IndexReport) (digest : string) : bool :=
  existsb (fun index_info =>
             existsb (fun item => String.eqb (sha256 item) digest) index_info)
          (PyDict.values index_report).

Definition check_digest (package_version : PackageVersion.t)
    (index_report : IndexReport) (digest : string) : list Finding :=
  let digest := strip_sha256 digest in
  if digest_known index_report digest then []
  else
    [mkFinding ERROR "INVALID-ARTIFACT-HASH"
       "Hash for the given artifact was not found"
       (CtxDigest (PackageVersion.index package_version) package_version digest)].

Definition _check_scan (package_version : PackageVersion.t)
    (index_report : IndexReport) : list Finding :=
  check_different_artifacts package_version index_report
  ++ check_different_source package_version index_report
  ++ check_missing_package package_version index_report
  ++ flat_map (check_digest package_version index_report)
       (PackageVersion.hashes package_version).

Section Provenance.

(** [digests_fetcher.fetch_digests(name, locked_version)] *)
Variable fetch_digests : string -> string -> IndexReport.

Definition scan_package (acc : list Finding * PyDict.t IndexReport)
    (package_version : PackageVersion.t) : list Finding * PyDict.t IndexReport :=
  let findings := fst acc in
  let report := snd acc in
  if PyDict.contains report (PackageVersion.name package_version) then acc
  else
    let index_report :=
      fetch_digests (PackageVersion.name package_version)
        (PackageVersion.locked_version package_version) in
    (findings ++ _check_scan package_version index_report,
     PyDict.set report (PackageVersion.name package_version) index_report).

Definition _index_scan (self : t) : result (list Finding * PyDict.t IndexReport) :=
  match pipfile_lock self with
  | None => Raise AttributeError
  | Some lock =>
      Ok (fold_left scan_package
            (Packages.iter (_PipfileBase.packages lock)
             ++ Packages.iter (_PipfileBase.dev_packages lock))
            ([], []))
  end.

Definition check_provenance (self : t) (whitelisted_sources : option (list string))
    : result (list Finding) :=
  rbind (_index_scan self) (fun scanned =>
    let findings := fst scanned in
    Ok (findings ++ _check_sources self whitelisted_sources)).

End Provenance.

Definition sanitize_source_indexes : M t unit :=
  fun self =>
    match _PipfileBase.sanitize_source_indexes (pipfile self) with
    | (Raise e, p) => (Raise e, mk p (pipfile_lock self))
    | (Ok _, p) =>
        match pipfile_lock self with
        | None => (Ok tt, mk p None)
        | Some lock =>
            let (r, lock') := _PipfileBase.sanitize_source_indexes lock in
            (r, mk p (Some lock'))
        end
    end.

End Project.

(** * Vocabulary of the properties and data for the examples *)

Definition example_meta (sources : PyDict.t Source.t) : PipfileMeta.t :=
  PipfileMeta.mk sources None None None None.

Definition pypi : Source.t :=
  Source.mk "pypi" "https://pypi.org/simple" true true None.

Definition mirror : Source.t :=
  Source.mk "mirror" "http://mirror.example/simple" false false None.

(** Stand-ins for the two parsers on the one text of interest: a TOML
    document cannot hold [requests==2.25.1], whose value would start with
    [=], and a JSON document cannot start with [r]. *)
Definition rejects_requirement_line (text : string) : option json :=
  if String.eqb text ("requests==2.25.1" ++ newline)%string then None
  else Some (JDict []).

(** The whitelist test of [_check_sources]: a whitelist is given, is not
    empty, and does not list the url of the source. *)
Definition not_whitelisted (whitelisted_sources : option (list string))
    (source : Source.t) : bool :=
  match whitelisted_sources with
  | Some (u :: l) => negb (mem_string (Source.url source) (u :: l))
  | _ => false
  end.

Definition example_pipfile (packages : PyDict.t PackageVersion.t)
    (sources : PyDict.t Source.t) : Pipfile.t :=
  _PipfileBase.mk (Packages.mk false packages) (Packages.mk true [])
    (example_meta sources).

Definition no_pipenv (p : Pipfile.t) : result PipfileLock.t := Raise UnableLock.

(** [held] lists places of the project that hold the object whose state
    is [package_version]: each of them has that state as its entry. *)
Definition held_object (self : Project.t) (package_version : PackageVersion.t)
    (held : list Project.place) : Prop :=
  forall p, In p held -> Project.at_place self p = Some package_version.

(** The version that [exclude_package] writes for a pinned package, given
    the entry of the same name that its section holds, if any, and whether
    that entry is the object handed in, whose version is the negated pin by
    the time it is read. *)
Definition excluded_version (pv : PackageVersion.t) (same_object : bool)
    (existing : option PackageVersion.t) : string :=
  let negated := ("!=" ++ PackageVersion.locked_version pv)%string in
  match existing with
  | Some e =>
      let constraint := if same_object then negated else PackageVersion.version e in
      if String.eqb constraint "*" then negated
      else (negated ++ "," ++ constraint)%string
  | None => negated
  end.

(** A project whose section holds [x==1.0], the package that the examples
    hand in as the stored object itself. *)
Definition project_with_x1 : Project.t :=
  Project.mk
    (_PipfileBase.mk
       (Packages.mk false
          [("x", PackageVersion.mk "x" "==1.0" false None [] None);
           ("y", PackageVersion.mk "y" "*" false None [] None)])
       (Packages.mk true [])
       (PipfileMeta.mk [] None None None None))
    None.

Definition artifact (digest : string) : Artifact :=
  mkArtifact (Some "pkg-1.0.tar.gz") digest.

(** Two sources, the first offering every artifact of the second and one
    more; and the same report with the sources the other way round. *)
Definition report_first_superset : IndexReport :=
  [("https://a.example/simple", [artifact "aaa"; artifact "bbb"]);
   ("https://b.example/simple", [artifact "aaa"])].

Definition report_first_subset : IndexReport :=
  [("https://b.example/simple", [artifact "aaa"]);
   ("https://a.example/simple", [artifact "aaa"; artifact "bbb"])].

Definition pkg_without_index : PackageVersion.t :=
  PackageVersion.mk "pkg" "==1.0" false None ["sha256:aaa"] None.

Definition pkg_on_pypi : PackageVersion.t :=
  PackageVersion.mk "pkg" "==1.0" false (Some pypi) ["sha256:aaa"] None.

(** The findings of a report that carry the given id. *)
Definition with_id (i : string) (findings : list Finding) : list Finding :=
  filter (fun f => String.eqb (id f) i) findings.

Section OutdatedSpec.

Variable Version : Type.
Variable get_latest_package_version : Source.t -> string -> option Version.

(** The versions reported as the latest of a package by the indexes that
    [get_outdated_package_versions] asks about it: the assigned index if
    the package has one, every configured source otherwise. *)
Definition reported_latest (sources : PyDict.t Source.t)
    (package_version : PackageVersion.t) (latest : Version) : Prop :=
  match PackageVersion.index package_version with
  | Some index =>
      get_latest_package_version index (PackageVersion.name package_version)
      = Some latest
  | None =>
      exists source,
        In source (PyDict.values sources)
        /\ get_latest_package_version source (PackageVersion.name package_version)
           = Some latest
  end.

End OutdatedSpec.

(** An index that knows [pkg] with latest version 1.2 and [up] with
    latest version 3.0, and nothing else; versions are compared as the
    text after the pin. *)
Definition example_latest (source : Source.t) (package_name : string) : option string :=
  if String.eqb package_name "pkg" then Some "1.2"
  else if String.eqb package_name "up" then Some "3.0"
  else None.

Definition example_locked : PipfileLock.t :=
  _PipfileBase.mk
    (Packages.mk false
       [("pkg", PackageVersion.mk "pkg" "==1.0" false (Some pypi) [] None);
        ("up", PackageVersion.mk "up" "==3.0" false None [] None)])
    (Packages.mk true [])
    (example_meta [("pypi", pypi)]).

(** A lock that pins [pkg] and [up] in both sections, at different
    versions. *)
Definition locked_twice : PipfileLock.t :=
  _PipfileBase.mk
    (Packages.mk false
       [("pkg", PackageVersion.mk "pkg" "==1.0" false (Some pypi) [] None);
        ("up", PackageVersion.mk "up" "==3.0" false (Some pypi) [] None)])
    (Packages.mk true
       [("pkg", PackageVersion.mk "pkg" "==1.1" true (Some pypi) [] None);
        ("up", PackageVersion.mk "up" "==2.0" true (Some pypi) [] None)])
    (example_meta [("pypi", pypi)]).

(** ** Vocabulary for [sanitize_source_indexes] *)

(** Two sources are consistent if, when they bear the same name, they
    have the same url and the same [verify_ssl] setting. *)
Definition consistent (a b : Source.t) : Prop :=
  Source.name a = Source.name b ->
  Source.url a = Source.url b /\ Source.verify_ssl a = Source.verify_ssl b.

Definition all_consistent (l : list Source.t) : Prop :=
  forall a b, In a l -> In b l -> consistent a b.

(** The same index as far as the check goes: name, url and [verify_ssl]. *)
Definition same_index (a b : Source.t) : Prop :=
  Source.name a = Source.name b
  /\ Source.url a = Source.url b
  /\ Source.verify_ssl a = Source.verify_ssl b.

(** [meta.sources] maps names to sources: every key occurs once and every
    source is stored under its own name, as [PipfileMeta.from_dict] and
    [add_source] build it. *)
Definition sources_wf (sources : PyDict.t Source.t) : Prop :=
  PyDict.wf sources
  /\ forall k s, In (k, s) sources -> k = Source.name s.

(** The indexes that packages refer to, in the order of the packages. *)
Definition referenced (package_versions : list PackageVersion.t) : list Source.t :=
  flat_map (fun pv => match PackageVersion.index pv with
                      | Some i => [i]
                      | None => []
                      end) package_versions.

Definition all_packages (self : _PipfileBase.t) : list PackageVersion.t :=
  PyDict.values (Packages.packages (_PipfileBase.packages self))
  ++ PyDict.values (Packages.packages (_PipfileBase.dev_packages self)).

Definition pypi_http : Source.t :=
  Source.mk "pypi" "http://pypi.org/simple" true true None.

Definition sanitize_example : _PipfileBase.t :=
  _PipfileBase.mk
    (Packages.mk false
       [("pkg", PackageVersion.mk "pkg" "==1.0" false (Some mirror) [] None)])
    (Packages.mk true
       [("tool", PackageVersion.mk "tool" "==2.0" true (Some pypi) [] None)])
    (example_meta [("pypi", pypi)]).

(** No source is registered, and two packages refer to indexes of one
    name and two urls. *)
Definition sanitize_unregistered_example : _PipfileBase.t :=
  _PipfileBase.mk
    (Packages.mk false
       [("pkg", PackageVersion.mk "pkg" "==1.0" false (Some pypi) [] None);
        ("tool", PackageVersion.mk "tool" "==2.0" false (Some pypi_http) [] None)])
    (Packages.mk true [])
    (example_meta []).

Definition sanitize_conflict_example : _PipfileBase.t :=
  _PipfileBase.mk
    (Packages.mk false
       [("pkg", PackageVersion.mk "pkg" "==1.0" false (Some pypi_http) [] None)])
    (Packages.mk true [])
    (example_meta [("pypi", pypi)]).

(** ** Canonical documents and decoding, for the digest *)

(** The document with the items of every dictionary sorted by key: what
    [json.dumps(..., sort_keys=True)] writes down. *)
Fixpoint canon (j : json) : json :=
  match j with
  | JList l => JList (map canon l)
  | JDict d => JDict (sort_items (map (fun kv => (fst kv, canon (snd kv))) d))
  | _ => j
  end.

(** The value of a hexadecimal digit. *)
Definition unhex (c : ascii) : option nat :=
  let n := nat_of_ascii c in
  if Nat.leb 48 n && Nat.leb n 57 then Some (n - 48)
  else if Nat.leb 97 n && Nat.leb n 102 then Some (n - 87)
  else None.

(** Reads one character of a string body written by
    [encode_basestring_ascii] off the front of a text. *)
Definition unescape1 (s : string) : option (ascii * string) :=
  match s with
  | EmptyString => None
  | String c rest =>
      if Ascii.eqb c backslash then
        match rest with
        | EmptyString => None
        | String e rest' =>
            if Ascii.eqb e dquote then Some (dquote, rest')
            else if Ascii.eqb e backslash then Some (backslash, rest')
            else if Ascii.eqb e "n" then Some ("010"%char, rest')
            else if Ascii.eqb e "r" then Some ("013"%char, rest')
            else if Ascii.eqb e "t" then Some ("009"%char, rest')
            else if Ascii.eqb e "b" then Some ("008"%char, rest')
            else if Ascii.eqb e "f" then Some ("012"%char, rest')
            else if Ascii.eqb e "u" then
              match rest' with
              | String _ (String _ (String h1 (String h0 rest''))) =>
                  match unhex h1, unhex h0 with
                  | Some a, Some b => Some (ascii_of_nat (16 * a + b), rest'')
                  | _, _ => None
                  end
              | _ => None
              end
            else None
        end
      else if Ascii.eqb c dquote then None
      else Some (c, rest)
  end.

(** What can follow a value inside a document: nothing, or one of the
    characters [,], [\]] and [}]. *)
Definition delimited (r : string) : Prop :=
  match r with
  | EmptyString => True
  | String c _ => c = ","%char \/ c = "]"%char \/ c = "}"%char
  end.

(** The first character of the text of a value tells its kind. *)
Definition kind_of_char (c : ascii) : nat :=
  if Ascii.eqb c "n" then 0
  else if Ascii.eqb c "t" then 1
  else if Ascii.eqb c "f" then 2
  else if Ascii.eqb c dquote then 4
  else if Ascii.eqb c "[" then 5
  else if Ascii.eqb c "{" then 6
  else if Nat.leb 48 (nat_of_ascii c) && Nat.leb (nat_of_ascii c) 57 then 3
  else 7.

Definition kind_of (j : json) : nat :=
  match j with
  | JNull => 0
  | JBool true => 1
  | JBool false => 2
  | JInt _ => 3
  | JStr _ => 4
  | JList _ => 5
  | JDict _ => 6
  end.

(** A text that starts with a character of the given kind. *)
Definition starts_with_kind (k : nat) (s : string) : Prop :=
  match s with
  | EmptyString => False
  | String c _ => kind_of_char c = k
  end.

(** What follows the first part of a joined sequence. *)
Definition after_first (parts : list string) (rest : string) : string :=
  match parts with
  | [] => rest
  | _ :: _ => String "," (join "," parts ++ rest)
  end.

(** A part of a sequence that can be read back: whatever follows it, the
    text of the part determines its canonical value [h x] and the rest. *)
Definition element_ok {X Y : Type} (g : X -> string) (h : X -> Y) (x : X) : Prop :=
  forall x' r r',
    delimited r -> delimited r' ->
    (g x ++ r = g x' ++ r')%string -> h x = h x' /\ r = r'.

(** Reads one character off the front of a UTF-8 text. *)
Definition utf8_decode1 (s : string) : option (ascii * string) :=
  match s with
  | EmptyString => None
  | String b rest =>
      let n := nat_of_ascii b in
      if Nat.ltb n 128 then Some (b, rest)
      else
        match rest with
        | EmptyString => None
        | String b' rest' =>
            Some (ascii_of_nat ((n - 192) * 64 + (nat_of_ascii b' - 128)), rest')
        end
  end.

(** The text that [Pipfile.hash] digests. *)
Definition hashed_content (p : Pipfile.t) : string := dumps (Pipfile.data p).

(** Two different byte strings with the same SHA-256 digest. *)
Definition sha256_collision (a b : string) : Prop :=
  a <> b /\ SHA256.hexdigest a = SHA256.hexdigest b.

(** What the digest records of a source. *)
Definition source_entry (s : Source.t) : string * string * bool :=
  (Source.name s, Source.url s, Source.verify_ssl s).

Definition regular_packages (p : Pipfile.t) : PyDict.t PackageVersion.t :=
  Packages.packages (_PipfileBase.packages p).

Definition develop_packages (p : Pipfile.t) : PyDict.t PackageVersion.t :=
  Packages.packages (_PipfileBase.dev_packages p).

Definition required (p : Pipfile.t) : PyDict.t json :=
  PipfileMeta.or_empty (PipfileMeta.requires (_PipfileBase.meta p)).

Definition configured_sources (p : Pipfile.t) : list Source.t :=
  PyDict.values (PipfileMeta.sources (_PipfileBase.meta p)).

Definition hash_example_a : Pipfile.t :=
  _PipfileBase.mk
    (Packages.mk false
       [("requests", PackageVersion.mk "requests" "==2.25.1" false None [] None);
        ("flask", PackageVersion.mk "flask" "*" false (Some pypi) [] None)])
    (Packages.mk true [])
    (PipfileMeta.mk [("pypi", pypi)] (Some [("python_version", JStr "3.6")])
       None None None).

Definition hash_example_b : Pipfile.t :=
  _PipfileBase.mk
    (Packages.mk false
       [("flask", PackageVersion.mk "flask" "*" false (Some pypi) [] None);
        ("requests", PackageVersion.mk "requests" "==2.25.1" false None [] None)])
    (Packages.mk true [])
    (PipfileMeta.mk [("pypi", pypi)] (Some [("python_version", JStr "3.6")])
       None None None).

Definition hash_example_c : Pipfile.t :=
  _PipfileBase.mk
    (Packages.mk false
       [("requests", PackageVersion.mk "requests" "==2.26.0" false None [] None);
        ("flask", PackageVersion.mk "flask" "*" false (Some pypi) [] None)])
    (Packages.mk true [])
    (PipfileMeta.mk [("pypi", pypi)] (Some [("python_version", JStr "3.6")])
       None None None).

(** The Pipfile whose one package [pkg] is pinned at the version written
    with [n] ones. *)
Fixpoint ones (n : nat) : string :=
  match n with
  | O => EmptyString
  | S n' => String "1"%char (ones n')
  end.

Definition pinned_at (n : nat) : Pipfile.t :=
  example_pipfile
    [("pkg", PackageVersion.mk "pkg" ("==" ++ ones n) false None [] None)] [].

(** A package of [d] whose version no package of the same name in [d']
    has: its version was changed, or the package is gone. *)
Definition version_changed (d d' : PyDict.t PackageVersion.t) : Prop :=
  exists n pv,
    In (n, pv) d
    /\ forall pv', In (n, pv') d' ->
                   PackageVersion.version pv <> PackageVersion.version pv'.

(** An entry of [d] whose value no entry of the same key in [d'] has, up
    to the order of items inside the values. *)
Definition entry_changed (d d' : PyDict.t json) : Prop :=
  exists k v,
    In (k, v) d /\ forall v', In (k, v') d' -> canon v <> canon v'.

(** * Further operations of the two files *)

(** ** Exceptions of the language

    The methods below can also end in a [KeyError] or a [TypeError]. *)
Inductive pyexn : Type :=
| Known (e : exn)
| KeyError
| TypeError.

Inductive outcome (A : Type) : Type :=
| Done (a : A)
| Fail (e : pyexn).
Arguments Done {A} a.
Arguments Fail {A} e.

(** [d.pop(k)] without a default: the dictionary without the key, or
    [None] where Python raises [KeyError]. *)
Fixpoint PyDict_pop {V : Type} (d : PyDict.t V) (k : string)
    : option (V * PyDict.t V) :=
  match d with
  | [] => None
  | (k', v) :: d' =>
      if String.eqb k' k then Some (v, d')
      else match PyDict_pop d' k with
           | Some (x, d'') => Some (x, (k', v) :: d'')
           | None => None
           end
  end.

(** The truth value of a parsed value. *)
Definition json_truthy (j : json) : bool :=
  match j with
  | JNull => false
  | JBool b => b
  | JInt n => negb (Nat.eqb n 0)
  | JStr s => negb (String.eqb s "")
  | JList l => match l with [] => false | _ :: _ => true end
  | JDict d => match d with [] => false | _ :: _ => true end
  end.

(** [repr] of a parsed value, and [str], which differs on strings only. *)
Fixpoint json_repr (j : json) : string :=
  match j with
  | JNull => "None"
  | JBool true => "True"
  | JBool false => "False"
  | JInt n => str_of_nat n
  | JStr s => repr s
  | JList l => ("[" ++ join ", " (map json_repr l) ++ "]")%string
  | JDict d =>
      ("{" ++ join ", "
                (map (fun kv => (repr (fst kv) ++ ": " ++ json_repr (snd kv))%string) d)
           ++ "}")%string
  end.

Definition json_str (j : json) : string :=
  match j with
  | JStr s => s
  | _ => json_repr j
  end.

(** ** Settings of a project: pre-releases and the Python version *)
Module ProjectSettings.

(** A write to the metadata of the Pipfile.  [lock_shares_meta] says that
    the lock was given the very PipfileMeta object of the Pipfile, as
    [Project.from_package_versions] builds a locked project; the write
    then shows in the metadata of the lock as well. *)
Definition set_meta (lock_shares_meta : bool) (self : Project.t) (m : PipfileMeta.t)
    : Project.t :=
  Project.mk (_PipfileBase.set_meta (Project.pipfile self) m)
             (if lock_shares_meta
              then option_map (fun lock => _PipfileBase.set_meta lock m)
                     (Project.pipfile_lock self)
              else Project.pipfile_lock self).

Definition meta (self : Project.t) : PipfileMeta.t :=
  _PipfileBase.meta (Project.pipfile self).

Definition set_pipenv (m : PipfileMeta.t) (pipenv : option (PyDict.t json))
    : PipfileMeta.t :=
  PipfileMeta.mk (PipfileMeta.sources m) (PipfileMeta.requires m) pipenv
    (PipfileMeta.hash m) (PipfileMeta.pipfile_spec m).

Definition set_requires (m : PipfileMeta.t) (requires : option (PyDict.t json))
    : PipfileMeta.t :=
  PipfileMeta.mk (PipfileMeta.sources m) requires (PipfileMeta.pipenv m)
    (PipfileMeta.hash m) (PipfileMeta.pipfile_spec m).

(** [self.pipfile.meta.pipenv["allow_prereleases"] = allow_prereleases];
    item assignment on [None] is a [TypeError]. *)
Definition set_allow_prereleases (lock_shares_meta : bool) (allow_prereleases : bool)
    (self : Project.t) : outcome unit * Project.t :=
  match PipfileMeta.pipenv (meta self) with
  | None => (Fail TypeError, self)
  | Some pipenv =>
      (Done tt,
       set_meta lock_shares_meta self
         (set_pipenv (meta self)
            (Some (PyDict.set pipenv "allow_prereleases" (JBool allow_prereleases)))))
  end.

(** The property [prereleases_allowed]. *)
Definition prereleases_allowed (self : Project.t) : json :=
  if PipfileMeta.truthy (PipfileMeta.pipenv (meta self)) then
    match PyDict.get (PipfileMeta.or_empty (PipfileMeta.pipenv (meta self)))
            "allow_prereleases" with
    | Some v => v
    | None => JBool false
    end
  else JBool false.

(** [set_python_version(python_version)]: without a version the entry is
    popped from [requires], which is an [AttributeError] on [None] and a
    [KeyError] if the entry is not there. *)
Definition set_python_version (lock_shares_meta : bool)
    (python_version : option string) (self : Project.t) : outcome unit * Project.t :=
  match python_version with
  | None =>
      match PipfileMeta.requires (meta self) with
      | None => (Fail (Known AttributeError), self)
      | Some requires =>
          match PyDict_pop requires "python_version" with
          | None => (Fail KeyError, self)
          | Some (_, requires') =>
              (Done tt,
               set_meta lock_shares_meta self
                 (set_requires (meta self) (Some requires')))
          end
      end
  | Some v =>
      let requires :=
        match PipfileMeta.requires (meta self) with
        | None => []
        | Some requires => requires
        end in
      (Done tt,
       set_meta lock_shares_meta self
         (set_requires (meta self)
            (Some (PyDict.set requires "python_version" (JStr v)))))
  end.

(** The property [python_version]. *)
Definition python_version (self : Project.t) : option json :=
  if negb (PipfileMeta.truthy (PipfileMeta.requires (meta self))) then None
  else PyDict.get (PipfileMeta.or_empty (PipfileMeta.requires (meta self)))
         "python_version".

(** The part of [thoth.common.RuntimeEnvironment] that the configuration
    check touches: the attribute [python_version] ([JNull] for [None]) and,
    untouched, everything else. *)
Record RuntimeEnvironment : Type := mkRuntimeEnvironment {
  runtime_python_version : json;
  runtime_other : PyDict.t json
}.

(** An entry of the configuration report, [{"type": ..., "justification": ...}]. *)
Record ConfigurationFinding : Type := mkConfigurationFinding {
  finding_type : FindingType;
  finding_justification : string
}.

(** [get_configuration_check_report]: [None] for no report, otherwise the
    pair of the recommended runtime configuration, if there is one, and the
    findings.  The configuration is handed back as the object whose
    [to_dict(without_none=True)] the code returns. *)
Definition get_configuration_check_report (self : Project.t)
    (runtime_environment : RuntimeEnvironment)
    : result (option (option RuntimeEnvironment * list ConfigurationFinding)) :=
  match PipfileMeta.requires (meta self) with
  | None => Raise AttributeError
  | Some requires =>
      let pipfile_python_version :=
        match PyDict.get requires "python_version" with
        | Some v => v
        | None => JNull
        end in
      let runtime_python_version := runtime_python_version runtime_environment in
      let recommended_runtime_configuration_entry := runtime_environment in
      if negb (json_truthy pipfile_python_version)
         && negb (json_truthy runtime_python_version)
      then
        Ok (Some (None,
                  [mkConfigurationFinding WARNING
                     ("Please specify Python version in Pipfile using "
                      ++ "`pipenv --python <VERSION>` "
                      ++ "and in Thoth's configuration file to have reproducible "
                      ++ "deployment and "
                      ++ "recommendations targeting specific Python version")%string]))
      else if json_truthy pipfile_python_version
              && negb (json_truthy runtime_python_version)
      then
        Ok (Some (Some (mkRuntimeEnvironment pipfile_python_version
                          (runtime_other recommended_runtime_configuration_entry)),
                  [mkConfigurationFinding WARNING
                     ("Use Python version in Thoth's configuration file to have "
                      ++ "recommendations matching configuration in Pipfile, "
                      ++ "configured Python version "
                      ++ "in Pipfile is " ++ json_str pipfile_python_version)%string]))
      else Ok None
  end.

End ProjectSettings.

(** ** Writing a Pipfile.lock *)
Module PipfileLockWrite.

(** Modelled from the spec: [PackageVersion.to_pipfile_lock], the long
    form of the locked manifest, [{version, hashes}] with [markers] and
    [index] when the package has them. *)
Definition package_to_pipfile_lock (pv : PackageVersion.t) : json :=
  JDict ([("version", JStr (PackageVersion.version pv));
          ("hashes", JList (map JStr (PackageVersion.hashes pv)))]
         ++ match PackageVersion.markers pv with
            | Some m => [("markers", JStr m)]
            | None => []
            end
         ++ match PackageVersion.index pv with
            | Some i => [("index", JStr (Source.name i))]
            | None => []
            end).

(** Modelled from the spec: [Packages.to_pipfile_lock], the section of the
    locked manifest, a table from package name to the long form. *)
Definition to_pipfile_lock (section : Packages.t) : json :=
  JDict (map (fun kv => (fst kv, package_to_pipfile_lock (snd kv)))
             (PyDict.items (Packages.packages section))).

(** The dictionary that [Pipfile.hash] returns, as a parsed value. *)
Definition hash_value (p : Pipfile.t) : json :=
  JDict (map (fun kv => (fst kv, JStr (snd kv))) (Pipfile.hash p)).

(** [PipfileLock.to_dict(pipfile)].  [self_pipfile] is the attribute
    [self.pipfile], which the record of the lock does not hold. *)
Definition to_dict (pipfile self_pipfile : option Pipfile.t)
    : M PipfileLock.t (PyDict.t json) :=
  fun self =>
    let pipfile :=
      match pipfile with
      | Some p => Some p
      | None => self_pipfile
      end in
    match pipfile with
    | None => (Raise InternalError, self)
    | Some pipfile =>
        let (_, meta) := PipfileMeta.set_hash (hash_value pipfile)
                           (_PipfileBase.meta self) in
        let self := _PipfileBase.set_meta self meta in
        match _PipfileBase.sanitize_source_indexes self with
        | (Raise e, self) => (Raise e, self)
        | (Ok _, self) =>
            let content :=
              [("_meta", JDict (PipfileMeta.to_dict (_PipfileBase.meta self) true));
               ("default", to_pipfile_lock (_PipfileBase.packages self));
               ("develop", to_pipfile_lock (_PipfileBase.dev_packages self))] in
            (Ok content, self)
        end
    end.

End PipfileLockWrite.

(** ** Requirements file *)
Module Requirements.

(** What [self.packages.items()] can hand to the loop of
    [to_requirements_file]: PackageVersion objects, or [(name, package)]
    tuples as the [items()] of a dictionary are. *)
Inductive item : Type :=
| ItemPackage (pv : PackageVersion.t)
| ItemPair (k : string) (pv : PackageVersion.t).

(** [item.name] and [item.version]: a tuple has neither attribute. *)
Definition getattr_name (i : item) : result string :=
  match i with
  | ItemPackage pv => Ok (PackageVersion.name pv)
  | ItemPair _ _ => Raise AttributeError
  end.

Definition getattr_version (i : item) : result string :=
  match i with
  | ItemPackage pv => Ok (PackageVersion.version pv)
  | ItemPair _ _ => Raise AttributeError
  end.

Section Items.

(** [Packages.items], which is not among the sources. *)
Variable Packages_items : Packages.t -> list item.

Fixpoint append_requirements (items : list item) (requirements_file : string)
    : result string :=
  match items with
  | [] => Ok requirements_file
  | package_version :: rest =>
      rbind (getattr_name package_version) (fun n =>
      rbind (getattr_version package_version) (fun v =>
        append_requirements rest (requirements_file ++ n ++ v)))
  end.

Definition to_requirements_file (self : _PipfileBase.t) (develop : bool)
    : result string :=
  rbind (PipfileMeta.to_requirements_index_conf (_PipfileBase.meta self))
        (fun requirements_file =>
           append_requirements
             (if negb develop
              then Packages_items (_PipfileBase.packages self)
              else Packages_items (_PipfileBase.dev_packages self))
             requirements_file).

End Items.

End Requirements.

(** ** Adding a source to a project *)
Module ProjectSources.

Section DefaultName.

(** Modelled from the spec: the name that a Source derives from its url
    when none is given. *)
Variable default_name : string -> string.

(** [Project.add_source]; an empty name counts as no name. *)
Definition add_source (url : string) (verify_ssl : bool) (name : option string)
    (warehouse : bool) (warehouse_api_url : option string)
    : M Project.t Source.t :=
  fun self =>
    let source :=
      match name with
      | Some (String c n) =>
          Source.mk (String c n) url verify_ssl warehouse warehouse_api_url
      | _ => Source.mk (default_name url) url verify_ssl warehouse warehouse_api_url
      end in
    let (_, meta) := PipfileMeta.add_source source
                       (_PipfileBase.meta (Project.pipfile self)) in
    let pipfile := _PipfileBase.set_meta (Project.pipfile self) meta in
    match Project.pipfile_lock self with
    | Some lock =>
        let (_, lock_meta) := PipfileMeta.add_source source (_PipfileBase.meta lock) in
        (Ok source, Project.mk pipfile (Some (_PipfileBase.set_meta lock lock_meta)))
    | None => (Ok source, Project.mk pipfile None)
    end.

End DefaultName.

End ProjectSources.

(** * Data for the further examples *)

(** [hash_example_a] with package hashes and markers, a [pipenv] section, a
    stored hash, a [pipfile-spec] and a warehouse flag added. *)
Definition hash_example_noise : Pipfile.t :=
  _PipfileBase.mk
    (Packages.mk false
       [("requests",
         PackageVersion.mk "requests" "==2.25.1" false None ["sha256:aaa"]
           (Some "python_version >= '3'"));
        ("flask", PackageVersion.mk "flask" "*" false (Some pypi_http) [] None)])
    (Packages.mk true [])
    (PipfileMeta.mk
       [("pypi", Source.mk "pypi" "https://pypi.org/simple" true false (Some "api"))]
       (Some [("python_version", JStr "3.6")])
       (Some [("allow_prereleases", JBool true)])
       (Some (JDict [("sha256", JStr "stale")])) (Some 5)).

(** The Pipfile that [PipfileLock.to_dict] digests: the one handed in, or
    else the one the lock holds. *)
Definition chosen_pipfile (pipfile self_pipfile : option Pipfile.t) : option Pipfile.t :=
  match pipfile with
  | Some p => Some p
  | None => self_pipfile
  end.

Definition stale_lock : PipfileLock.t :=
  _PipfileBase.mk
    (Packages.mk false
       [("pkg", PackageVersion.mk "pkg" "==1.0" false (Some mirror) ["sha256:aaa"] None)])
    (Packages.mk true [])
    (PipfileMeta.mk [("pypi", pypi)] None None
       (Some (JDict [("sha256", JStr "stale")])) None).

Definition conflicting_lock : PipfileLock.t :=
  _PipfileBase.mk
    (Packages.mk false
       [("pkg", PackageVersion.mk "pkg" "==1.0" false (Some pypi_http) [] None)])
    (Packages.mk true [])
    (PipfileMeta.mk [("pypi", pypi)] None None
       (Some (JDict [("sha256", JStr "stale")])) None).

Definition project_with_requires (requires : option (PyDict.t json))
    (pipenv : option (PyDict.t json)) : Project.t :=
  Project.mk
    (_PipfileBase.mk (Packages.mk false []) (Packages.mk true [])
       (PipfileMeta.mk [] requires pipenv None None))
    None.

(** A locked project whose lock has the same metadata as the Pipfile. *)
Definition project_sharing_meta : Project.t :=
  Project.mk
    (_PipfileBase.mk (Packages.mk false [("pkg", pkg_on_pypi)]) (Packages.mk true [])
       (example_meta [("pypi", pypi)]))
    (Some (_PipfileBase.mk (Packages.mk false [("pkg", pkg_on_pypi)])
             (Packages.mk true []) (example_meta [("pypi", pypi)]))).

Definition bare_runtime : ProjectSettings.RuntimeEnvironment :=
  ProjectSettings.mkRuntimeEnvironment JNull [("operating_system", JStr "rhel")].

Definition pin_x1 : PackageVersion.t :=
  PackageVersion.mk "x" "==1.0" false None [] None.

Definition project_with_x2 : Project.t :=
  Project.mk
    (example_pipfile
       [("x", PackageVersion.mk "x" "==2.0" false None [] None);
        ("y", PackageVersion.mk "y" "*" false None [] None)] [])
    None.

(** The digest that an INVALID-ARTIFACT-HASH finding reports. *)
Definition finding_digest (f : Finding) : string :=
  match context f with
  | CtxDigest _ _ digest => digest
  | _ => ""
  end.

(** A source of the report other than [index_url] lists the digest of one
    of the hashes. *)
Definition listed_elsewhere (index_url : string) (hashes : list string)
    (index_report : IndexReport) (u : string) : Prop :=
  u <> index_url
  /\ exists info h,
       In (u, info) index_report /\ In h hashes
       /\ In (Project.strip_sha256 h) (map sha256 info).

(** The findings of a scan other than INVALID-ARTIFACT-HASH. *)
Definition verdicts (findings : list Finding) : list Finding :=
  filter (fun f => negb (String.eqb (id f) "INVALID-ARTIFACT-HASH")) findings.

(** The digests that the assigned index lists for the package. *)
Definition configured_hashes (index_report : IndexReport) (index : Source.t)
    : list string :=
  map sha256 (Project.report_of index_report (Source.url index)).

Definition report_pypi_and_mirror : IndexReport :=
  [("https://pypi.org/simple", [artifact "aaa"]);
   ("http://mirror.example/simple", [artifact "aaa"; artifact "ccc"])].

Definition pkg_two_hashes : PackageVersion.t :=
  PackageVersion.mk "pkg" "==1.0" false (Some pypi) ["sha256:aaa"; "sha256:ccc"] None.

(** The packages of a list that are the first of their name, the names in
    [seen] counting as met before. *)
Fixpoint first_by_name (seen : list string) (pvs : list PackageVersion.t)
    : list PackageVersion.t :=
  match pvs with
  | [] => []
  | pv :: rest =>
      if mem_string (PackageVersion.name pv) seen then first_by_name seen rest
      else pv :: first_by_name (PackageVersion.name pv :: seen) rest
  end.

(** A lock that pins [pkg] in both sections, with different hashes. *)
Definition lock_pkg_twice : PipfileLock.t :=
  _PipfileBase.mk
    (Packages.mk false [("pkg", pkg_on_pypi)])
    (Packages.mk true [("pkg", pkg_two_hashes)])
    (example_meta [("pypi", pypi)]).

Definition fetch_pypi_and_mirror (name version : string) : IndexReport :=
  report_pypi_and_mirror.

Section OutdatedEntries.

Variable Version : Type.
Variable Version_eqb : Version -> Version -> bool.
Variable parse_semantic_version : string -> Version.
Variable get_latest_package_version : Source.t -> string -> option Version.

(** Every entry of a result of [get_outdated_package_versions] stands
    under the name of its package, which is one of [deps], and pairs it
    with a version that an index asked about the package reported and
    that does not compare equal to the pinned one. *)
Definition outdated_sound (sources : PyDict.t Source.t)
    (deps : list PackageVersion.t) (r : Project.Outdated Version) : Prop :=
  forall n pv l,
    In (n, (pv, l)) r ->
    n = PackageVersion.name pv
    /\ In pv deps
    /\ reported_latest Version get_latest_package_version sources pv l
    /\ Version_eqb (Project.semantic_version Version parse_semantic_version pv) l
       = false.

End OutdatedEntries.

(** The requirement of a package as [to_requirements_file] writes it. *)
Definition requirement_text (pv : PackageVersion.t) : string :=
  (PackageVersion.name pv ++ PackageVersion.version pv)%string.

Definition items_as_packages (section : Packages.t) : list Requirements.item :=
  map Requirements.ItemPackage (Packages.iter section).

Definition two_requirements : _PipfileBase.t :=
  _PipfileBase.mk
    (Packages.mk false
       [("pkg", PackageVersion.mk "pkg" "==1.0" false None [] None);
        ("up", PackageVersion.mk "up" "==3.0" false None [] None)])
    (Packages.mk true [])
    (example_meta []).

(** * Properties *)

#[local] Arguments String.eqb : simpl never.

(** ** Ordered dictionaries *)

Lemma PyDict_get_set_eq :
  forall (V : Type) (d : PyDict.t V) (k : string) (v : V),
    PyDict.get (PyDict.set d k v) k = Some v.
Proof.
  induction d as [|[k' v'] d IH]; intros k v; simpl.
  - now rewrite String.eqb_refl.
  - destruct (String.eqb k' k) eqn:E; simpl; rewrite E; auto.
Qed.

Lemma PyDict_get_set_neq :
  forall (V : Type) (d : PyDict.t V) (k k' : string) (v : V),
    k <> k' -> PyDict.get (PyDict.set d k v) k' = PyDict.get d k'.
Proof.
  induction d as [|[k0 v0] d IH]; intros k k' v Hne; simpl.
  - apply String.eqb_neq in Hne. now rewrite Hne.
  - destruct (String.eqb_spec k0 k) as [->|E]; simpl.
    + apply String.eqb_neq in Hne. now rewrite Hne.
    + destruct (String.eqb k0 k'); auto.
Qed.

Lemma PyDict_get_In :
  forall (V : Type) (d : PyDict.t V) (k : string) (v : V),
    PyDict.get d k = Some v -> In (k, v) d.
Proof.
  induction d as [|[k' v'] d IH]; intros k v; simpl; [discriminate|].
  destruct (String.eqb_spec k' k) as [->|Hne].
  - intros [= ->]. now left.
  - intros H. right. now apply IH.
Qed.

Lemma PyDict_In_get :
  forall (V : Type) (d : PyDict.t V) (k : string) (v : V),
    PyDict.wf d -> In (k, v) d -> PyDict.get d k = Some v.
Proof.
  induction d as [|[k' v'] d IH]; intros k v Hwf Hin; simpl in *; [contradiction|].
  inversion Hwf as [|? ? Hnotin Hwf']; subst.
  destruct Hin as [[= -> ->]|Hin].
  - now rewrite String.eqb_refl.
  - destruct (String.eqb_spec k' k) as [->|Hne].
    + exfalso. apply Hnotin. change k with (fst (k, v)). now apply in_map.
    + now apply IH.
Qed.

Lemma PyDict_get_None_keys :
  forall (V : Type) (d : PyDict.t V) (k : string),
    PyDict.get d k = None <-> ~ In k (PyDict.keys d).
Proof.
  induction d as [|[k' v'] d IH]; intros k; simpl.
  - tauto.
  - destruct (String.eqb_spec k' k) as [->|Hne].
    + split; [discriminate|]. intros H. exfalso. apply H. now left.
    + rewrite IH. tauto.
Qed.

Lemma mem_string_In :
  forall (x : string) (xs : list string), mem_string x xs = true <-> In x xs.
Proof.
  intros x xs. unfold mem_string. rewrite existsb_exists. split.
  - intros [y [Hy E]]. apply String.eqb_eq in E. now subst.
  - intros H. exists x. split; [assumption|apply String.eqb_refl].
Qed.

(** ** Lookup of a package by name *)

(** C10: [get_locked_package_version] on a project with a lock answers with
    the entry of the dev section whenever that section has the name (so
    also when both sections have it), with the entry of the regular section
    when only that one has it, and with [None] when neither has it;
    [get_package_version] does the same over the sections of the Pipfile. *)
Theorem get_package_version_dev_first :
  forall (p : Pipfile.t) (lock : PipfileLock.t) (package_name : string),
    let self := Project.mk p (Some lock) in
    (forall d r,
        Packages.get (_PipfileBase.dev_packages lock) package_name = Some d ->
        Packages.get (_PipfileBase.packages lock) package_name = r ->
        Project.get_locked_package_version self package_name = Ok (Some d))
    /\ (forall r,
        Packages.get (_PipfileBase.dev_packages lock) package_name = None ->
        Packages.get (_PipfileBase.packages lock) package_name = Some r ->
        Project.get_locked_package_version self package_name = Ok (Some r))
    /\ (Packages.get (_PipfileBase.dev_packages lock) package_name = None ->
        Packages.get (_PipfileBase.packages lock) package_name = None ->
        Project.get_locked_package_version self package_name = Ok None)
    /\ (forall d r,
        Packages.get (_PipfileBase.dev_packages p) package_name = Some d ->
        Packages.get (_PipfileBase.packages p) package_name = r ->
        Project.get_package_version self package_name = Some d)
    /\ (forall r,
        Packages.get (_PipfileBase.dev_packages p) package_name = None ->
        Packages.get (_PipfileBase.packages p) package_name = Some r ->
        Project.get_package_version self package_name = Some r)
    /\ (Packages.get (_PipfileBase.dev_packages p) package_name = None ->
        Packages.get (_PipfileBase.packages p) package_name = None ->
        Project.get_package_version self package_name = None).
Proof.
  intros p lock package_name self.
  unfold Project.get_locked_package_version, Project.get_package_version; simpl.
  repeat split; intros.
  all: repeat match goal with
              | H : Packages.get _ _ = _ |- _ => rewrite H; clear H
              end; reflexivity.
Qed.

Lemma get_package_version_dev_first_witness :
  let dev_entry := PackageVersion.mk "pytest" "==5.0" true None [] None in
  let reg_entry := PackageVersion.mk "pytest" "==4.0" false None [] None in
  let lock :=
    _PipfileBase.mk (Packages.mk false [("pytest", reg_entry)])
                    (Packages.mk true [("pytest", dev_entry)])
                    (example_meta []) in
  Project.get_locked_package_version (Project.mk lock (Some lock)) "pytest"
  = Ok (Some dev_entry).
Proof.
  intros dev_entry reg_entry lock.
  exact (proj1 (get_package_version_dev_first lock lock "pytest")
           dev_entry (Some reg_entry) eq_refl eq_refl).
Defined.

(** ** Index configuration of a requirements file *)

Lemma index_conf_loop_items_raise :
  forall (self : PipfileMeta.t) (added : bool) (acc : string),
    PipfileMeta.sources self <> [] ->
    PipfileMeta.index_conf_loop (PipfileMeta.sources_items self) added acc
    = Raise AttributeError.
Proof.
  intros self added acc Hne. unfold PipfileMeta.sources_items, PyDict.items.
  destruct (PipfileMeta.sources self) as [|[k s] rest]; [contradiction|].
  simpl. now destruct added.
Qed.

(** With at least one source the method raises AttributeError: the loop
    variable is a [(name, source)] tuple, which has no [url]. *)
Lemma to_requirements_index_conf_raises :
  forall self : PipfileMeta.t,
    PipfileMeta.sources self <> [] ->
    PipfileMeta.to_requirements_index_conf self = Raise AttributeError.
Proof.
  intros self Hne. unfold PipfileMeta.to_requirements_index_conf.
  now apply index_conf_loop_items_raise.
Qed.

(** C4: on the metadata with the sources [pypi] and [mirror] the method
    raises AttributeError, where the documented rendering over the values
    of the mapping is the [-i] line of the first source followed by the
    [--extra-index-url] line of the second. *)
Theorem to_requirements_index_conf_items_defect :
  let self := example_meta [("pypi", pypi); ("mirror", mirror)] in
  PipfileMeta.to_requirements_index_conf self = Raise AttributeError
  /\ PipfileMeta.requirements_index_conf_spec self
     = Ok ("-i https://pypi.org/simple" ++ newline
           ++ "--extra-index-url http://mirror.example/simple" ++ newline)%string.
Proof.
  split; reflexivity.
Qed.

(** ** Parsing with the requirements fallback *)

(** Whenever neither parser accepts the text, [Pipfile.parse] ends in the
    inherited [from_requirements], which raises NotImplementedError. *)
Lemma parse_fallback_not_implemented :
  forall (toml_loads json_loads : string -> option json)
         (from_dict : json -> result Pipfile.t) (text : string),
    toml_loads text = None ->
    json_loads text = None ->
    Pipfile.from_string toml_loads json_loads from_dict text = Raise PipfileParseError
    /\ Pipfile.parse toml_loads json_loads from_dict text = Raise NotImplementedError.
Proof.
  intros toml_loads json_loads from_dict text Ht Hj.
  unfold Pipfile.parse, _PipfileBase.parse, Pipfile.from_string; simpl.
  unfold Pipfile.from_string. now rewrite Ht, Hj.
Qed.

(** C2: on the text [requests==2.25.1] followed by a newline, which both
    parsers reject, [Pipfile.parse] raises NotImplementedError instead of
    returning a manifest that holds the package requests pinned to
    2.25.1. *)
Theorem parse_requirements_text_not_implemented :
  forall from_dict : json -> result Pipfile.t,
    Pipfile.parse rejects_requirement_line rejects_requirement_line from_dict
      ("requests==2.25.1" ++ newline)%string
    = Raise NotImplementedError.
Proof.
  intros from_dict.
  apply (parse_fallback_not_implemented rejects_requirement_line
           rejects_requirement_line from_dict); reflexivity.
Qed.

(** ** Source policy pass of the provenance check *)

Lemma check_source_not_whitelisted :
  forall (whitelist : option (list string)) (source : Source.t),
    Project.check_source whitelist source =
    if not_whitelisted whitelist source then
      [mkFinding ERROR "SOURCE-NOT-WHITELISTED"
         ("Provided index " ++ repr (Source.name source)
          ++ " is not stated in the whitelisted package sources listing")
         (CtxSource source)]
    else if negb (Source.verify_ssl source) then
      [mkFinding WARNING "INSECURE-SOURCE"
         ("Source " ++ repr (Source.name source)
          ++ " does not use SSL/TLS verification")
         (CtxSource source)]
    else [].
Proof.
  intros [[|u l]|] source; reflexivity.
Qed.

(** The findings of [check_provenance] are those of the index scan
    followed by those of the source policy pass. *)
Lemma check_provenance_appends_check_sources :
  forall (fetch_digests : string -> string -> IndexReport) (self : Project.t)
         (whitelist : option (list string)) (scanned : list Finding * PyDict.t IndexReport),
    Project._index_scan fetch_digests self = Ok scanned ->
    Project.check_provenance fetch_digests self whitelist
    = Ok (fst scanned ++ Project._check_sources self whitelist).
Proof.
  intros fetch_digests self whitelist scanned H.
  unfold Project.check_provenance. now rewrite H.
Qed.

(** C3, as amended: for a configured source, the report of the source
    policy pass holds a WARNING with id INSECURE-SOURCE for that source
    exactly when its [verify_ssl] flag is false and it is not turned down
    by the whitelist test (no whitelist, an empty one, or its url is
    listed). *)
Theorem check_sources_insecure_source :
  forall (self : Project.t) (whitelist : option (list string)) (source : Source.t),
    In source (PyDict.values
                 (PipfileMeta.sources (_PipfileBase.meta (Project.pipfile self)))) ->
    ((exists f, In f (Project._check_sources self whitelist)
                /\ type f = WARNING /\ id f = "INSECURE-SOURCE"
                /\ context f = CtxSource source)
     <-> Source.verify_ssl source = false /\ not_whitelisted whitelist source = false).
Proof.
  intros self whitelist source Hin. unfold Project._check_sources. split.
  - intros [f [Hf [Hty [Hid Hctx]]]].
    apply in_flat_map in Hf. destruct Hf as [s [_ Hf]].
    rewrite check_source_not_whitelisted in Hf.
    destruct (not_whitelisted whitelist s) eqn:Hw.
    + destruct Hf as [<-|[]]. discriminate Hty.
    + destruct (Source.verify_ssl s) eqn:Hs; simpl in Hf; [contradiction|].
      destruct Hf as [<-|[]]. simpl in Hctx. injection Hctx as ->. now split.
  - intros [Hs Hw].
    exists (mkFinding WARNING "INSECURE-SOURCE"
              ("Source " ++ repr (Source.name source)
               ++ " does not use SSL/TLS verification")
              (CtxSource source)).
    split; [|repeat split].
    apply in_flat_map. exists source. split; [assumption|].
    rewrite check_source_not_whitelisted, Hw, Hs. simpl. left. reflexivity.
Qed.

Lemma check_sources_insecure_source_witness :
  exists f, In f (Project._check_sources
                    (Project.mk (example_pipfile [] [("mirror", mirror)]) None)
                    (Some ["http://mirror.example/simple"]))
            /\ type f = WARNING /\ id f = "INSECURE-SOURCE"
            /\ context f = CtxSource mirror.
Proof.
  apply (check_sources_insecure_source
           (Project.mk (example_pipfile [] [("mirror", mirror)]) None)
           (Some ["http://mirror.example/simple"]) mirror).
  - simpl. left. reflexivity.
  - split; reflexivity.
Defined.

(** C3, as stated, fails: the source [mirror] has SSL verification off
    and is not on the whitelist; the report holds the one ERROR finding
    SOURCE-NOT-WHITELISTED and no INSECURE-SOURCE warning. *)
Lemma check_sources_insecure_source_counterexample :
  let self := Project.mk (example_pipfile [] [("mirror", mirror)]) None in
  let whitelist := Some ["https://pypi.org/simple"] in
  In mirror (PyDict.values
               (PipfileMeta.sources (_PipfileBase.meta (Project.pipfile self))))
  /\ Source.verify_ssl mirror = false
  /\ map id (Project._check_sources self whitelist) = ["SOURCE-NOT-WHITELISTED"]
  /\ ~ (exists f, In f (Project._check_sources self whitelist)
                  /\ type f = WARNING /\ id f = "INSECURE-SOURCE").
Proof.
  intros self whitelist. repeat split.
  - simpl. now left.
  - intros [f [Hf [Hty _]]]. simpl in Hf. destruct Hf as [<-|[]]. discriminate Hty.
Qed.

(** ** Excluding a package *)

Lemma negate_version_locked :
  forall pv : PackageVersion.t,
    PackageVersion.is_locked pv = true ->
    PackageVersion.negate_version pv
    = (Ok tt, PackageVersion.set_version pv ("!=" ++ PackageVersion.locked_version pv)).
Proof.
  intros pv H. unfold PackageVersion.negate_version. now rewrite H.
Qed.

Lemma section_of_set_section :
  forall (self : Project.t) (develop : bool) (section : Packages.t),
    Project.section_of (Project.set_section self develop section) develop = section.
Proof.
  intros self [|] section; reflexivity.
Qed.

Lemma pipenv_lock_keeps_pipfile :
  forall (run : Pipfile.t -> result PipfileLock.t) (self : Project.t),
    Project.pipfile (snd (Project.pipenv_lock run self)) = Project.pipfile self.
Proof.
  intros run self. unfold Project.pipenv_lock.
  destruct (run (Project.pipfile self)); reflexivity.
Qed.

Lemma section_of_pipenv_lock :
  forall (run : Pipfile.t -> result PipfileLock.t) (self : Project.t) (develop : bool),
    Project.section_of (snd (Project.pipenv_lock run self)) develop
    = Project.section_of self develop.
Proof.
  intros run self develop. unfold Project.section_of.
  now rewrite pipenv_lock_keeps_pipfile.
Qed.

(** *** The object handed in and the places that hold it *)

Lemma place_eqb_eq :
  forall a b : Project.place, Project.place_eqb a b = true <-> a = b.
Proof.
  intros [d k|d k] [d' k'|d' k']; simpl; split; try discriminate.
  - intros H. apply andb_true_iff in H. destruct H as [Hd Hk].
    apply Bool.eqb_prop in Hd. apply String.eqb_eq in Hk. now subst.
  - intros [= -> ->]. now rewrite Bool.eqb_reflx, String.eqb_refl.
  - intros H. apply andb_true_iff in H. destruct H as [Hd Hk].
    apply Bool.eqb_prop in Hd. apply String.eqb_eq in Hk. now subst.
  - intros [= -> ->]. now rewrite Bool.eqb_reflx, String.eqb_refl.
Qed.

Lemma holds_In :
  forall (held : list Project.place) (p : Project.place),
    Project.holds held p = true <-> In p held.
Proof.
  intros held p. unfold Project.holds. rewrite existsb_exists. split.
  - intros [q [Hq E]]. apply place_eqb_eq in E. now subst.
  - intros H. exists p. split; [assumption|]. now apply place_eqb_eq.
Qed.

Lemma rebind_get :
  forall (section : Packages.t) (k n : string) (pv : PackageVersion.t),
    Packages.get (Project.rebind section k pv) n
    = if String.eqb k n
      then option_map (fun _ => pv) (Packages.get section n)
      else Packages.get section n.
Proof.
  intros section k n pv.
  unfold Project.rebind, Packages.contains, PyDict.contains, Packages.get.
  destruct (String.eqb_spec k n) as [->|Hne].
  - destruct (PyDict.get (Packages.packages section) n) eqn:G; simpl.
    + apply PyDict_get_set_eq.
    + exact G.
  - destruct (PyDict.get (Packages.packages section) k); simpl; [|reflexivity].
    now apply PyDict_get_set_neq.
Qed.

Lemma option_map_const_twice :
  forall (A B : Type) (b : B) (x : option A),
    option_map (fun _ => b) (option_map (fun _ => b) x) = option_map (fun _ => b) x.
Proof. intros A B b [a|]; reflexivity. Qed.

Lemma at_place_rewrite_at :
  forall (pv : PackageVersion.t) (self : Project.t) (q p : Project.place),
    Project.at_place (Project.rewrite_at pv self q) p
    = if Project.place_eqb p q
      then option_map (fun _ => pv) (Project.at_place self p)
      else Project.at_place self p.
Proof.
  intros pv [pf lk] [d k|d k] [d' n|d' n]; simpl.
  - destruct d, d'; simpl; rewrite ?rebind_get, ?(String.eqb_sym n k); reflexivity.
  - now destruct d.
  - now destruct lk.
  - destruct lk as [lock|]; simpl; [|now destruct (Bool.eqb d' d && String.eqb n k)].
    destruct d, d'; simpl; rewrite ?rebind_get, ?(String.eqb_sym n k); reflexivity.
Qed.

Lemma at_place_rewrite_held :
  forall (held : list Project.place) (pv : PackageVersion.t) (self : Project.t)
         (p : Project.place),
    Project.at_place (Project.rewrite_held held pv self) p
    = if Project.holds held p
      then option_map (fun _ => pv) (Project.at_place self p)
      else Project.at_place self p.
Proof.
  unfold Project.rewrite_held, Project.holds.
  induction held as [|q rest IH]; intros pv self p; simpl; [reflexivity|].
  rewrite IH, at_place_rewrite_at.
  destruct (Project.place_eqb p q); simpl.
  - destruct (existsb (Project.place_eqb p) rest); [|reflexivity].
    apply option_map_const_twice.
  - reflexivity.
Qed.

Lemma meta_rewrite_held :
  forall (held : list Project.place) (pv : PackageVersion.t) (self : Project.t),
    _PipfileBase.meta (Project.pipfile (Project.rewrite_held held pv self))
    = _PipfileBase.meta (Project.pipfile self).
Proof.
  unfold Project.rewrite_held.
  induction held as [|q rest IH]; intros pv self; simpl; [reflexivity|].
  rewrite IH. destruct q as [d k|d k]; simpl.
  - now destruct d.
  - now destruct (Project.pipfile_lock self).
Qed.

(** What [exclude_package] does with a pinned package: the object handed
    in is rewritten wherever it is held and stored in its section, and
    the project is locked again. *)
Lemma exclude_package_locked :
  forall (run : Pipfile.t -> result PipfileLock.t) (pv : PackageVersion.t)
         (held : list Project.place) (self : Project.t),
    PackageVersion.is_locked pv = true ->
    let develop := PackageVersion.develop pv in
    let stored := Project.InPipfile develop (PackageVersion.name pv) in
    let rewritten :=
      PackageVersion.set_version pv
        (excluded_version pv (Project.holds held stored)
           (Packages.get (Project.section_of self develop) (PackageVersion.name pv))) in
    let self' := Project.rewrite_held held rewritten self in
    Project.exclude_package run pv held self
    = Project.pipenv_lock run
        (Project.set_section self' develop
           (Packages.setitem (Project.section_of self' develop)
              (PackageVersion.name pv) rewritten)).
Proof.
  intros run pv held self Hlocked develop stored rewritten self'.
  subst self' rewritten stored develop.
  unfold Project.exclude_package, excluded_version.
  rewrite Hlocked. cbn [negb].
  rewrite (negate_version_locked pv Hlocked). cbn [PackageVersion.set_version
    PackageVersion.name PackageVersion.develop PackageVersion.version].
  destruct (Packages.get (Project.section_of self (PackageVersion.develop pv))
              (PackageVersion.name pv)) as [existing|]; [|reflexivity].
  destruct (Project.holds held
              (Project.InPipfile (PackageVersion.develop pv) (PackageVersion.name pv))).
  - cbn [PackageVersion.set_version PackageVersion.version].
    destruct (String.eqb ("!=" ++ PackageVersion.locked_version pv) "*"); reflexivity.
  - destruct (String.eqb (PackageVersion.version existing) "*"); reflexivity.
Qed.

Lemma exclude_package_entry :
  forall (run : Pipfile.t -> result PipfileLock.t) (pv : PackageVersion.t)
         (held : list Project.place) (self : Project.t),
    PackageVersion.is_locked pv = true ->
    let develop := PackageVersion.develop pv in
    Packages.get
      (Project.section_of (snd (Project.exclude_package run pv held self)) develop)
      (PackageVersion.name pv)
    = Some (PackageVersion.set_version pv
              (excluded_version pv
                 (Project.holds held (Project.InPipfile develop (PackageVersion.name pv)))
                 (Packages.get (Project.section_of self develop)
                    (PackageVersion.name pv)))).
Proof.
  intros run pv held self Hlocked develop.
  rewrite (exclude_package_locked run pv held self Hlocked). cbv zeta.
  rewrite section_of_pipenv_lock, section_of_set_section.
  unfold Packages.get, Packages.setitem. simpl. apply PyDict_get_set_eq.
Qed.

(** The object handed in is pinned; an entry that is not pinned, or that
    differs from it in any way, is another object. *)
Lemma held_object_other :
  forall (self : Project.t) (pv existing : PackageVersion.t)
         (held : list Project.place) (p : Project.place),
    held_object self pv held ->
    Project.at_place self p = Some existing ->
    existing <> pv ->
    Project.holds held p = false.
Proof.
  intros self pv existing held p Hheld Hat Hne.
  destruct (Project.holds held p) eqn:E; [|reflexivity].
  apply holds_In in E. rewrite (Hheld p E) in Hat. congruence.
Qed.

(** C1, as amended: when the section that matches the [develop] flag of
    the pinned package has an entry of the same name, [exclude_package]
    leaves in that section the package handed in with its version
    rewritten.  If the package handed in is an object of its own, as it
    is whenever the entry differs from it, the version is the negated pin
    alone if the entry's version was [*], and otherwise the negated pin,
    a comma, and the entry's version (negation first, existing constraint
    second).  If the package handed in is the stored entry itself, the
    version is the negated pin twice.  This holds whatever the relock
    does. *)
Theorem exclude_package_negation_first :
  forall (run : Pipfile.t -> result PipfileLock.t) (self : Project.t)
         (pv existing : PackageVersion.t) (held : list Project.place),
    PackageVersion.is_locked pv = true ->
    Packages.get (Project.section_of self (PackageVersion.develop pv))
      (PackageVersion.name pv) = Some existing ->
    let stored := Project.InPipfile (PackageVersion.develop pv) (PackageVersion.name pv) in
    let negated := ("!=" ++ PackageVersion.locked_version pv)%string in
    Packages.get
      (Project.section_of (snd (Project.exclude_package run pv held self))
         (PackageVersion.develop pv))
      (PackageVersion.name pv)
    = Some (PackageVersion.set_version pv
              (if Project.holds held stored then negated ++ "," ++ negated
               else if String.eqb (PackageVersion.version existing) "*"
                    then negated
                    else negated ++ "," ++ PackageVersion.version existing)%string)
    /\ (held_object self pv held -> existing <> pv -> Project.holds held stored = false).
Proof.
  intros run self pv existing held Hlocked Hget stored negated. split.
  - rewrite (exclude_package_entry run pv held self Hlocked). cbv zeta.
    rewrite Hget. unfold excluded_version. fold stored. fold negated.
    destruct (Project.holds held stored); [|reflexivity].
    assert (Hn : String.eqb negated "*" = false) by reflexivity.
    now rewrite Hn.
  - intros Hheld Hne.
    apply (held_object_other self pv existing held stored Hheld); assumption.
Qed.

Lemma exclude_package_negation_first_witness :
  let x2 := PackageVersion.mk "x" "==2.0" false None [] None in
  let x1 := PackageVersion.mk "x" "==1.0" false None [] None in
  let self := Project.mk (example_pipfile [("x", x2)] []) None in
  option_map PackageVersion.version
    (Packages.get
       (Project.section_of (snd (Project.exclude_package no_pipenv x1 [] self)) false) "x")
  = Some "!=1.0,==2.0".
Proof.
  intros x2 x1 self.
  exact (f_equal (option_map PackageVersion.version)
           (proj1 (exclude_package_negation_first no_pipenv self x1 x2 [] eq_refl
                     eq_refl))).
Defined.

(** C1, as stated, fails: excluding [x==1.0] against the entry [x==2.0]
    stores the version [!=1.0,==2.0], not [==2.0,!=1.0]; against the entry
    [x *] it stores [!=1.0]. *)
Lemma exclude_package_order_counterexample :
  let x2 := PackageVersion.mk "x" "==2.0" false None [] None in
  let xs := PackageVersion.mk "x" "*" false None [] None in
  let x1 := PackageVersion.mk "x" "==1.0" false None [] None in
  let after (entry : PackageVersion.t) :=
    option_map PackageVersion.version
      (Packages.get
         (Project.section_of
            (snd (Project.exclude_package no_pipenv x1 []
                    (Project.mk (example_pipfile [("x", entry)] []) None)))
            false) "x") in
  after xs = Some "!=1.0"
  /\ after x2 = Some "!=1.0,==2.0"
  /\ after x2 <> Some "==2.0,!=1.0".
Proof.
  repeat split. discriminate.
Qed.

(** ** Index scan: a package missing on its assigned index *)

Lemma subsetb_incl :
  forall xs ys : list string, subsetb xs ys = true <-> incl xs ys.
Proof.
  intros xs ys. unfold subsetb. rewrite forallb_forall. unfold incl.
  split; intros H x Hx; apply mem_string_In; auto.
Qed.

Lemma set_eqb_spec :
  forall xs ys : list string, set_eqb xs ys = true <-> incl xs ys /\ incl ys xs.
Proof.
  intros xs ys. unfold set_eqb.
  now rewrite andb_true_iff, !subsetb_incl.
Qed.

Lemma digest_known_spec :
  forall (report : IndexReport) (digest : string),
    Project.digest_known report digest = true
    <-> exists u entry, In (u, entry) report /\ In digest (map sha256 entry).
Proof.
  intros report digest. unfold Project.digest_known, PyDict.values.
  rewrite existsb_exists. split.
  - intros [entry [Hin Hex]]. apply in_map_iff in Hin.
    destruct Hin as [[u e] [<- Hin]]. simpl in Hex.
    apply existsb_exists in Hex. destruct Hex as [a [Ha E]].
    apply String.eqb_eq in E. exists u, e. split; [assumption|].
    rewrite <- E. now apply in_map.
  - intros [u [entry [Hin Hd]]]. exists entry. split.
    + change entry with (snd (u, entry)). now apply in_map.
    + apply in_map_iff in Hd. destruct Hd as [a [<- Ha]].
      apply existsb_exists. exists a. split; [assumption|apply String.eqb_refl].
Qed.

Lemma check_digests_known :
  forall (pv : PackageVersion.t) (report : IndexReport) (hashes : list string),
    (forall h, In h hashes -> Project.digest_known report (Project.strip_sha256 h) = true) ->
    flat_map (Project.check_digest pv report) hashes = [].
Proof.
  intros pv report hashes. induction hashes as [|h hs IH]; intros H; simpl.
  - reflexivity.
  - unfold Project.check_digest at 1. rewrite (H h (or_introl eq_refl)). simpl.
    apply IH. intros h' Hh'. apply H. now right.
Qed.

Lemma with_id_check_digests :
  forall (i : string) (pv : PackageVersion.t) (report : IndexReport) (hashes : list string),
    i <> "INVALID-ARTIFACT-HASH" ->
    with_id i (flat_map (Project.check_digest pv report) hashes) = [].
Proof.
  intros i pv report hashes Hi. unfold with_id.
  induction hashes as [|h hs IH]; simpl; [reflexivity|].
  rewrite filter_app, IH, app_nil_r. unfold Project.check_digest.
  destruct (Project.digest_known report (Project.strip_sha256 h)); simpl; [reflexivity|].
  destruct (String.eqb_spec "INVALID-ARTIFACT-HASH" i) as [E|_]; [|reflexivity].
  now elim Hi.
Qed.

(** C6: for a package with an assigned index whose url has no entries in
    the digest report (the url is absent or maps to an empty list), the
    scan yields exactly one finding with id MISSING-PACKAGE and that
    finding is an ERROR; when in addition every recorded hash of the
    package is listed under some source of the report, that finding is
    the whole result of the scan. *)
Theorem check_scan_missing_package :
  forall (pv : PackageVersion.t) (index : Source.t) (report : IndexReport),
    PackageVersion.index pv = Some index ->
    Project.report_of report (Source.url index) = [] ->
    (exists f, with_id "MISSING-PACKAGE" (Project._check_scan pv report) = [f]
               /\ type f = ERROR /\ id f = "MISSING-PACKAGE"
               /\ context f = CtxMissing (Some index) pv report)
    /\ ((forall h, In h (PackageVersion.hashes pv) ->
           exists u entry, In (u, entry) report
                           /\ In (Project.strip_sha256 h) (map sha256 entry)) ->
        exists f, Project._check_scan pv report = [f]
                  /\ type f = ERROR /\ id f = "MISSING-PACKAGE").
Proof.
  intros pv index report Hidx Hnone.
  assert (Hany : Project.reports_any report (Source.url index) = false).
  { unfold Project.report_of in Hnone. unfold Project.reports_any.
    destruct (PyDict.get report (Source.url index)) as [[|a l]|]; auto; discriminate. }
  assert (Hscan : Project._check_scan pv report =
                  Project.check_missing_package pv report
                  ++ flat_map (Project.check_digest pv report) (PackageVersion.hashes pv)).
  { unfold Project._check_scan, Project.check_different_artifacts,
      Project.check_different_source. now rewrite Hidx, Hany. }
  assert (Hmiss : exists f, Project.check_missing_package pv report = [f]
                            /\ type f = ERROR /\ id f = "MISSING-PACKAGE"
                            /\ context f = CtxMissing (Some index) pv report).
  { unfold Project.check_missing_package. rewrite Hidx, Hany. simpl.
    eexists. split; [reflexivity|]. repeat split. }
  destruct Hmiss as [f [Hf [Hty [Hid Hctx]]]].
  split.
  - exists f. rewrite Hscan, Hf. unfold with_id at 1. rewrite filter_app.
    fold (with_id "MISSING-PACKAGE"
            (flat_map (Project.check_digest pv report) (PackageVersion.hashes pv))).
    rewrite with_id_check_digests by discriminate.
    simpl. rewrite Hid. simpl. now repeat split.
  - intros Hall. exists f. rewrite Hscan, Hf, check_digests_known.
    + now repeat split.
    + intros h Hh. apply digest_known_spec. now apply Hall.
Qed.

Lemma check_scan_missing_package_witness :
  exists f, Project._check_scan pkg_on_pypi report_first_superset = [f]
            /\ type f = ERROR /\ id f = "MISSING-PACKAGE".
Proof.
  apply (proj2 (check_scan_missing_package pkg_on_pypi pypi report_first_superset
                  eq_refl eq_refl)).
  intros h [<-|[]].
  exists "https://a.example/simple", [artifact "aaa"; artifact "bbb"].
  split; simpl; auto.
Defined.

(** ** Index scan: sources with different artifacts *)

Lemma subsetb_false :
  forall xs ys : list string,
    subsetb xs ys = false <-> exists x, In x xs /\ ~ In x ys.
Proof.
  intros xs ys. unfold subsetb. induction xs as [|x xs IH]; simpl.
  - split; [discriminate|]. intros [x [[] _]].
  - rewrite andb_false_iff, IH. split.
    + intros [H|[y [Hy Hn]]].
      * exists x. split; [now left|]. intros Hin.
        apply mem_string_In in Hin. congruence.
      * exists y. split; [now right|assumption].
    + intros [y [[<-|Hy] Hn]].
      * left. destruct (mem_string x ys) eqn:E; [|reflexivity].
        apply mem_string_In in E. contradiction.
      * right. now exists y.
Qed.

Lemma first_incl_concat :
  forall hashes : list (list string), incl (nth 0 hashes []) (List.concat hashes).
Proof.
  intros [|h hs]; simpl.
  - intros x [].
  - intros x Hx. apply in_or_app. now left.
Qed.

(** What the comparison of the union of all hash lists with the set of
    the first list, [hashes[0]], decides: some source lists a hash that
    the first source does not list. *)
Lemma union_differs_from_first :
  forall hashes : list (list string),
    negb (set_eqb (List.concat hashes) (nth 0 hashes [])) = true
    <-> exists h, In h (List.concat hashes) /\ ~ In h (nth 0 hashes []).
Proof.
  intros hashes. rewrite negb_true_iff. unfold set_eqb.
  assert (H0 : subsetb (nth 0 hashes []) (List.concat hashes) = true)
    by (apply subsetb_incl, first_incl_concat).
  rewrite H0, andb_true_r. apply subsetb_false.
Qed.

(** For a package without an index and a report over more than one
    source, the scan warns about different artifacts exactly when some
    source lists a hash that the first source of the report does not
    list. *)
Lemma check_scan_different_artifacts_iff :
  forall (pv : PackageVersion.t) (report : IndexReport),
    PackageVersion.index pv = None ->
    1 < List.length (PyDict.keys report) ->
    let hashes := map (map sha256) (PyDict.values report) in
    with_id "DIFFERENT-ARTIFACTS-ON-SOURCES" (Project._check_scan pv report) <> []
    <-> exists h, In h (List.concat hashes) /\ ~ In h (nth 0 hashes []).
Proof.
  intros pv report Hidx Hlen hashes.
  rewrite <- union_differs_from_first.
  unfold Project._check_scan, Project.check_different_source,
    Project.check_missing_package, Project.check_different_artifacts.
  rewrite Hidx. apply Nat.ltb_lt in Hlen. rewrite Hlen. simpl app.
  fold hashes. unfold with_id. rewrite filter_app.
  fold (with_id "DIFFERENT-ARTIFACTS-ON-SOURCES"
          (flat_map (Project.check_digest pv report) (PackageVersion.hashes pv))).
  rewrite with_id_check_digests by discriminate. rewrite app_nil_r.
  destruct (negb (set_eqb (List.concat hashes) (nth 0 hashes []))); simpl.
  - split; [reflexivity|discriminate].
  - split; [intros H; now elim H|discriminate].
Qed.

(** C5: the report [report_first_superset] covers two sources whose hash
    sets differ, the first listing every hash of the second and one more;
    for a package without an index the scan gives no finding at all,
    where the claim asks for the warning.  With the same two sources the
    other way round the warning is given. *)
Theorem check_scan_first_superset_unwarned :
  PackageVersion.index pkg_without_index = None
  /\ List.length (PyDict.keys report_first_superset) = 2
  /\ set_eqb (map sha256 (Project.report_of report_first_superset "https://a.example/simple"))
             (map sha256 (Project.report_of report_first_superset "https://b.example/simple"))
     = false
  /\ Project._check_scan pkg_without_index report_first_superset = []
  /\ map id (Project._check_scan pkg_without_index report_first_subset)
     = ["DIFFERENT-ARTIFACTS-ON-SOURCES"].
Proof.
  repeat split.
Qed.

(** ** Outdated packages *)

Section Outdated.

Variable Version : Type.
Variable Version_eqb : Version -> Version -> bool.
Variable parse_semantic_version : string -> Version.
Variable get_latest_package_version : Source.t -> string -> option Version.

Hypothesis Version_eqb_eq : forall a b : Version, Version_eqb a b = true <-> a = b.

Local Abbreviation semver := (Project.semantic_version Version parse_semantic_version).
Local Abbreviation record :=
  (Project.record_outdated Version Version_eqb parse_semantic_version).
Local Abbreviation probe :=
  (Project.probe_sources Version Version_eqb parse_semantic_version
     get_latest_package_version).
Local Abbreviation check :=
  (Project.check_outdated Version Version_eqb parse_semantic_version
     get_latest_package_version).
Local Abbreviation loop :=
  (Project.outdated_loop Version Version_eqb parse_semantic_version
     get_latest_package_version).
Local Abbreviation reported := (reported_latest Version get_latest_package_version).
Local Abbreviation latest_of := get_latest_package_version.

Lemma record_outdated_same :
  forall (pv : PackageVersion.t) (latest : Version) (r : Project.Outdated Version),
    latest = semver pv -> record pv latest r = r.
Proof.
  intros pv latest r ->. unfold Project.record_outdated.
  now rewrite (proj2 (Version_eqb_eq _ _) eq_refl).
Qed.

Lemma record_outdated_differs :
  forall (pv : PackageVersion.t) (latest : Version) (r : Project.Outdated Version),
    latest <> semver pv ->
    record pv latest r = PyDict.set r (PackageVersion.name pv) (pv, latest).
Proof.
  intros pv latest r Hne. unfold Project.record_outdated.
  destruct (Version_eqb (semver pv) latest) eqn:E; [|reflexivity].
  apply Version_eqb_eq in E. now elim Hne.
Qed.

Lemma record_outdated_other :
  forall (pv : PackageVersion.t) (latest : Version) (r : Project.Outdated Version)
         (n : string),
    n <> PackageVersion.name pv ->
    PyDict.get (record pv latest r) n = PyDict.get r n.
Proof.
  intros pv latest r n Hn. unfold Project.record_outdated.
  destruct (negb _); [|reflexivity].
  apply PyDict_get_set_neq. congruence.
Qed.

(** Either some index of the list reports a latest version other than the
    pinned one, or every answer is the pinned version. *)
Lemma differing_report_dec :
  forall (pv : PackageVersion.t) (indexes : list Source.t),
    (exists s l, In s indexes /\ latest_of s (PackageVersion.name pv) = Some l
                 /\ l <> semver pv)
    \/ (forall s l, In s indexes -> latest_of s (PackageVersion.name pv) = Some l ->
                    l = semver pv).
Proof.
  intros pv indexes. induction indexes as [|s0 rest IH].
  - right. intros s l [].
  - destruct IH as [[s [l [Hin [Hl Hne]]]]|Hall].
    + left. exists s, l. repeat split; auto. now right.
    + destruct (latest_of s0 (PackageVersion.name pv)) as [l0|] eqn:E0.
      * destruct (Version_eqb (semver pv) l0) eqn:Eq.
        -- apply Version_eqb_eq in Eq. right. intros s l [<-|Hin] Hl.
           ++ congruence.
           ++ now apply (Hall s).
        -- left. exists s0, l0. repeat split; auto; [now left|].
           intros ->. rewrite (proj2 (Version_eqb_eq _ _) eq_refl) in Eq. discriminate.
      * right. intros s l [<-|Hin] Hl; [congruence|now apply (Hall s)].
Qed.

Lemma probe_sources_found :
  forall (pv : PackageVersion.t) (indexes : list Source.t) (found : bool)
         (r : Project.Outdated Version),
    fst (probe pv indexes found r) = true
    <-> found = true
        \/ exists s l, In s indexes /\ latest_of s (PackageVersion.name pv) = Some l.
Proof.
  intros pv indexes. induction indexes as [|s rest IH]; intros found r; simpl.
  - split; [now left|]. intros [H|[s [l [[] _]]]]. assumption.
  - destruct (latest_of s (PackageVersion.name pv)) as [l|] eqn:E.
    + split; [|intros _; apply IH; now left].
      intros _. right. exists s, l. split; [now left|assumption].
    + rewrite IH. split.
      * intros [H|[s' [l [Hin Hl]]]]; [now left|].
        right. exists s', l. split; [now right|assumption].
      * intros [H|[s' [l [[<-|Hin] Hl]]]]; [now left|congruence|].
        right. now exists s', l.
Qed.

Lemma probe_sources_other :
  forall (pv : PackageVersion.t) (indexes : list Source.t) (found : bool)
         (r : Project.Outdated Version) (n : string),
    n <> PackageVersion.name pv ->
    PyDict.get (snd (probe pv indexes found r)) n = PyDict.get r n.
Proof.
  intros pv indexes. induction indexes as [|s rest IH]; intros found r n Hn; simpl.
  - reflexivity.
  - destruct (latest_of s (PackageVersion.name pv)) as [l|].
    + rewrite IH by assumption. now apply record_outdated_other.
    + now apply IH.
Qed.

Lemma probe_sources_up_to_date :
  forall (pv : PackageVersion.t) (indexes : list Source.t) (found : bool)
         (r : Project.Outdated Version),
    (forall s l, In s indexes -> latest_of s (PackageVersion.name pv) = Some l ->
                 l = semver pv) ->
    snd (probe pv indexes found r) = r.
Proof.
  intros pv indexes. induction indexes as [|s rest IH]; intros found r H; simpl.
  - reflexivity.
  - destruct (latest_of s (PackageVersion.name pv)) as [l|] eqn:E.
    + rewrite record_outdated_same by (apply (H s); [now left|assumption]).
      apply IH. intros s' l' Hin. apply H. now right.
    + apply IH. intros s' l' Hin. apply H. now right.
Qed.

Lemma probe_sources_outdated :
  forall (pv : PackageVersion.t) (indexes : list Source.t) (found : bool)
         (r : Project.Outdated Version) (s : Source.t) (l : Version),
    In s indexes ->
    latest_of s (PackageVersion.name pv) = Some l ->
    l <> semver pv ->
    exists s' l', In s' indexes
                  /\ latest_of s' (PackageVersion.name pv) = Some l'
                  /\ l' <> semver pv
                  /\ PyDict.get (snd (probe pv indexes found r)) (PackageVersion.name pv)
                     = Some (pv, l').
Proof.
  intros pv indexes. induction indexes as [|s0 rest IH]; intros found r s l Hin Hl Hne.
  - destruct Hin.
  - simpl. destruct (differing_report_dec pv rest) as [[s1 [l1 [Hin1 [Hl1 Hne1]]]]|Hall].
    + assert (Hrest : forall found' r',
                 exists s' l', In s' (s0 :: rest)
                   /\ latest_of s' (PackageVersion.name pv) = Some l'
                   /\ l' <> semver pv
                   /\ PyDict.get (snd (probe pv rest found' r')) (PackageVersion.name pv)
                      = Some (pv, l')).
      { intros found' r'.
        destruct (IH found' r' s1 l1 Hin1 Hl1 Hne1) as [s' [l' [H1 [H2 [H3 H4]]]]].
        exists s', l'. repeat split; auto. now right. }
      destruct (latest_of s0 (PackageVersion.name pv)); apply Hrest.
    + destruct Hin as [<-|Hin]; [|elim Hne; now apply (Hall s)].
      rewrite Hl, probe_sources_up_to_date by assumption.
      rewrite record_outdated_differs by assumption.
      exists s0, l. repeat split; auto using in_eq, PyDict_get_set_eq.
Qed.

Lemma check_outdated_unanswered :
  forall (sources : PyDict.t Source.t) (pv : PackageVersion.t)
         (r : Project.Outdated Version),
    (forall l, ~ reported sources pv l) -> check sources pv r = Raise NotFound.
Proof.
  intros sources pv r H. unfold Project.check_outdated, reported_latest in *.
  destruct (PackageVersion.index pv) as [index|].
  - destruct (latest_of index (PackageVersion.name pv)) as [l|]; [|reflexivity].
    now elim (H l).
  - destruct (probe pv (PyDict.values sources) false r) as [found r1] eqn:E.
    destruct found; [|reflexivity]. exfalso.
    assert (Hf : fst (probe pv (PyDict.values sources) false r) = true) by now rewrite E.
    apply probe_sources_found in Hf. destruct Hf as [Hf|[s [l [Hin Hl]]]]; [discriminate|].
    apply (H l). now exists s.
Qed.

Lemma check_outdated_answered :
  forall (sources : PyDict.t Source.t) (pv : PackageVersion.t)
         (r : Project.Outdated Version) (l : Version),
    reported sources pv l -> exists r', check sources pv r = Ok r'.
Proof.
  intros sources pv r l H. unfold Project.check_outdated, reported_latest in *.
  destruct (PackageVersion.index pv) as [index|].
  - rewrite H. eexists. reflexivity.
  - destruct (probe pv (PyDict.values sources) false r) as [found r1] eqn:E.
    assert (Hf : fst (probe pv (PyDict.values sources) false r) = true).
    { apply probe_sources_found. right. destruct H as [s [Hin Hl]]. now exists s, l. }
    rewrite E in Hf. simpl in Hf. subst found. eexists. reflexivity.
Qed.

Lemma check_outdated_raises :
  forall (sources : PyDict.t Source.t) (pv : PackageVersion.t)
         (r : Project.Outdated Version) (e : exn),
    check sources pv r = Raise e -> e = NotFound.
Proof.
  intros sources pv r e. unfold Project.check_outdated.
  destruct (PackageVersion.index pv) as [index|].
  - destruct (latest_of index (PackageVersion.name pv)); congruence.
  - destruct (probe pv (PyDict.values sources) false r) as [[|] r1]; simpl; congruence.
Qed.

Lemma check_outdated_other :
  forall (sources : PyDict.t Source.t) (pv : PackageVersion.t)
         (r r' : Project.Outdated Version) (n : string),
    check sources pv r = Ok r' ->
    n <> PackageVersion.name pv ->
    PyDict.get r' n = PyDict.get r n.
Proof.
  intros sources pv r r' n H Hn. unfold Project.check_outdated in H.
  destruct (PackageVersion.index pv) as [index|].
  - destruct (latest_of index (PackageVersion.name pv)) as [l|]; [|discriminate].
    injection H as <-. now apply record_outdated_other.
  - pose proof (probe_sources_other pv (PyDict.values sources) false r n Hn) as Ho.
    destruct (probe pv (PyDict.values sources) false r) as [[|] r1]; [|discriminate].
    simpl in *. now injection H as <-.
Qed.

Lemma check_outdated_up_to_date :
  forall (sources : PyDict.t Source.t) (pv : PackageVersion.t)
         (r r' : Project.Outdated Version),
    check sources pv r = Ok r' ->
    (forall l, reported sources pv l -> l = semver pv) ->
    r' = r.
Proof.
  intros sources pv r r' H Hall. unfold Project.check_outdated, reported_latest in *.
  destruct (PackageVersion.index pv) as [index|].
  - destruct (latest_of index (PackageVersion.name pv)) as [l|]; [|discriminate].
    injection H as <-. apply record_outdated_same. now apply Hall.
  - assert (Hs : snd (probe pv (PyDict.values sources) false r) = r).
    { apply probe_sources_up_to_date. intros s l Hin Hl. apply Hall. now exists s. }
    destruct (probe pv (PyDict.values sources) false r) as [[|] r1]; [|discriminate].
    simpl in *. injection H as <-. assumption.
Qed.

Lemma check_outdated_outdated :
  forall (sources : PyDict.t Source.t) (pv : PackageVersion.t)
         (r r' : Project.Outdated Version) (l : Version),
    check sources pv r = Ok r' ->
    reported sources pv l ->
    l <> semver pv ->
    exists l', reported sources pv l' /\ l' <> semver pv
               /\ PyDict.get r' (PackageVersion.name pv) = Some (pv, l').
Proof.
  intros sources pv r r' l H Hrep Hne. unfold Project.check_outdated, reported_latest in *.
  destruct (PackageVersion.index pv) as [index|].
  - rewrite Hrep in H. injection H as <-. exists l. repeat split; auto.
    rewrite record_outdated_differs by assumption. apply PyDict_get_set_eq.
  - destruct Hrep as [s [Hin Hl]].
    destruct (probe_sources_outdated pv (PyDict.values sources) false r s l Hin Hl Hne)
      as [s' [l' [H1 [H2 [H3 H4]]]]].
    destruct (probe pv (PyDict.values sources) false r) as [[|] r1]; [|discriminate].
    simpl in *. injection H as <-. exists l'. repeat split; auto. now exists s'.
Qed.

Lemma outdated_loop_raises :
  forall (sources : PyDict.t Source.t) (deps : list PackageVersion.t)
         (r : Project.Outdated Version) (e : exn),
    loop sources deps r = Raise e -> e = NotFound.
Proof.
  intros sources deps. induction deps as [|q rest IH]; intros r e; simpl.
  - discriminate.
  - destruct (check sources q r) as [r1|e1] eqn:E; simpl.
    + apply IH.
    + intros [= <-]. now apply check_outdated_raises in E.
Qed.

Lemma outdated_loop_unanswered :
  forall (sources : PyDict.t Source.t) (deps : list PackageVersion.t)
         (r : Project.Outdated Version) (pv : PackageVersion.t),
    In pv deps ->
    (forall l, ~ reported sources pv l) ->
    loop sources deps r = Raise NotFound.
Proof.
  intros sources deps. induction deps as [|q rest IH]; intros r pv Hin Hno.
  - destruct Hin.
  - simpl. destruct Hin as [->|Hin].
    + now rewrite check_outdated_unanswered.
    + destruct (check sources q r) as [r1|e1] eqn:E; simpl.
      * now apply (IH r1 pv).
      * apply check_outdated_raises in E. now subst.
Qed.

Lemma outdated_loop_answered :
  forall (sources : PyDict.t Source.t) (deps : list PackageVersion.t)
         (r : Project.Outdated Version),
    (forall pv, In pv deps -> exists l, reported sources pv l) ->
    exists r', loop sources deps r = Ok r'.
Proof.
  intros sources deps. induction deps as [|q rest IH]; intros r Hall; simpl.
  - now exists r.
  - destruct (Hall q (or_introl eq_refl)) as [l Hl].
    destruct (check_outdated_answered sources q r l Hl) as [r1 ->]. simpl.
    apply IH. intros pv Hin. apply Hall. now right.
Qed.

Lemma outdated_loop_other :
  forall (sources : PyDict.t Source.t) (deps : list PackageVersion.t)
         (r r' : Project.Outdated Version) (n : string),
    loop sources deps r = Ok r' ->
    ~ In n (map PackageVersion.name deps) ->
    PyDict.get r' n = PyDict.get r n.
Proof.
  intros sources deps. induction deps as [|q rest IH]; intros r r' n H Hn; simpl in *.
  - now injection H as <-.
  - destruct (check sources q r) as [r1|e1] eqn:E; simpl in H; [|discriminate].
    rewrite (IH r1 r' n H) by tauto.
    apply (check_outdated_other sources q r r1 n E). intros ->. tauto.
Qed.

(** What the finished loop holds under the name of a package that occurs
    once among the packages gone through. *)
Lemma outdated_loop_entry :
  forall (sources : PyDict.t Source.t) (deps : list PackageVersion.t)
         (r r' : Project.Outdated Version) (pv : PackageVersion.t),
    loop sources deps r = Ok r' ->
    NoDup (map PackageVersion.name deps) ->
    In pv deps ->
    ((forall l, reported sources pv l -> l = semver pv) ->
     PyDict.get r' (PackageVersion.name pv) = PyDict.get r (PackageVersion.name pv))
    /\ (forall l, reported sources pv l -> l <> semver pv ->
        exists l', reported sources pv l' /\ l' <> semver pv
                   /\ PyDict.get r' (PackageVersion.name pv) = Some (pv, l')).
Proof.
  intros sources deps. induction deps as [|q rest IH]; intros r r' pv H Hnd Hin.
  - destruct Hin.
  - simpl in *. inversion Hnd as [|? ? Hnotin Hnd']; subst.
    destruct (check sources q r) as [r1|e1] eqn:E; simpl in H; [|discriminate].
    destruct Hin as [->|Hin].
    + rewrite (outdated_loop_other sources rest r1 r' _ H Hnotin). split.
      * intros Hall. now rewrite (check_outdated_up_to_date sources pv r r1 E Hall).
      * intros l Hl Hne. now apply (check_outdated_outdated sources pv r r1 l).
    + assert (Hneq : PackageVersion.name pv <> PackageVersion.name q).
      { intros Heq. apply Hnotin. rewrite <- Heq. now apply in_map. }
      destruct (IH r1 r' pv H Hnd' Hin) as [IH1 IH2]. split.
      * intros Hall. rewrite (IH1 Hall).
        now apply (check_outdated_other sources q r r1).
      * assumption.
Qed.

(** C7: on a project with a lock, [get_outdated_package_versions] asks,
    for every locked package it goes through, the assigned index or, if
    there is none, every configured source, passing over the sources that
    answer NotFound.  It fails with NotFound as soon as one package gets no
    answer at all.  When every package gets an answer it returns a
    mapping; there, for a package whose name occurs once, the name is
    absent if every answer equals the pinned version, and it is mapped to
    the package paired with a reported latest version that differs from
    the pinned one otherwise; with an assigned index that is the pair of
    the package and the latest version of that index. *)
Theorem get_outdated_package_versions_spec :
  forall (self : Project.t) (lock : PipfileLock.t) (devel : bool),
    Project.pipfile_lock self = Some lock ->
    let sources := PipfileMeta.sources (_PipfileBase.meta lock) in
    let deps :=
      if devel
      then Packages.iter (_PipfileBase.packages lock)
           ++ Packages.iter (_PipfileBase.dev_packages lock)
      else Packages.iter (_PipfileBase.packages lock) in
    let outdated :=
      Project.get_outdated_package_versions Version Version_eqb
        parse_semantic_version get_latest_package_version self devel in
    (forall pv, In pv deps -> (forall l, ~ reported sources pv l) ->
                outdated = Raise NotFound)
    /\ ((forall pv, In pv deps -> exists l, reported sources pv l) ->
        exists r,
          outdated = Ok r
          /\ (NoDup (map PackageVersion.name deps) ->
              forall pv, In pv deps ->
                ((forall l, reported sources pv l -> l = semver pv) ->
                 PyDict.get r (PackageVersion.name pv) = None)
                /\ (forall l, reported sources pv l -> l <> semver pv ->
                    exists l', reported sources pv l' /\ l' <> semver pv
                               /\ PyDict.get r (PackageVersion.name pv) = Some (pv, l'))
                /\ (forall index l,
                      PackageVersion.index pv = Some index ->
                      latest_of index (PackageVersion.name pv) = Some l ->
                      l <> semver pv ->
                      PyDict.get r (PackageVersion.name pv) = Some (pv, l)))).
Proof.
  intros self lock devel Hlock sources deps outdated.
  assert (Hrun : outdated = loop sources deps []).
  { unfold outdated, Project.get_outdated_package_versions,
      Project.iter_dependencies_locked. rewrite Hlock.
    unfold deps, sources. now destruct devel. }
  rewrite Hrun. split.
  - intros pv Hin Hno. now apply (outdated_loop_unanswered sources deps [] pv).
  - intros Hall. destruct (outdated_loop_answered sources deps [] Hall) as [r Hr].
    exists r. split; [assumption|].
    intros Hnd pv Hin.
    destruct (outdated_loop_entry sources deps [] r pv Hr Hnd Hin) as [H1 H2].
    repeat split.
    + intros Hup. now rewrite (H1 Hup).
    + assumption.
    + intros index l Hidx Hl Hne.
      assert (Hrep : reported sources pv l) by (unfold reported_latest; now rewrite Hidx).
      destruct (H2 l Hrep Hne) as [l' [Hrep' [_ Hget]]].
      unfold reported_latest in Hrep'. rewrite Hidx in Hrep'. congruence.
Qed.

End Outdated.

Lemma get_outdated_package_versions_spec_witness :
  exists r,
    Project.get_outdated_package_versions string String.eqb (fun s => s) example_latest
      (Project.mk example_locked (Some example_locked)) true = Ok r
    /\ PyDict.get r "pkg"
       = Some (PackageVersion.mk "pkg" "==1.0" false (Some pypi) [] None, "1.2")
    /\ PyDict.get r "up" = None.
Proof.
  pose proof (get_outdated_package_versions_spec string String.eqb (fun s => s)
                example_latest String.eqb_eq
                (Project.mk example_locked (Some example_locked)) example_locked true
                eq_refl) as [_ H].
  destruct H as [r [Hr Hentries]].
  - intros pv [<-|[<-|[]]].
    + exists "1.2". reflexivity.
    + exists "3.0". exists pypi. split; [now left|reflexivity].
  - exists r. split; [exact Hr|].
    assert (Hnd : NoDup (map PackageVersion.name
                           (Packages.iter (_PipfileBase.packages example_locked)
                            ++ Packages.iter (_PipfileBase.dev_packages example_locked)))).
    { simpl. repeat constructor; simpl; intuition discriminate. }
    split.
    + destruct (Hentries Hnd (PackageVersion.mk "pkg" "==1.0" false (Some pypi) [] None))
        as [_ [_ H3]]; [now left|].
      apply (H3 pypi "1.2"); [reflexivity|reflexivity|discriminate].
    + destruct (Hentries Hnd (PackageVersion.mk "up" "==3.0" false None [] None))
        as [H1 _]; [right; now left|].
      apply H1. intros l [s [[<-|[]] Hl]]. simpl in Hl. now injection Hl as <-.
Defined.

(** C7, as stated, fails for a name that is locked in both sections: the
    regular [pkg] is pinned at 1.0 and its index reports 1.2, but the
    result maps [pkg] to the development entry, pinned at 1.1, and holds
    no pair for the regular one; the regular [up] is pinned at the version
    its index reports, and [up] is in the result all the same. *)
Lemma get_outdated_package_versions_duplicate_counterexample :
  let pkg := PackageVersion.mk "pkg" "==1.0" false (Some pypi) [] None in
  let up := PackageVersion.mk "up" "==3.0" false (Some pypi) [] None in
  let self := Project.mk locked_twice (Some locked_twice) in
  exists r,
    Project.get_outdated_package_versions string String.eqb (fun s => s) example_latest
      self true = Ok r
    /\ Project.iter_dependencies_locked self false = Ok [pkg; up]
    /\ reported_latest string example_latest
         (PipfileMeta.sources (_PipfileBase.meta locked_twice)) pkg "1.2"
    /\ Project.semantic_version string (fun s => s) pkg = "1.0"
    /\ PyDict.get r "pkg" <> Some (pkg, "1.2")
    /\ (forall n l, ~ In (n, (pkg, l)) r)
    /\ reported_latest string example_latest
         (PipfileMeta.sources (_PipfileBase.meta locked_twice)) up "3.0"
    /\ Project.semantic_version string (fun s => s) up = "3.0"
    /\ PyDict.get r "up" <> None.
Proof.
  intros pkg up self. eexists. split; [reflexivity|].
  repeat split; try discriminate.
  intros n l [H|[H|[]]]; discriminate H.
Qed.

(** ** Sanitizing the source indexes *)

Lemma index_check_spec :
  forall index source : Source.t,
    (consistent source index /\ _PipfileBase._index_check index source = Ok tt)
    \/ (~ consistent source index
        /\ _PipfileBase._index_check index source = Raise InternalError).
Proof.
  intros index source. unfold _PipfileBase._index_check, consistent.
  destruct (String.eqb_spec (Source.name source) (Source.name index)) as [En|En]; simpl.
  - destruct (String.eqb_spec (Source.url source) (Source.url index)) as [Eu|Eu]; simpl.
    + destruct (Bool.eqb (Source.verify_ssl source) (Source.verify_ssl index)) eqn:Es; simpl.
      * left. apply Bool.eqb_prop in Es. auto.
      * right. split; [|reflexivity]. intros H. destruct (H En) as [_ H2].
        rewrite H2, Bool.eqb_reflx in Es. discriminate.
    + right. split; [|reflexivity]. intros H. now destruct (H En).
  - left. split; [|reflexivity]. intros H. contradiction.
Qed.

Lemma for_each_checks_ok :
  forall (index : Source.t) (l : list Source.t) (st : PyDict.t Source.t),
    (forall s, In s l -> Source.name s <> Source.name index) ->
    for_each l (fun source => _PipfileBase.lift (_PipfileBase._index_check index source)) st
    = (Ok tt, st).
Proof.
  intros index l st. induction l as [|s l IH]; intros H; simpl.
  - reflexivity.
  - unfold bind, _PipfileBase.lift at 1.
    destruct (index_check_spec index s) as [[_ ->]|[Hc _]].
    + apply IH. intros s' Hs'. apply H. now right.
    + exfalso. apply Hc. intros En. elim (H s (or_introl eq_refl) En).
Qed.

Lemma PyDict_set_absent :
  forall (V : Type) (d : PyDict.t V) (k : string) (v : V),
    PyDict.get d k = None -> PyDict.set d k v = d ++ [(k, v)].
Proof.
  induction d as [|[k' v'] d IH]; intros k v H; simpl in *.
  - reflexivity.
  - destruct (String.eqb k' k); [discriminate|]. now rewrite IH.
Qed.

Lemma sources_wf_snoc :
  forall (sources : PyDict.t Source.t) (index : Source.t),
    sources_wf sources ->
    PyDict.get sources (Source.name index) = None ->
    sources_wf (sources ++ [(Source.name index, index)]).
Proof.
  intros sources index [Hnd Hkey] Hnone. split.
  - unfold PyDict.wf, PyDict.keys in *. rewrite map_app. simpl.
    apply PyDict_get_None_keys in Hnone. unfold PyDict.keys in Hnone.
    apply NoDup_app; [assumption|repeat constructor; intros []|].
    intros k Hk [<-|[]]. contradiction.
  - intros k s Hin. apply in_app_or in Hin. destruct Hin as [Hin|[[= <- <-]|[]]].
    + now apply Hkey.
    + reflexivity.
Qed.

Lemma sources_wf_named :
  forall (sources : PyDict.t Source.t) (s : Source.t),
    sources_wf sources ->
    In s (PyDict.values sources) ->
    PyDict.get sources (Source.name s) = Some s.
Proof.
  intros sources s [Hnd Hkey] Hin. unfold PyDict.values in Hin.
  apply in_map_iff in Hin. destruct Hin as [[k s'] [Hs Hin]]. simpl in Hs. subst s'.
  apply PyDict_In_get; [assumption|]. now rewrite <- (Hkey k s Hin).
Qed.

Lemma sources_wf_get_name :
  forall (sources : PyDict.t Source.t) (k : string) (s : Source.t),
    sources_wf sources ->
    PyDict.get sources k = Some s ->
    Source.name s = k /\ In s (PyDict.values sources).
Proof.
  intros sources k s [_ Hkey] Hget. apply PyDict_get_In in Hget. split.
  - symmetry. now apply Hkey.
  - unfold PyDict.values. change s with (snd (k, s)). now apply in_map.
Qed.

Lemma sources_wf_consistent :
  forall sources : PyDict.t Source.t,
    sources_wf sources -> all_consistent (PyDict.values sources).
Proof.
  intros sources Hwf a b Ha Hb En.
  pose proof (sources_wf_named sources a Hwf Ha) as Ga.
  pose proof (sources_wf_named sources b Hwf Hb) as Gb.
  rewrite En in Ga. rewrite Ga in Gb. injection Gb as ->. auto.
Qed.

(** One round of the loop, on well-formed sources: a package without an
    index changes nothing, an index under a new name is appended, and an
    index under a registered name is compared with the registered
    source. *)
Lemma sanitize_package_spec :
  forall (pv : PackageVersion.t) (sources : PyDict.t Source.t),
    sources_wf sources ->
    _PipfileBase.sanitize_package pv sources =
    match PackageVersion.index pv with
    | None => (Ok tt, sources)
    | Some index =>
        match PyDict.get sources (Source.name index) with
        | None => (Ok tt, sources ++ [(Source.name index, index)])
        | Some source => (_PipfileBase._index_check index source, sources)
        end
    end.
Proof.
  intros pv sources Hwf. unfold _PipfileBase.sanitize_package.
  destruct (PackageVersion.index pv) as [index|]; [|reflexivity].
  unfold bind at 1, get_state, PyDict.contains.
  destruct (PyDict.get sources (Source.name index)) as [source|] eqn:G; simpl.
  - reflexivity.
  - unfold bind. rewrite for_each_checks_ok.
    + unfold put_state. now rewrite PyDict_set_absent.
    + intros s Hs En. apply (sources_wf_named sources s Hwf) in Hs.
      rewrite En in Hs. congruence.
Qed.

Lemma PyDict_get_app_l :
  forall (V : Type) (d d' : PyDict.t V) (k : string) (v : V),
    PyDict.get d k = Some v -> PyDict.get (d ++ d') k = Some v.
Proof.
  induction d as [|[k0 v0] d IH]; intros d' k v H; simpl in *; [discriminate|].
  destruct (String.eqb k0 k); [assumption|now apply IH].
Qed.

Lemma PyDict_get_snoc_new :
  forall (V : Type) (d : PyDict.t V) (k : string) (v : V),
    PyDict.get d k = None -> PyDict.get (d ++ [(k, v)]) k = Some v.
Proof.
  intros V d k v H. rewrite <- (PyDict_set_absent V d k v H).
  apply PyDict_get_set_eq.
Qed.

Lemma same_index_consistent :
  forall s i b : Source.t,
    same_index s i -> (consistent i b <-> consistent s b).
Proof.
  intros s i b [En [Eu Es]]. unfold consistent. rewrite En, Eu, Es. tauto.
Qed.

Lemma consistent_sym :
  forall a b : Source.t, consistent a b -> consistent b a.
Proof.
  unfold consistent. intros a b H E. symmetry in E. destruct (H E). auto.
Qed.

Lemma all_consistent_insert_same :
  forall (l r : list Source.t) (s i : Source.t),
    In s l -> same_index s i ->
    (all_consistent (l ++ i :: r) <-> all_consistent (l ++ r)).
Proof.
  intros l r s i Hs Hsame. split.
  - intros H a b Ha Hb. apply H; apply in_or_app;
      [apply in_app_or in Ha; destruct Ha|apply in_app_or in Hb; destruct Hb];
      auto using in_cons.
  - intros H.
    assert (Hin : forall a, In a (l ++ i :: r) -> a = i \/ In a (l ++ r)).
    { intros a Ha. apply in_app_or in Ha. destruct Ha as [Ha|[<-|Ha]]; auto;
        right; apply in_or_app; auto. }
    assert (Hsin : In s (l ++ r)) by (apply in_or_app; now left).
    intros a b Ha Hb.
    destruct (Hin a Ha) as [->|Ha'], (Hin b Hb) as [->|Hb'].
    + intros _. auto.
    + apply (same_index_consistent s i b Hsame). now apply H.
    + apply consistent_sym, (same_index_consistent s i a Hsame). now apply H.
    + now apply H.
Qed.

(** The loop of [sanitize_source_indexes] over a list of packages, from
    well-formed sources: it ends normally exactly when the registered
    sources and the indexes of the packages are consistent with one
    another, every index is then registered under its name, and it raises
    InternalError otherwise; sources registered before stay as they are. *)
Lemma sanitize_loop_spec :
  forall (pvs : list PackageVersion.t) (sources : PyDict.t Source.t),
    sources_wf sources ->
    exists r sources',
      for_each pvs _PipfileBase.sanitize_package sources = (r, sources')
      /\ sources_wf sources'
      /\ (forall k s, PyDict.get sources k = Some s -> PyDict.get sources' k = Some s)
      /\ ((all_consistent (PyDict.values sources ++ referenced pvs)
           /\ r = Ok tt
           /\ forall i, In i (referenced pvs) ->
                        exists s, PyDict.get sources' (Source.name i) = Some s
                                  /\ same_index s i)
          \/ (~ all_consistent (PyDict.values sources ++ referenced pvs)
              /\ r = Raise InternalError)).
Proof.
  induction pvs as [|pv rest IH]; intros sources Hwf.
  - exists (Ok tt), sources. simpl.
    split; [reflexivity|]. split; [assumption|]. split; [auto|].
    left. rewrite app_nil_r. split; [now apply sources_wf_consistent|].
    split; [reflexivity|]. intros i [].
  - simpl for_each. unfold bind at 1. rewrite sanitize_package_spec by assumption.
    unfold referenced. simpl flat_map. fold (referenced rest).
    destruct (PackageVersion.index pv) as [index|]; [|now apply IH].
    destruct (PyDict.get sources (Source.name index)) as [source|] eqn:G.
    + destruct (sources_wf_get_name sources _ source Hwf G) as [En Hin].
      destruct (index_check_spec index source) as [[Hc ->]|[Hc ->]].
      * assert (Hsame : same_index source index) by (destruct (Hc En); now repeat split).
        destruct (IH sources Hwf) as [r [sources' [Hrun [Hwf' [Hext Hres]]]]].
        exists r, sources'.
        split; [assumption|]. split; [assumption|]. split; [assumption|].
        destruct Hres as [[Hall [Hr Hreg]]|[Hall Hr]].
        -- left. split; [|split; [assumption|]].
           ++ now apply (all_consistent_insert_same _ _ source index).
           ++ intros i [<-|Hi]; [|now apply Hreg].
              exists source. split; [now apply Hext|assumption].
        -- right. split; [|assumption]. intros H. apply Hall.
           exact (proj1 (all_consistent_insert_same _ _ source index Hin Hsame) H).
      * exists (Raise InternalError), sources.
        split; [reflexivity|]. split; [assumption|]. split; [auto|].
        right. split; [|reflexivity]. intros H. apply Hc.
        apply H; apply in_or_app; [now left|right; now left].
    + pose proof (sources_wf_snoc sources index Hwf G) as Hwf1.
      destruct (IH _ Hwf1) as [r [sources' [Hrun [Hwf' [Hext Hres]]]]].
      exists r, sources'.
      split; [assumption|]. split; [assumption|]. split.
      * intros k s Hk. apply Hext. now apply PyDict_get_app_l.
      * unfold PyDict.values in *. rewrite map_app, <- app_assoc in Hres. simpl in Hres.
        destruct Hres as [[Hall [Hr Hreg]]|[Hall Hr]]; [left|right].
        -- split; [assumption|]. split; [assumption|].
           intros i [<-|Hi]; [|now apply Hreg].
           exists index. split; [|now repeat split].
           apply Hext. now apply PyDict_get_snoc_new.
        -- now split.
Qed.

Lemma referenced_In :
  forall (pvs : list PackageVersion.t) (pv : PackageVersion.t) (i : Source.t),
    In pv pvs -> PackageVersion.index pv = Some i -> In i (referenced pvs).
Proof.
  intros pvs pv i Hin Hidx. unfold referenced. apply in_flat_map.
  exists pv. split; [assumption|]. rewrite Hidx. now left.
Qed.

(** C8: on a manifest whose [meta.sources] maps names to sources,
    [sanitize_source_indexes] raises InternalError whenever a package of
    either section refers to an index that has the name of a registered
    source and another url or another [verify_ssl] setting.  It ends
    normally when the registered sources and the indexes referred to are
    consistent with one another, and then [meta.sources] holds, under the
    name of every index that a package refers to, a source with the url
    and the [verify_ssl] setting of that index.  InternalError is raised
    exactly when that consistency fails, a source counting as registered
    from the moment an earlier package brought it in. *)
Theorem sanitize_source_indexes_spec :
  forall self : _PipfileBase.t,
    sources_wf (PipfileMeta.sources (_PipfileBase.meta self)) ->
    let registered := PyDict.values (PipfileMeta.sources (_PipfileBase.meta self)) in
    let outcome := _PipfileBase.sanitize_source_indexes self in
    (forall pv i s,
        In pv (all_packages self) ->
        PackageVersion.index pv = Some i ->
        In s registered ->
        Source.name i = Source.name s ->
        Source.url i <> Source.url s \/ Source.verify_ssl i <> Source.verify_ssl s ->
        fst outcome = Raise InternalError)
    /\ (all_consistent (registered ++ referenced (all_packages self)) ->
        fst outcome = Ok tt
        /\ forall pv i,
             In pv (all_packages self) ->
             PackageVersion.index pv = Some i ->
             exists s,
               PyDict.get (PipfileMeta.sources (_PipfileBase.meta (snd outcome)))
                 (Source.name i) = Some s
               /\ same_index s i)
    /\ (fst outcome = Raise InternalError
        <-> ~ all_consistent (registered ++ referenced (all_packages self))).
Proof.
  intros self Hwf registered outcome.
  destruct (sanitize_loop_spec (all_packages self) _ Hwf)
    as [r [sources' [Hrun [Hwf' [Hext Hres]]]]].
  assert (Hout : outcome
                 = (r, _PipfileBase.set_meta self
                         (PipfileMeta.set_sources (_PipfileBase.meta self) sources'))).
  { unfold outcome, _PipfileBase.sanitize_source_indexes, _PipfileBase.sanitize_sources.
    unfold all_packages in Hrun. now rewrite Hrun. }
  rewrite Hout. simpl fst. simpl snd. fold registered in Hres.
  assert (Hiff : r = Raise InternalError
                 <-> ~ all_consistent (registered ++ referenced (all_packages self))).
  { destruct Hres as [[Hall [-> _]]|[Hall ->]]; split; auto; try discriminate.
    intros H. now elim H. }
  split; [|split; [|exact Hiff]].
  - intros pv i s Hpv Hidx Hs En Hdiff. apply Hiff. intros Hall.
    assert (Hc : consistent i s).
    { apply Hall; apply in_or_app; [right; now apply (referenced_In _ pv)|now left]. }
    destruct (Hc En) as [Hu Hv]. destruct Hdiff; contradiction.
  - intros Hall. destruct Hres as [[_ [-> Hreg]]|[Hno _]]; [|contradiction].
    split; [reflexivity|]. intros pv i Hpv Hidx. simpl.
    apply Hreg. now apply (referenced_In _ pv).
Qed.

Lemma sanitize_source_indexes_spec_witness :
  fst (_PipfileBase.sanitize_source_indexes sanitize_conflict_example)
  = Raise InternalError
  /\ fst (_PipfileBase.sanitize_source_indexes sanitize_example) = Ok tt
  /\ exists s,
       PyDict.get (PipfileMeta.sources
                     (_PipfileBase.meta
                        (snd (_PipfileBase.sanitize_source_indexes sanitize_example))))
         "mirror" = Some s
       /\ same_index s mirror.
Proof.
  assert (Hwf : sources_wf [("pypi", pypi)]).
  { split.
    - repeat constructor. intros [].
    - intros k s [[= <- <-]|[]]. reflexivity. }
  split.
  - apply (proj1 (sanitize_source_indexes_spec sanitize_conflict_example Hwf)
             (PackageVersion.mk "pkg" "==1.0" false (Some pypi_http) [] None)
             pypi_http pypi).
    + now left.
    + reflexivity.
    + now left.
    + reflexivity.
    + left. discriminate.
  - destruct (proj1 (proj2 (sanitize_source_indexes_spec sanitize_example Hwf)))
      as [Hok Hreg].
    + intros a b Ha Hb. simpl in Ha, Hb.
      destruct Ha as [<-|[<-|[<-|[]]]], Hb as [<-|[<-|[<-|[]]]];
        unfold consistent; simpl; intros E; try discriminate E; auto.
    + split; [exact Hok|].
      apply (Hreg (PackageVersion.mk "pkg" "==1.0" false (Some mirror) [] None) mirror).
      * now left.
      * reflexivity.
Defined.

(** C8, as stated, fails when two packages disagree with one another: no
    source is registered, so no package refers to an index that has the
    name of a registered source and another url or [verify_ssl] setting,
    and yet [sanitize_source_indexes] raises InternalError: the index of
    the first package is registered on the way and the index of the
    second one has its name and another url. *)
Lemma sanitize_source_indexes_unregistered_counterexample :
  let self := sanitize_unregistered_example in
  let registered := PyDict.values (PipfileMeta.sources (_PipfileBase.meta self)) in
  sources_wf (PipfileMeta.sources (_PipfileBase.meta self))
  /\ (forall pv i s,
        In pv (all_packages self) ->
        PackageVersion.index pv = Some i ->
        In s registered ->
        Source.name i = Source.name s ->
        Source.url i = Source.url s /\ Source.verify_ssl i = Source.verify_ssl s)
  /\ fst (_PipfileBase.sanitize_source_indexes self) = Raise InternalError.
Proof.
  intros self registered. split; [|split].
  - split; [constructor|]. intros k s [].
  - intros pv i s _ _ [].
  - reflexivity.
Qed.

(** ** The digest of a Pipfile *)

(** *** Sorting of dictionary items by key *)

Lemma String_compare_refl : forall s : string, String.compare s s = Eq.
Proof.
  intros s. now apply OrderedTypeEx.String_as_OT.cmp_eq.
Qed.

Lemma String_leb_trans :
  forall a b c : string,
    String.leb a b = true -> String.leb b c = true -> String.leb a c = true.
Proof.
  intros a b c. unfold String.leb.
  destruct (String.compare a b) eqn:Eab; try discriminate;
    destruct (String.compare b c) eqn:Ebc; try discriminate; intros _ _.
  - apply String.compare_eq_iff in Eab, Ebc. subst.
    now rewrite String_compare_refl.
  - apply String.compare_eq_iff in Eab. subst. now rewrite Ebc.
  - apply String.compare_eq_iff in Ebc. subst. now rewrite Eab.
  - apply OrderedTypeEx.String_as_OT.cmp_lt in Eab, Ebc.
    pose proof (OrderedTypeEx.String_as_OT.lt_trans _ _ _ Eab Ebc) as H.
    apply OrderedTypeEx.String_as_OT.cmp_lt in H.
    unfold OrderedTypeEx.String_as_OT.cmp in H. now rewrite H.
Qed.

Lemma String_leb_false :
  forall a b : string, String.leb a b = false -> String.leb b a = true.
Proof.
  intros a b H. destruct (String.leb_total a b); congruence.
Qed.

Lemma insert_item_comm :
  forall (V : Type) (a b : string * V) (l : list (string * V)),
    fst a <> fst b ->
    insert_item a (insert_item b l) = insert_item b (insert_item a l).
Proof.
  intros V a b l Hne. induction l as [|c l IH]; simpl.
  - destruct (String.leb (fst a) (fst b)) eqn:Eab,
             (String.leb (fst b) (fst a)) eqn:Eba; try reflexivity.
    + elim Hne. now apply String.leb_antisym.
    + apply String_leb_false in Eab. congruence.
  - destruct (String.leb (fst b) (fst c)) eqn:Ebc,
             (String.leb (fst a) (fst c)) eqn:Eac; simpl;
      rewrite ?Ebc, ?Eac.
    + destruct (String.leb (fst a) (fst b)) eqn:Eab,
               (String.leb (fst b) (fst a)) eqn:Eba; try reflexivity.
      * elim Hne. now apply String.leb_antisym.
      * apply String_leb_false in Eab. congruence.
    + destruct (String.leb (fst a) (fst b)) eqn:Eab.
      * rewrite (String_leb_trans _ _ _ Eab Ebc) in Eac. discriminate.
      * reflexivity.
    + destruct (String.leb (fst b) (fst a)) eqn:Eba.
      * rewrite (String_leb_trans _ _ _ Eba Eac) in Ebc. discriminate.
      * reflexivity.
    + now rewrite IH.
Qed.

Lemma NoDup_keys_Permutation :
  forall (V : Type) (l l' : list (string * V)),
    Permutation l l' -> NoDup (map fst l) -> NoDup (map fst l').
Proof.
  intros V l l' Hp. apply Permutation_NoDup. now apply Permutation_map.
Qed.

(** Sorting forgets the insertion order of a dictionary. *)
Lemma sort_items_Permutation :
  forall (V : Type) (l l' : list (string * V)),
    Permutation l l' -> NoDup (map fst l) -> sort_items l = sort_items l'.
Proof.
  intros V l l' Hp. induction Hp as [|x l l' Hp IH|x y l|l l' l'' Hp1 IH1 Hp2 IH2];
    intros Hnd.
  - reflexivity.
  - simpl. inversion Hnd; subst. now rewrite IH.
  - simpl. apply insert_item_comm. inversion Hnd as [|? ? Hnotin _]; subst.
    intros E. apply Hnotin. rewrite <- E. now left.
  - rewrite IH1 by assumption. apply IH2.
    now apply (NoDup_keys_Permutation V l l').
Qed.

Lemma insert_item_Permutation :
  forall (V : Type) (a : string * V) (l : list (string * V)),
    Permutation (a :: l) (insert_item a l).
Proof.
  intros V a l. induction l as [|c l IH]; simpl.
  - apply Permutation_refl.
  - destruct (String.leb (fst a) (fst c)).
    + apply Permutation_refl.
    + eapply Permutation_trans; [apply perm_swap|]. now apply perm_skip.
Qed.

Lemma sort_items_perm :
  forall (V : Type) (l : list (string * V)), Permutation l (sort_items l).
Proof.
  intros V l. induction l as [|a l IH]; simpl.
  - apply Permutation_refl.
  - eapply Permutation_trans; [|apply insert_item_Permutation]. now apply perm_skip.
Qed.

(** *** Strings and numbers are written without ambiguity *)

Lemma append_assoc :
  forall a b c : string, ((a ++ b) ++ c = a ++ (b ++ c))%string.
Proof.
  induction a as [|x a IH]; intros b c; simpl; [reflexivity|now rewrite IH].
Qed.

Lemma append_nil_r : forall a : string, (a ++ "")%string = a.
Proof.
  induction a as [|x a IH]; simpl; [reflexivity|now rewrite IH].
Qed.

Lemma append_inv_head :
  forall a b c : string, (a ++ b = a ++ c)%string -> b = c.
Proof.
  induction a as [|x a IH]; intros b c H; simpl in H; [assumption|].
  injection H as H. now apply IH.
Qed.

Lemma unescape1_escape_char :
  forall (c : ascii) (rest : string),
    unescape1 (escape_char c ++ rest) = Some (c, rest).
Proof.
  intros c rest.
  destruct c as [[] [] [] [] [] [] [] []]; vm_compute; reflexivity.
Qed.

Lemma escape_body_inj :
  forall s s' r r' : string,
    (escape_body s ++ String dquote r = escape_body s' ++ String dquote r')%string ->
    s = s' /\ r = r'.
Proof.
  induction s as [|c s IH]; intros [|c' s'] r r' H; simpl in H.
  - injection H as ->. auto.
  - apply (f_equal unescape1) in H. rewrite append_assoc, unescape1_escape_char in H.
    discriminate H.
  - apply (f_equal unescape1) in H. rewrite append_assoc, unescape1_escape_char in H.
    discriminate H.
  - apply (f_equal unescape1) in H.
    rewrite !append_assoc, !unescape1_escape_char in H.
    injection H as -> H. destruct (IH _ _ _ H) as [-> ->]. auto.
Qed.

Lemma encode_basestring_ascii_inj :
  forall s s' r r' : string,
    (encode_basestring_ascii s ++ r = encode_basestring_ascii s' ++ r')%string ->
    s = s' /\ r = r'.
Proof.
  intros s s' r r' H. unfold encode_basestring_ascii in H. simpl in H.
  injection H as H. rewrite !append_assoc in H. simpl in H.
  now apply escape_body_inj.
Qed.

Lemma delimited_not_digit :
  forall (c : ascii) (r : string),
    delimited (String c r) -> kind_of_char c = 7.
Proof.
  intros c r [ -> | [ -> | -> ] ]; reflexivity.
Qed.

Lemma string_of_uint_inj :
  forall (d d' : Decimal.uint) (r r' : string),
    delimited r -> delimited r' ->
    (DecimalString.NilEmpty.string_of_uint d ++ r
     = DecimalString.NilEmpty.string_of_uint d' ++ r')%string ->
    d = d' /\ r = r'.
Proof.
  induction d as [|d IH|d IH|d IH|d IH|d IH|d IH|d IH|d IH|d IH|d IH];
    intros [|d'|d'|d'|d'|d'|d'|d'|d'|d'|d'] r r' Hr Hr' H; simpl in H;
    try (injection H as H; destruct (IH _ _ _ Hr Hr' H) as [-> ->]; auto; fail);
    try (injection H; intros; discriminate);
    try (subst; auto; fail);
    try (rewrite <- H in Hr'; apply delimited_not_digit in Hr'; discriminate Hr');
    try (rewrite H in Hr; apply delimited_not_digit in Hr; discriminate Hr).
Qed.

Lemma to_uint_not_nil : forall n : nat, Nat.to_uint n <> Decimal.Nil.
Proof.
  intros n. rewrite <- (DecimalNat.Unsigned.of_to n) at 1.
  rewrite DecimalNat.Unsigned.to_of. apply DecimalFacts.unorm_nonnil.
Qed.

Lemma str_of_nat_inj :
  forall (n n' : nat) (r r' : string),
    delimited r -> delimited r' ->
    (str_of_nat n ++ r = str_of_nat n' ++ r')%string ->
    n = n' /\ r = r'.
Proof.
  intros n n' r r' Hr Hr' H. unfold str_of_nat in H.
  destruct (string_of_uint_inj _ _ _ _ Hr Hr' H) as [Hd ->].
  split; [now apply DecimalNat.Unsigned.to_uint_inj|reflexivity].
Qed.

Lemma str_of_nat_kind :
  forall (n : nat) (r : string), starts_with_kind 3 (str_of_nat n ++ r).
Proof.
  intros n r. unfold str_of_nat. pose proof (to_uint_not_nil n) as Hn.
  destruct (Nat.to_uint n); [now elim Hn| | | | | | | | | |]; reflexivity.
Qed.

(** *** Documents are written without ambiguity *)

Lemma json_nested_ind :
  forall P : json -> Prop,
    P JNull ->
    (forall b, P (JBool b)) ->
    (forall n, P (JInt n)) ->
    (forall s, P (JStr s)) ->
    (forall l, Forall P l -> P (JList l)) ->
    (forall d, Forall (fun kv => P (snd kv)) d -> P (JDict d)) ->
    forall j, P j.
Proof.
  intros P Hnull Hbool Hint Hstr Hlist Hdict. fix IH 1.
  intros [|b|n|s|l|d].
  - exact Hnull.
  - apply Hbool.
  - apply Hint.
  - apply Hstr.
  - apply Hlist. induction l as [|x l IHl]; constructor; [apply IH|exact IHl].
  - apply Hdict. induction d as [|kv d IHd]; constructor; [apply IH|exact IHd].
Qed.

Lemma insert_item_map_snd :
  forall (A B : Type) (f : A -> B) (a : string * A) (l : list (string * A)),
    insert_item (fst a, f (snd a)) (map (fun kv => (fst kv, f (snd kv))) l)
    = map (fun kv => (fst kv, f (snd kv))) (insert_item a l).
Proof.
  intros A B f a l. induction l as [|c l IH]; simpl; [reflexivity|].
  destruct (String.leb (fst a) (fst c)); simpl; [reflexivity|now rewrite IH].
Qed.

Lemma sort_items_map_snd :
  forall (A B : Type) (f : A -> B) (l : list (string * A)),
    sort_items (map (fun kv => (fst kv, f (snd kv))) l)
    = map (fun kv => (fst kv, f (snd kv))) (sort_items l).
Proof.
  intros A B f l. induction l as [|a l IH]; simpl; [reflexivity|].
  rewrite IH. apply insert_item_map_snd.
Qed.

Lemma dumps_list :
  forall l : list json,
    dumps (JList l) = ("[" ++ join "," (map dumps l) ++ "]")%string.
Proof. reflexivity. Qed.

Lemma dumps_dict :
  forall d : list (string * json),
    dumps (JDict d)
    = ("{" ++ join "," (map (fun kv => dump_item (fst kv, dumps (snd kv)))
                            (sort_items d)) ++ "}")%string.
Proof.
  intros d. change (dumps (JDict d)) with
    ("{" ++ join "," (map dump_item
                        (sort_items (map (fun kv => (fst kv, dumps (snd kv))) d)))
         ++ "}")%string.
  now rewrite sort_items_map_snd, map_map.
Qed.

Lemma canon_dict :
  forall d : list (string * json),
    canon (JDict d) = JDict (map (fun kv => (fst kv, canon (snd kv))) (sort_items d)).
Proof.
  intros d. change (canon (JDict d)) with
    (JDict (sort_items (map (fun kv => (fst kv, canon (snd kv))) d))).
  now rewrite sort_items_map_snd.
Qed.

Lemma dumps_kind :
  forall (j : json) (r : string), starts_with_kind (kind_of j) (dumps j ++ r).
Proof.
  intros [|[|]|n|s|l|d] r; try reflexivity.
  apply str_of_nat_kind.
Qed.

Lemma join_cons_app :
  forall (p : string) (parts : list string) (rest : string),
    (join "," (p :: parts) ++ rest = p ++ after_first parts rest)%string.
Proof.
  intros p [|q parts] rest; simpl; [reflexivity|].
  rewrite append_assoc. reflexivity.
Qed.

Section Sequences.

Variables X Y : Type.
Variable g : X -> string.
Variable h : X -> Y.
Variable close : ascii.

Hypothesis close_delimits : close = "]"%char \/ close = "}"%char.
Hypothesis g_starts_value :
  forall x r, exists k, k <> 7 /\ starts_with_kind k (g x ++ r).

Local Abbreviation element_ok := (element_ok g h).

Lemma close_kind : kind_of_char close = 7.
Proof. destruct close_delimits as [->| ->]; reflexivity. Qed.

Lemma close_not_value :
  forall x r r', (String close r = g x ++ r')%string -> False.
Proof.
  intros x r r' H. destruct (g_starts_value x r') as [k [Hk Hs]].
  rewrite <- H in Hs. simpl in Hs. rewrite close_kind in Hs. congruence.
Qed.

Lemma after_first_delimited :
  forall (parts : list string) (r : string), delimited (after_first parts (String close r)).
Proof.
  intros [|p parts] r; simpl; [|now left].
  destruct close_delimits; auto.
Qed.

Lemma sequence_inj :
  forall xs : list X,
    Forall element_ok xs ->
    forall (xs' : list X) (r r' : string),
      (join "," (map g xs) ++ String close r
       = join "," (map g xs') ++ String close r')%string ->
      map h xs = map h xs' /\ r = r'.
Proof.
  induction xs as [|x xt IH]; intros Hok xs' r r' H.
  - destruct xs' as [|x' xt'].
    + simpl in H. injection H as ->. auto.
    + exfalso. simpl map in H. rewrite join_cons_app in H.
      change (join "," (map g []) ++ String close r)%string with (String close r) in H.
      now apply (close_not_value x' r _ H).
  - destruct xs' as [|x' xt'].
    + exfalso. simpl map in H. rewrite join_cons_app in H.
      change (join "," (map g []) ++ String close r')%string with (String close r') in H.
      symmetry in H. now apply (close_not_value x r' _ H).
    + simpl map in H. rewrite !join_cons_app in H.
      inversion Hok as [|? ? Hx Hxt]; subst.
      destruct (Hx x' _ _ (after_first_delimited _ _) (after_first_delimited _ _) H)
        as [Hh Hrest].
      destruct xt as [|y yt], xt' as [|y' yt']; simpl in Hrest.
      * injection Hrest as ->. simpl. now rewrite Hh.
      * injection Hrest as Hc _. exfalso.
        destruct close_delimits as [E|E]; rewrite E in Hc; discriminate Hc.
      * injection Hrest as Hc _. exfalso.
        destruct close_delimits as [E|E]; rewrite E in Hc; discriminate Hc.
      * injection Hrest as Hrest.
        destruct (IH Hxt (y' :: yt') r r' Hrest) as [Hm ->].
        split; [|reflexivity]. simpl in *. now rewrite Hh, Hm.
Qed.

End Sequences.

Lemma dumps_starts_value :
  forall (j : json) (r : string),
    exists k, k <> 7 /\ starts_with_kind k (dumps j ++ r).
Proof.
  intros j r. exists (kind_of j). split; [|apply dumps_kind].
  destruct j as [|[|]|n|s|l|d]; discriminate.
Qed.

Lemma dump_item_starts_value :
  forall (kv : string * json) (r : string),
    exists k, k <> 7
              /\ starts_with_kind k (dump_item (fst kv, dumps (snd kv)) ++ r).
Proof.
  intros kv r. exists 4. split; [discriminate|reflexivity].
Qed.

Lemma same_kind :
  forall (j j' : json) (r r' : string),
    (dumps j ++ r = dumps j' ++ r')%string -> kind_of j = kind_of j'.
Proof.
  intros j j' r r' H. pose proof (dumps_kind j r) as K. rewrite H in K.
  pose proof (dumps_kind j' r') as K'.
  destruct (dumps j' ++ r')%string; simpl in *; [contradiction|congruence].
Qed.

(** The text of a document, followed by a delimiter or by nothing,
    determines the canonical document and what follows. *)
Lemma dumps_inj_delimited :
  forall (j j' : json) (r r' : string),
    delimited r -> delimited r' ->
    (dumps j ++ r = dumps j' ++ r')%string ->
    canon j = canon j' /\ r = r'.
Proof.
  induction j as [|b|n|s|l IHl|d IHd] using json_nested_ind;
    intros j' r r' Hr Hr' H; pose proof (same_kind _ _ _ _ H) as K;
    destruct j' as [|b'|n'|s'|l'|d']; try (destruct b); try (destruct b');
    try discriminate K; clear K.
  - apply append_inv_head in H. auto.
  - apply append_inv_head in H. auto.
  - apply append_inv_head in H. auto.
  - destruct (str_of_nat_inj _ _ _ _ Hr Hr' H) as [-> ->]. auto.
  - destruct (encode_basestring_ascii_inj _ _ _ _ H) as [-> ->]. auto.
  - rewrite !dumps_list in H. simpl in H. injection H as H.
    rewrite !append_assoc in H. simpl in H.
    destruct (sequence_inj json json dumps canon "]"%char (or_introl eq_refl)
                dumps_starts_value l IHl l' r r' H) as [Hm ->].
    simpl. now rewrite Hm.
  - rewrite !dumps_dict in H. simpl in H. injection H as H.
    rewrite !append_assoc in H. simpl in H.
    assert (Hok : Forall (element_ok
                            (fun kv : string * json => dump_item (fst kv, dumps (snd kv)))
                            (fun kv : string * json => (fst kv, canon (snd kv))))
                         (sort_items d)).
    { apply Forall_forall. intros [k v] Hin.
      apply (Permutation_in _ (Permutation_sym (sort_items_perm _ d))) in Hin.
      rewrite Forall_forall in IHd. specialize (IHd (k, v) Hin). simpl in IHd.
      intros [k' v'] q q' Hq Hq' E. unfold dump_item in E. cbn [fst snd] in E.
      rewrite !append_assoc in E.
      destruct (encode_basestring_ascii_inj _ _ _ _ E) as [-> E'].
      cbn [append] in E'. injection E' as E'.
      destruct (IHd v' _ _ Hq Hq' E') as [Ec ->]. cbn [fst snd]. now rewrite Ec. }
    destruct (sequence_inj _ _ _ _ "}"%char (or_intror eq_refl)
                dump_item_starts_value (sort_items d) Hok (sort_items d') r r' H)
      as [Hm ->].
    rewrite !canon_dict. now rewrite Hm.
Qed.

(** Two documents have the same text exactly when they are the same up to
    the order of the items of their dictionaries. *)
Lemma dumps_canon :
  forall j j' : json, dumps j = dumps j' <-> canon j = canon j'.
Proof.
  intros j j'. split.
  - intros H. apply (dumps_inj_delimited j j' "" "" I I).
    now rewrite !append_nil_r.
  - revert j'. induction j as [|b|n|s|l IHl|d IHd] using json_nested_ind;
      intros j' H.
    + destruct j'; try discriminate H; reflexivity.
    + destruct j'; try discriminate H. simpl in H. now rewrite H.
    + destruct j'; try discriminate H. simpl in H. now rewrite H.
    + destruct j'; try discriminate H. simpl in H. now rewrite H.
    + destruct j' as [| | | |l'|]; try discriminate H. simpl in H. injection H as H.
      rewrite !dumps_list. do 3 f_equal.
      revert l' H. induction IHl as [|x l Hx _ IH]; intros [|x' l'] H;
        simpl in H; try discriminate H; [reflexivity|].
      injection H as H1 H2. simpl. now rewrite (Hx x' H1), (IH l' H2).
    + destruct j' as [| | | | |d']; try discriminate H.
      rewrite !canon_dict in H. injection H as H.
      rewrite !dumps_dict. do 3 f_equal.
      assert (Hs : Forall (fun kv => forall j', canon (snd kv) = canon j' ->
                                        dumps (snd kv) = dumps j') (sort_items d)).
      { apply Forall_forall. intros kv Hin. rewrite Forall_forall in IHd.
        apply IHd. now apply (Permutation_in _ (Permutation_sym (sort_items_perm _ d))). }
      revert H Hs. generalize (sort_items d) (sort_items d').
      induction l as [|x l IH]; intros [|x' l'] H Hs; simpl in H;
        try discriminate H; [reflexivity|].
      injection H as H1 H2 H3. inversion Hs as [|? ? Hx Hl]; subst. simpl.
      rewrite H1, (Hx _ H2), (IH l' H3 Hl). reflexivity.
Qed.

(** *** The text that is digested *)

Lemma utf8_decode1_char :
  forall (c : ascii) (rest : string),
    utf8_decode1 (utf8_char c ++ rest) = Some (c, rest).
Proof.
  intros c rest.
  destruct c as [[] [] [] [] [] [] [] []]; vm_compute; reflexivity.
Qed.

Lemma encode_utf8_inj :
  forall s s' : string, encode_utf8 s = encode_utf8 s' -> s = s'.
Proof.
  induction s as [|c s IH]; intros [|c' s'] H; simpl in H.
  - reflexivity.
  - apply (f_equal utf8_decode1) in H. rewrite utf8_decode1_char in H. discriminate H.
  - apply (f_equal utf8_decode1) in H. rewrite utf8_decode1_char in H. discriminate H.
  - apply (f_equal utf8_decode1) in H. rewrite !utf8_decode1_char in H.
    injection H as -> H. now rewrite (IH _ H).
Qed.

Lemma data_shape :
  forall p : Pipfile.t,
    Pipfile.data p
    = JDict [("default", Packages.to_pipfile (_PipfileBase.packages p));
             ("develop", Packages.to_pipfile (_PipfileBase.dev_packages p));
             ("_meta",
              JDict [("requires", JDict (required p));
                     ("sources", JList (map Source.to_dict (configured_sources p)))])].
Proof.
  intros p. reflexivity.
Qed.

Lemma canon_data :
  forall p : Pipfile.t,
    canon (Pipfile.data p)
    = JDict [("_meta",
              JDict [("requires", canon (JDict (required p)));
                     ("sources", canon (JList (map Source.to_dict (configured_sources p))))]);
             ("default", canon (Packages.to_pipfile (_PipfileBase.packages p)));
             ("develop", canon (Packages.to_pipfile (_PipfileBase.dev_packages p)))].
Proof.
  intros p. rewrite data_shape. reflexivity.
Qed.

Lemma canon_data_components :
  forall p p' : Pipfile.t,
    canon (Pipfile.data p) = canon (Pipfile.data p') ->
    canon (JDict (required p)) = canon (JDict (required p'))
    /\ canon (JList (map Source.to_dict (configured_sources p)))
       = canon (JList (map Source.to_dict (configured_sources p')))
    /\ canon (Packages.to_pipfile (_PipfileBase.packages p))
       = canon (Packages.to_pipfile (_PipfileBase.packages p'))
    /\ canon (Packages.to_pipfile (_PipfileBase.dev_packages p))
       = canon (Packages.to_pipfile (_PipfileBase.dev_packages p')).
Proof.
  intros p p' H. rewrite !canon_data in H.
  remember (canon (JDict (required p))) as a1.
  remember (canon (JDict (required p'))) as a2.
  remember (canon (JList (map Source.to_dict (configured_sources p)))) as b1.
  remember (canon (JList (map Source.to_dict (configured_sources p')))) as b2.
  remember (canon (Packages.to_pipfile (_PipfileBase.packages p))) as c1.
  remember (canon (Packages.to_pipfile (_PipfileBase.packages p'))) as c2.
  remember (canon (Packages.to_pipfile (_PipfileBase.dev_packages p))) as d1.
  remember (canon (Packages.to_pipfile (_PipfileBase.dev_packages p'))) as d2.
  injection H as Ha Hb Hc Hd. now subst.
Qed.

Lemma canon_dict_Permutation :
  forall d d' : list (string * json),
    Permutation d d' -> NoDup (map fst d) -> canon (JDict d) = canon (JDict d').
Proof.
  intros d d' Hp Hnd. rewrite !canon_dict. f_equal. f_equal.
  now apply sort_items_Permutation.
Qed.

Lemma to_pipfile_Permutation :
  forall pk pk' : Packages.t,
    Permutation (Packages.packages pk) (Packages.packages pk') ->
    PyDict.wf (Packages.packages pk) ->
    canon (Packages.to_pipfile pk) = canon (Packages.to_pipfile pk').
Proof.
  intros pk pk' Hp Hwf. unfold Packages.to_pipfile, PyDict.items.
  apply canon_dict_Permutation.
  - now apply Permutation_map.
  - rewrite map_map. simpl. exact Hwf.
Qed.

(** Reordering the packages (and the entries of [requires]) leaves the
    hashed text as it is. *)
Lemma hashed_content_Permutation :
  forall p p' : Pipfile.t,
    Permutation (regular_packages p) (regular_packages p') ->
    Permutation (develop_packages p) (develop_packages p') ->
    Permutation (required p) (required p') ->
    configured_sources p = configured_sources p' ->
    PyDict.wf (regular_packages p) ->
    PyDict.wf (develop_packages p) ->
    PyDict.wf (required p) ->
    hashed_content p = hashed_content p'.
Proof.
  intros p p' Hpk Hdev Hreq Hsrc Wpk Wdev Wreq.
  unfold hashed_content. apply dumps_canon. rewrite !canon_data.
  rewrite (to_pipfile_Permutation _ _ Hpk Wpk), (to_pipfile_Permutation _ _ Hdev Wdev).
  rewrite (canon_dict_Permutation _ _ Hreq Wreq), Hsrc. reflexivity.
Qed.

Lemma canon_package_version :
  forall pv pv' : PackageVersion.t,
    canon (PackageVersion.to_pipfile pv) = canon (PackageVersion.to_pipfile pv') ->
    PackageVersion.version pv = PackageVersion.version pv'.
Proof.
  intros pv pv'. unfold PackageVersion.to_pipfile.
  destruct pv as [n v dv i hs m], pv' as [n' v' dv' i' hs' m']. simpl.
  destruct i as [[? ? ? ? ?]|], i' as [[? ? ? ? ?]|]; intros H;
    try discriminate H.
  - vm_compute in H. now injection H.
  - simpl in H. now injection H.
Qed.

Lemma canon_dict_entry :
  forall (d d' : list (string * json)) (k : string) (v : json),
    canon (JDict d) = canon (JDict d') ->
    In (k, v) d ->
    exists v', In (k, v') d' /\ canon v = canon v'.
Proof.
  intros d d' k v H Hin. rewrite !canon_dict in H. injection H as H.
  assert (Hs : In (k, canon v)
                  (map (fun kv : string * json => (fst kv, canon (snd kv)))
                       (sort_items d'))).
  { rewrite <- H. apply in_map_iff. exists (k, v). split; [reflexivity|].
    now apply (Permutation_in _ (sort_items_perm _ d)). }
  apply in_map_iff in Hs. destruct Hs as [[k' v'] [Hkv Hs]]. simpl in Hkv.
  injection Hkv as -> Hc.
  apply (Permutation_in _ (Permutation_sym (sort_items_perm _ d'))) in Hs.
  now exists v'.
Qed.

Lemma canon_to_pipfile_version :
  forall pk pk' : Packages.t,
    canon (Packages.to_pipfile pk) = canon (Packages.to_pipfile pk') ->
    ~ version_changed (Packages.packages pk) (Packages.packages pk').
Proof.
  intros pk pk' H [n [pv [Hin Hno]]].
  unfold Packages.to_pipfile, PyDict.items in H.
  destruct (canon_dict_entry _ _ n (PackageVersion.to_pipfile pv) H) as [j [Hj Hc]].
  - apply in_map_iff. now exists (n, pv).
  - apply in_map_iff in Hj. destruct Hj as [[n' pv'] [E Hin']]. simpl in E.
    injection E as -> <-. apply (Hno pv' Hin'). now apply canon_package_version.
Qed.

Lemma canon_requires_entry :
  forall d d' : list (string * json),
    canon (JDict d) = canon (JDict d') -> ~ entry_changed d d'.
Proof.
  intros d d' H [k [v [Hin Hno]]].
  destruct (canon_dict_entry _ _ k v H Hin) as [v' [Hin' Hc]].
  now apply (Hno v' Hin').
Qed.

Lemma map_eq_transfer :
  forall (A B C : Type) (f : A -> B) (g : A -> C) (l l' : list A),
    (forall a b, f a = f b -> g a = g b) ->
    map f l = map f l' -> map g l = map g l'.
Proof.
  intros A B C f g l l' Hfg. revert l'.
  induction l as [|a l IH]; intros [|a' l'] H; try discriminate H; [reflexivity|].
  cbn [map] in *. injection H as H1 H2. now rewrite (Hfg _ _ H1), (IH _ H2).
Qed.

Lemma canon_source_entry :
  forall s s' : Source.t,
    canon (Source.to_dict s) = canon (Source.to_dict s') ->
    source_entry s = source_entry s'.
Proof.
  intros [n u v w a] [n' u' v' w' a'] H. vm_compute in H.
  injection H as Hn Hu Hv. unfold source_entry. simpl. congruence.
Qed.

Lemma canon_sources_entries :
  forall l l' : list Source.t,
    canon (JList (map Source.to_dict l)) = canon (JList (map Source.to_dict l')) ->
    map source_entry l = map source_entry l'.
Proof.
  intros l l' H. cbn [canon] in H. injection H as H. rewrite !map_map in H.
  exact (map_eq_transfer _ _ _ _ _ l l' canon_source_entry H).
Qed.

(** *** The digest is one of finitely many texts *)

Lemma round_length :
  forall (st : list N) (kw : N * N),
    List.length (SHA256.round st kw) = List.length st.
Proof.
  intros st kw. unfold SHA256.round.
  destruct st as [|a [|b [|c [|d [|e [|f [|g [|h [|i rest]]]]]]]]]; reflexivity.
Qed.

Lemma rounds_length :
  forall (kws : list (N * N)) (st : list N),
    List.length (fold_left SHA256.round kws st) = List.length st.
Proof.
  induction kws as [|kw kws IH]; intros st; simpl; [reflexivity|].
  now rewrite IH, round_length.
Qed.

Lemma compress_length :
  forall hs block : list N,
    List.length (SHA256.compress hs block) = List.length hs.
Proof.
  intros hs block. unfold SHA256.compress.
  rewrite length_map, length_combine, rounds_length. apply Nat.min_id.
Qed.

Lemma blocks_length :
  forall (fuel : nat) (ws hs : list N),
    List.length (SHA256.blocks fuel ws hs) = List.length hs.
Proof.
  induction fuel as [|fuel IH]; intros ws hs; simpl; [reflexivity|].
  destruct ws as [|w ws]; [reflexivity|].
  now rewrite IH, compress_length.
Qed.

Lemma hex_of_bytes_length :
  forall bs : list N,
    String.length (SHA256.hex_of_bytes bs) = 2 * List.length bs.
Proof.
  induction bs as [|b bs IH]; simpl; [reflexivity|]. rewrite IH. lia.
Qed.

Lemma word_bytes_length :
  forall hs : list N,
    List.length (flat_map (SHA256.be_bytes 4) hs) = 4 * List.length hs.
Proof.
  induction hs as [|h hs IH]; [reflexivity|].
  cbn [flat_map]. rewrite length_app, IH. cbn [SHA256.be_bytes List.length]. lia.
Qed.

(** A digest has 64 characters, whatever is digested. *)
Lemma hexdigest_length :
  forall msg : string, String.length (SHA256.hexdigest msg) = 64.
Proof.
  intros msg. unfold SHA256.hexdigest.
  rewrite hex_of_bytes_length, word_bytes_length, blocks_length.
  reflexivity.
Qed.

Lemma all_ascii :
  exists chars : list ascii, forall c : ascii, In c chars.
Proof.
  exists (map ascii_of_nat (seq 0 256)). intros c.
  rewrite <- (ascii_nat_embedding c). apply in_map, in_seq.
  pose proof (nat_ascii_bounded c). lia.
Qed.

Lemma strings_of_length :
  forall n : nat,
    exists texts : list string, forall s : string, String.length s = n -> In s texts.
Proof.
  destruct all_ascii as [chars Hchars].
  induction n as [|n [texts IH]].
  - exists [EmptyString]. intros [|c s] H; [now left|discriminate H].
  - exists (flat_map (fun s => map (fun c => String c s) chars) texts).
    intros [|c s] H; [discriminate H|]. injection H as H.
    apply in_flat_map. exists s. split; [now apply IH|].
    apply in_map_iff. exists c. split; [reflexivity|apply Hchars].
Qed.

Lemma repeated_or_NoDup :
  forall (f : nat -> string) (n : nat),
    (exists i j, i < j /\ f i = f j) \/ NoDup (map f (seq 0 n)).
Proof.
  intros f n. induction n as [|n [IH|IH]].
  - right. constructor.
  - now left.
  - rewrite seq_S, map_app. simpl.
    destruct (in_dec string_dec (f n) (map f (seq 0 n))) as [Hin|Hout].
    + left. apply in_map_iff in Hin. destruct Hin as [i [E Hi]].
      apply in_seq in Hi. exists i, n. split; [lia|exact E].
    + right. apply NoDup_app; [assumption|repeat constructor; intros []|].
      intros x Hx [<-|[]]. contradiction.
Qed.

(** Texts of one length, one for every number: two of them are equal. *)
Lemma two_alike :
  forall (f : nat -> string) (n : nat),
    (forall i, String.length (f i) = n) ->
    exists i j, i < j /\ f i = f j.
Proof.
  intros f n Hlen. destruct (strings_of_length n) as [texts Htexts].
  destruct (repeated_or_NoDup f (S (List.length texts))) as [H|Hnd]; [exact H|].
  exfalso.
  assert (Hincl : incl (map f (seq 0 (S (List.length texts)))) texts).
  { intros s Hs. apply in_map_iff in Hs. destruct Hs as [i [<- _]].
    apply Htexts, Hlen. }
  pose proof (NoDup_incl_length Hnd Hincl) as Hle.
  rewrite length_map, length_seq in Hle. lia.
Qed.

Lemma ones_length : forall n : nat, String.length (ones n) = n.
Proof. induction n as [|n IH]; simpl; [reflexivity|now rewrite IH]. Qed.

(** The bytes that are digested follow the content of the Pipfile. *)
Lemma hashed_bytes_follow_content :
  forall p p' : Pipfile.t,
    version_changed (regular_packages p) (regular_packages p')
    \/ version_changed (develop_packages p) (develop_packages p')
    \/ entry_changed (required p) (required p')
    \/ entry_changed (required p') (required p)
    \/ map source_entry (configured_sources p)
       <> map source_entry (configured_sources p') ->
    encode_utf8 (hashed_content p) <> encode_utf8 (hashed_content p').
Proof.
  intros p p' Hchanged Henc. apply encode_utf8_inj in Henc.
  unfold hashed_content in Henc. apply dumps_canon in Henc.
  destruct (canon_data_components p p' Henc) as [Ereq [Esrc [Epk Edev]]].
  destruct Hchanged as [H|[H|[H|[H|H]]]].
  - now apply (canon_to_pipfile_version _ _ Epk).
  - now apply (canon_to_pipfile_version _ _ Edev).
  - now apply (canon_requires_entry _ _ Ereq).
  - symmetry in Ereq. now apply (canon_requires_entry _ _ Ereq).
  - apply H. now apply canon_sources_entries.
Qed.




(** The digests of the example Pipfiles, as [hashlib] gives them for the
    same documents: the first two hold the same packages in another
    order, the third has another version of one package. *)
Example hash_example_digests :
  Pipfile.hash hash_example_a
  = [("sha256", "f3e25b4cc51d67e84ddc04be6396b5a7f1caeee8c55fde609d778489f9e5663b")]
  /\ Pipfile.hash hash_example_b = Pipfile.hash hash_example_a
  /\ Pipfile.hash hash_example_c
     = [("sha256", "cb142819e4f4d4c68090729031aa967bc8115ad1d5bd953ede5c16da709f8b0e")].
Proof.
  repeat split; vm_compute; reflexivity.
Qed.

Example sha256_test_vectors :
  SHA256.hexdigest "abc"
  = "ba7816bf8f01cfea414140de5dae2223b00361a396177a9cb410ff61f20015ad"
  /\ SHA256.hexdigest ""
     = "e3b0c44298fc1c149afbf4c8996fb92427ae41e4649b934ca495991b7852b855".
Proof.
  split; vm_compute; reflexivity.
Qed.

(** * Further properties *)

(** ** Parsing *)

(** X1: [Pipfile.parse] never raises PipfileParseError, whatever the two
    parsers and [from_dict] do, and it returns a Pipfile exactly when
    [from_string] returns that Pipfile: the fallback to requirements never
    turns a text that [from_string] refuses into a manifest. *)
Theorem parse_never_rescues :
  forall (toml_loads json_loads : string -> option json)
         (from_dict : json -> result Pipfile.t) (text : string),
    Pipfile.parse toml_loads json_loads from_dict text <> Raise PipfileParseError
    /\ (forall p,
          Pipfile.parse toml_loads json_loads from_dict text = Ok p
          <-> Pipfile.from_string toml_loads json_loads from_dict text = Ok p).
Proof.
  intros toml_loads json_loads from_dict text.
  unfold Pipfile.parse, _PipfileBase.parse. simpl.
  destruct (Pipfile.from_string toml_loads json_loads from_dict text) as [p|[]];
    (split; [discriminate|]); intros q; split; intros H; try discriminate H; exact H.
Qed.

(** ** Sanitizing the source indexes, continued *)

Lemma sanitize_loop_registered :
  forall (pvs : list PackageVersion.t) (sources : PyDict.t Source.t),
    sources_wf sources ->
    (forall i, In i (referenced pvs) ->
               exists s, PyDict.get sources (Source.name i) = Some s /\ same_index s i) ->
    for_each pvs _PipfileBase.sanitize_package sources = (Ok tt, sources).
Proof.
  induction pvs as [|pv rest IH]; intros sources Hwf Hreg.
  - reflexivity.
  - simpl for_each. unfold bind at 1. rewrite sanitize_package_spec by assumption.
    unfold referenced in Hreg. simpl flat_map in Hreg. fold (referenced rest) in Hreg.
    destruct (PackageVersion.index pv) as [index|].
    + destruct (Hreg index (or_introl eq_refl)) as [s [Hs [Hn [Hu Hv]]]].
      rewrite Hs.
      destruct (index_check_spec index s) as [[_ ->]|[Hc _]].
      * apply IH; [assumption|]. intros i Hi. apply Hreg. now right.
      * exfalso. apply Hc. intros _. auto.
    + apply IH; [assumption|]. intros i Hi. now apply Hreg.
Qed.

(** X2: [sanitize_source_indexes] is idempotent: on a manifest whose
    [meta.sources] maps names to sources, a run that ends normally leaves
    a manifest on which a second run ends normally and changes nothing. *)
Theorem sanitize_source_indexes_idempotent :
  forall self self' : _PipfileBase.t,
    sources_wf (PipfileMeta.sources (_PipfileBase.meta self)) ->
    _PipfileBase.sanitize_source_indexes self = (Ok tt, self') ->
    _PipfileBase.sanitize_source_indexes self' = (Ok tt, self').
Proof.
  intros self self' Hwf Hrun.
  destruct (sanitize_loop_spec (all_packages self) _ Hwf)
    as [r [sources' [Hloop [Hwf' [_ Hres]]]]].
  unfold _PipfileBase.sanitize_source_indexes, _PipfileBase.sanitize_sources in Hrun.
  unfold all_packages in Hloop. rewrite Hloop in Hrun. injection Hrun as -> <-.
  destruct Hres as [[_ [_ Hreg]]|[_ Hr]]; [|discriminate Hr].
  destruct self as [pk dev m]. unfold all_packages in Hreg.
  unfold _PipfileBase.sanitize_source_indexes, _PipfileBase.sanitize_sources.
  cbn [_PipfileBase.set_meta _PipfileBase.packages _PipfileBase.dev_packages
       _PipfileBase.meta PipfileMeta.set_sources PipfileMeta.sources] in *.
  rewrite (sanitize_loop_registered _ sources' Hwf' Hreg).
  reflexivity.
Qed.

Lemma sanitize_source_indexes_idempotent_witness :
  _PipfileBase.sanitize_source_indexes
    (snd (_PipfileBase.sanitize_source_indexes sanitize_example))
  = (Ok tt, snd (_PipfileBase.sanitize_source_indexes sanitize_example)).
Proof.
  apply (sanitize_source_indexes_idempotent sanitize_example).
  - split.
    + repeat constructor. intros [].
    + intros k s [[= <- <-]|[]]. reflexivity.
  - reflexivity.
Defined.

Lemma sanitize_loop_appends :
  forall (pvs : list PackageVersion.t) (sources : PyDict.t Source.t),
    sources_wf sources ->
    exists added,
      snd (for_each pvs _PipfileBase.sanitize_package sources) = sources ++ added
      /\ forall k s, In (k, s) added -> k = Source.name s /\ In s (referenced pvs).
Proof.
  induction pvs as [|pv rest IH]; intros sources Hwf.
  - exists []. simpl. rewrite app_nil_r. split; [reflexivity|]. intros k s [].
  - simpl for_each. unfold bind at 1. rewrite sanitize_package_spec by assumption.
    unfold referenced. simpl flat_map. fold (referenced rest).
    destruct (PackageVersion.index pv) as [index|]; [|now apply IH].
    destruct (PyDict.get sources (Source.name index)) as [source|] eqn:G.
    + destruct (_PipfileBase._index_check index source).
      * destruct (IH sources Hwf) as [added [Ha Hb]]. exists added.
        split; [assumption|]. intros k s Hin. destruct (Hb k s Hin). split; auto.
        now right.
      * exists []. simpl. rewrite app_nil_r. split; [reflexivity|]. intros k s [].
    + destruct (IH _ (sources_wf_snoc sources index Hwf G)) as [added [Ha Hb]].
      exists ((Source.name index, index) :: added). split.
      * rewrite Ha, <- app_assoc. reflexivity.
      * intros k s [[= <- <-]|Hin].
        -- split; [reflexivity|now left].
        -- destruct (Hb k s Hin). split; auto. now right.
Qed.

(** X3: whether it ends normally or raises, [sanitize_source_indexes]
    only appends to [meta.sources]: the sources registered before keep
    their place and their value, every source appended is the index of a
    package and is stored under its own name, the mapping stays a mapping
    from names to sources, and nothing else of the manifest changes.  The
    only exception it raises is InternalError. *)
Theorem sanitize_source_indexes_appends :
  forall self : _PipfileBase.t,
    sources_wf (PipfileMeta.sources (_PipfileBase.meta self)) ->
    let outcome := _PipfileBase.sanitize_source_indexes self in
    let meta := _PipfileBase.meta self in
    let meta' := _PipfileBase.meta (snd outcome) in
    (fst outcome = Ok tt \/ fst outcome = Raise InternalError)
    /\ _PipfileBase.packages (snd outcome) = _PipfileBase.packages self
    /\ _PipfileBase.dev_packages (snd outcome) = _PipfileBase.dev_packages self
    /\ PipfileMeta.requires meta' = PipfileMeta.requires meta
    /\ PipfileMeta.pipenv meta' = PipfileMeta.pipenv meta
    /\ PipfileMeta.hash meta' = PipfileMeta.hash meta
    /\ PipfileMeta.pipfile_spec meta' = PipfileMeta.pipfile_spec meta
    /\ sources_wf (PipfileMeta.sources meta')
    /\ exists added,
         PipfileMeta.sources meta' = PipfileMeta.sources meta ++ added
         /\ forall k s, In (k, s) added ->
                         k = Source.name s /\ In s (referenced (all_packages self)).
Proof.
  intros self Hwf outcome meta meta'.
  destruct (sanitize_loop_spec (all_packages self) _ Hwf)
    as [r [sources' [Hloop [Hwf' [_ Hres]]]]].
  destruct (sanitize_loop_appends (all_packages self) _ Hwf) as [added [Ha Hb]].
  rewrite Hloop in Ha. simpl in Ha.
  assert (Hout : outcome
                 = (r, _PipfileBase.set_meta self
                         (PipfileMeta.set_sources (_PipfileBase.meta self) sources'))).
  { unfold outcome, _PipfileBase.sanitize_source_indexes, _PipfileBase.sanitize_sources.
    unfold all_packages in Hloop. now rewrite Hloop. }
  unfold meta'. rewrite Hout. simpl.
  split; [destruct Hres as [[_ [-> _]]|[_ ->]]; auto|].
  repeat (split; [reflexivity|]).
  split; [assumption|]. exists added. now split.
Qed.

Lemma sanitize_source_indexes_appends_witness :
  exists added,
    PipfileMeta.sources
      (_PipfileBase.meta (snd (_PipfileBase.sanitize_source_indexes sanitize_example)))
    = [("pypi", pypi)] ++ added.
Proof.
  assert (Hwf : sources_wf [("pypi", pypi)]).
  { split.
    - repeat constructor. intros [].
    - intros k s [[= <- <-]|[]]. reflexivity. }
  destruct (sanitize_source_indexes_appends sanitize_example Hwf)
    as [_ [_ [_ [_ [_ [_ [_ [_ [added [Ha _]]]]]]]]]].
  exists added. exact Ha.
Defined.

(** ** Adding a source *)

Lemma PyDict_set_keys :
  forall (V : Type) (d : PyDict.t V) (k : string) (v : V),
    PyDict.keys (PyDict.set d k v)
    = if PyDict.contains d k then PyDict.keys d else PyDict.keys d ++ [k].
Proof.
  intros V d k v. unfold PyDict.contains.
  induction d as [|[k' v'] d IH]; simpl; [reflexivity|].
  destruct (String.eqb k' k) eqn:E; simpl; [reflexivity|].
  rewrite IH. now destruct (PyDict.get d k).
Qed.

Lemma PyDict_set_In :
  forall (V : Type) (d : PyDict.t V) (k k' : string) (v x : V),
    In (k', x) (PyDict.set d k v) -> (k' = k /\ x = v) \/ In (k', x) d.
Proof.
  induction d as [|[k0 v0] d IH]; intros k k' v x H; simpl in H.
  - destruct H as [[= <- <-]|[]]. now left.
  - destruct (String.eqb_spec k0 k) as [->|Hne]; simpl in H.
    + destruct H as [[= <- <-]|H]; [now left|right; now right].
    + destruct H as [H|H]; [right; now left|].
      destruct (IH _ _ _ _ H); [now left|right; now right].
Qed.

Lemma PyDict_set_wf :
  forall (V : Type) (d : PyDict.t V) (k : string) (v : V),
    PyDict.wf d -> PyDict.wf (PyDict.set d k v).
Proof.
  intros V d k v Hwf. unfold PyDict.wf in *. rewrite PyDict_set_keys.
  unfold PyDict.contains. destruct (PyDict.get d k) eqn:G; [assumption|].
  apply PyDict_get_None_keys in G.
  apply NoDup_app; [assumption|repeat constructor; intros []|].
  intros x Hx [<-|[]]. contradiction.
Qed.

(** X4: [PipfileMeta.add_source] stores the source under its name and
    leaves the entries of all other names alone; a source of the same name
    that was registered before is replaced in place, without any check of
    its url, and otherwise the source is appended.  The mapping stays a
    mapping from names to sources and the rest of the metadata is
    untouched. *)
Theorem meta_add_source_registers :
  forall (source : Source.t) (m : PipfileMeta.t),
    let m' := snd (PipfileMeta.add_source source m) in
    fst (PipfileMeta.add_source source m) = Ok tt
    /\ PyDict.get (PipfileMeta.sources m') (Source.name source) = Some source
    /\ (forall k, k <> Source.name source ->
                  PyDict.get (PipfileMeta.sources m') k
                  = PyDict.get (PipfileMeta.sources m) k)
    /\ PyDict.keys (PipfileMeta.sources m')
       = (if PyDict.contains (PipfileMeta.sources m) (Source.name source)
          then PyDict.keys (PipfileMeta.sources m)
          else PyDict.keys (PipfileMeta.sources m) ++ [Source.name source])
    /\ (sources_wf (PipfileMeta.sources m) -> sources_wf (PipfileMeta.sources m'))
    /\ PipfileMeta.requires m' = PipfileMeta.requires m
    /\ PipfileMeta.pipenv m' = PipfileMeta.pipenv m
    /\ PipfileMeta.hash m' = PipfileMeta.hash m
    /\ PipfileMeta.pipfile_spec m' = PipfileMeta.pipfile_spec m.
Proof.
  intros source m m'. unfold m', PipfileMeta.add_source. simpl.
  split; [reflexivity|]. split; [apply PyDict_get_set_eq|].
  split; [intros k Hk; apply PyDict_get_set_neq; congruence|].
  split; [apply PyDict_set_keys|].
  split; [|repeat split].
  intros [Hnd Hkey]. split; [now apply PyDict_set_wf|].
  intros k s Hin. apply PyDict_set_In in Hin.
  destruct Hin as [[-> ->]|Hin]; [reflexivity|now apply Hkey].
Qed.

Lemma meta_add_source_registers_witness :
  sources_wf
    (PipfileMeta.sources
       (snd (PipfileMeta.add_source pypi_http (example_meta [("pypi", pypi)])))).
Proof.
  apply (meta_add_source_registers pypi_http (example_meta [("pypi", pypi)])).
  split.
  - repeat constructor. intros [].
  - intros k s [[= <- <-]|[]]. reflexivity.
Defined.

(** X5: [Project.add_source] builds the source from its arguments, under
    the given name or, when no name or an empty one is given, under the
    default name of the url; it returns that source and registers it in
    the metadata of the Pipfile and, if the project is locked, in the
    metadata of the lock as well.  No package is touched. *)
Theorem project_add_source_registers :
  forall (default_name : string -> string) (url : string) (verify_ssl : bool)
         (name : option string) (warehouse : bool) (warehouse_api_url : option string)
         (self : Project.t),
    let outcome :=
      ProjectSources.add_source default_name url verify_ssl name warehouse
        warehouse_api_url self in
    let source :=
      Source.mk (match name with
                 | Some (String c n) => String c n
                 | _ => default_name url
                 end) url verify_ssl warehouse warehouse_api_url in
    fst outcome = Ok source
    /\ PyDict.get (PipfileMeta.sources
                     (_PipfileBase.meta (Project.pipfile (snd outcome))))
         (Source.name source) = Some source
    /\ _PipfileBase.packages (Project.pipfile (snd outcome))
       = _PipfileBase.packages (Project.pipfile self)
    /\ _PipfileBase.dev_packages (Project.pipfile (snd outcome))
       = _PipfileBase.dev_packages (Project.pipfile self)
    /\ match Project.pipfile_lock self with
       | None => Project.pipfile_lock (snd outcome) = None
       | Some lock =>
           exists lock',
             Project.pipfile_lock (snd outcome) = Some lock'
             /\ PyDict.get (PipfileMeta.sources (_PipfileBase.meta lock'))
                  (Source.name source) = Some source
             /\ _PipfileBase.packages lock' = _PipfileBase.packages lock
             /\ _PipfileBase.dev_packages lock' = _PipfileBase.dev_packages lock
       end.
Proof.
  intros default_name url verify_ssl name warehouse warehouse_api_url self
         outcome source.
  unfold outcome, ProjectSources.add_source.
  destruct name as [[|c n]|]; unfold source; simpl;
    (destruct (Project.pipfile_lock self) as [lock|]; simpl;
     [repeat split; try apply PyDict_get_set_eq;
      eexists; repeat split; apply PyDict_get_set_eq
     |repeat split; apply PyDict_get_set_eq]).
Qed.

(** ** What the digest of a Pipfile leaves out *)

Lemma source_entry_to_dict :
  forall l l' : list Source.t,
    map source_entry l = map source_entry l' ->
    map Source.to_dict l = map Source.to_dict l'.
Proof.
  intros l l'. apply map_eq_transfer.
  intros [n u v w a] [n' u' v' w' a']. unfold source_entry, Source.to_dict. simpl.
  now intros [= -> -> ->].
Qed.

(** X6: the digest of a Pipfile is a function of the short forms of its
    packages (name, version and the name of the index), of the [requires]
    entries and of the name, url and [verify_ssl] of its sources, in their
    order: two Pipfiles that agree on these have the same digest, whatever
    their [pipenv] section, stored hash, [pipfile-spec], package hashes and
    markers are; an absent [requires] counts as an empty one. *)
Theorem hash_ignores_the_rest :
  forall p p' : Pipfile.t,
    Packages.to_pipfile (_PipfileBase.packages p)
    = Packages.to_pipfile (_PipfileBase.packages p') ->
    Packages.to_pipfile (_PipfileBase.dev_packages p)
    = Packages.to_pipfile (_PipfileBase.dev_packages p') ->
    required p = required p' ->
    map source_entry (configured_sources p) = map source_entry (configured_sources p') ->
    Pipfile.hash p = Pipfile.hash p'.
Proof.
  intros p p' Hpk Hdev Hreq Hsrc. unfold Pipfile.hash.
  rewrite !data_shape, Hpk, Hdev, Hreq, (source_entry_to_dict _ _ Hsrc). reflexivity.
Qed.

Lemma hash_ignores_the_rest_witness :
  Pipfile.hash hash_example_a = Pipfile.hash hash_example_noise.
Proof.
  apply (hash_ignores_the_rest hash_example_a hash_example_noise); reflexivity.
Defined.

(** ** Writing a Pipfile.lock *)

Lemma lock_to_dict_run :
  forall (pipfile self_pipfile : option Pipfile.t) (p : Pipfile.t) (self : PipfileLock.t),
    chosen_pipfile pipfile self_pipfile = Some p ->
    sources_wf (PipfileMeta.sources (_PipfileBase.meta self)) ->
    exists r sources',
      for_each (all_packages self) _PipfileBase.sanitize_package
        (PipfileMeta.sources (_PipfileBase.meta self)) = (r, sources')
      /\ let m := _PipfileBase.meta self in
         let m' := PipfileMeta.mk sources' (PipfileMeta.requires m) (PipfileMeta.pipenv m)
                     (Some (PipfileLockWrite.hash_value p)) (PipfileMeta.pipfile_spec m) in
         let self' := _PipfileBase.mk (_PipfileBase.packages self)
                        (_PipfileBase.dev_packages self) m' in
         PipfileLockWrite.to_dict pipfile self_pipfile self
         = match r with
           | Ok _ =>
               (Ok [("_meta", JDict (PipfileMeta.to_dict m' true));
                    ("default", PipfileLockWrite.to_pipfile_lock (_PipfileBase.packages self));
                    ("develop",
                     PipfileLockWrite.to_pipfile_lock (_PipfileBase.dev_packages self))],
                self')
           | Raise e => (Raise e, self')
           end.
Proof.
  intros pipfile self_pipfile p self Hp Hwf.
  destruct (sanitize_loop_spec (all_packages self) _ Hwf) as [r [sources' [Hloop _]]].
  exists r, sources'. split; [assumption|].
  unfold PipfileLockWrite.to_dict. fold (chosen_pipfile pipfile self_pipfile).
  rewrite Hp. destruct self as [pk dev m]. unfold all_packages in Hloop.
  unfold _PipfileBase.sanitize_source_indexes, _PipfileBase.sanitize_sources.
  cbn in *. rewrite Hloop. now destruct r.
Qed.

(** X7: when the registered sources and the indexes of the locked
    packages are consistent, [PipfileLock.to_dict] returns a document with
    the keys [_meta], [default] and [develop] whose [_meta.hash] is the
    digest of the Pipfile handed in, or of the stored one if none is
    handed in, computed at that moment: a hash stored in the lock before
    plays no part.  The lock keeps that digest, and [_meta.sources] lists
    a source for the index of every locked package. *)
Theorem lock_to_dict_fresh_hash :
  forall (pipfile self_pipfile : option Pipfile.t) (p : Pipfile.t) (self : PipfileLock.t),
    chosen_pipfile pipfile self_pipfile = Some p ->
    sources_wf (PipfileMeta.sources (_PipfileBase.meta self)) ->
    all_consistent (PyDict.values (PipfileMeta.sources (_PipfileBase.meta self))
                    ++ referenced (all_packages self)) ->
    exists content self' m,
      PipfileLockWrite.to_dict pipfile self_pipfile self = (Ok content, self')
      /\ PyDict.keys content = ["_meta"; "default"; "develop"]
      /\ PyDict.get content "_meta" = Some (JDict m)
      /\ PyDict.get m "hash" = Some (PipfileLockWrite.hash_value p)
      /\ PipfileMeta.hash (_PipfileBase.meta self') = Some (PipfileLockWrite.hash_value p)
      /\ PyDict.get m "sources"
         = Some (JList (map Source.to_dict
                          (PyDict.values (PipfileMeta.sources (_PipfileBase.meta self')))))
      /\ forall pv i,
           In pv (all_packages self) ->
           PackageVersion.index pv = Some i ->
           exists s, PyDict.get (PipfileMeta.sources (_PipfileBase.meta self'))
                       (Source.name i) = Some s
                     /\ same_index s i.
Proof.
  intros pipfile self_pipfile p self Hp Hwf Hall.
  destruct (lock_to_dict_run pipfile self_pipfile p self Hp Hwf)
    as [r [sources' [Hloop Hrun]]].
  destruct (sanitize_loop_spec (all_packages self) _ Hwf)
    as [r0 [s0 [Hloop0 [_ [_ Hres]]]]].
  rewrite Hloop in Hloop0. injection Hloop0 as <- <-.
  destruct Hres as [[_ [-> Hreg]]|[Hno _]]; [|contradiction].
  cbv zeta in Hrun. rewrite Hrun.
  eexists. eexists. eexists. split; [reflexivity|].
  split; [reflexivity|]. split; [reflexivity|]. split; [reflexivity|].
  split; [reflexivity|]. split; [reflexivity|].
  intros pv i Hpv Hi. cbn. apply Hreg. now apply (referenced_In _ pv).
Qed.

Lemma lock_to_dict_fresh_hash_witness :
  exists content self' m,
    PipfileLockWrite.to_dict (Some hash_example_a) (Some hash_example_c) stale_lock
    = (Ok content, self')
    /\ PyDict.get content "_meta" = Some (JDict m)
    /\ PyDict.get m "hash" = Some (PipfileLockWrite.hash_value hash_example_a).
Proof.
  destruct (lock_to_dict_fresh_hash (Some hash_example_a) (Some hash_example_c)
              hash_example_a stale_lock eq_refl) as [content [self' [m H]]].
  - split.
    + repeat constructor. intros [].
    + intros k s [[= <- <-]|[]]. reflexivity.
  - intros a b Ha Hb. simpl in Ha, Hb.
    destruct Ha as [<-|[<-|[]]], Hb as [<-|[<-|[]]];
      unfold consistent; simpl; intros E; try discriminate E; auto.
  - exists content, self', m. tauto.
Defined.

(** X8: [PipfileLock.to_dict] raises InternalError and leaves the lock
    untouched when no Pipfile is handed in and none is stored.  With a
    Pipfile it raises InternalError when the registered sources and the
    indexes of the locked packages are not consistent with one another;
    the hash stored in the lock has by then been replaced by the digest of
    that Pipfile. *)
Theorem lock_to_dict_failures :
  forall (pipfile self_pipfile : option Pipfile.t) (self : PipfileLock.t),
    (chosen_pipfile pipfile self_pipfile = None ->
     PipfileLockWrite.to_dict pipfile self_pipfile self = (Raise InternalError, self))
    /\ (forall p,
          chosen_pipfile pipfile self_pipfile = Some p ->
          sources_wf (PipfileMeta.sources (_PipfileBase.meta self)) ->
          ~ all_consistent (PyDict.values (PipfileMeta.sources (_PipfileBase.meta self))
                            ++ referenced (all_packages self)) ->
          fst (PipfileLockWrite.to_dict pipfile self_pipfile self) = Raise InternalError
          /\ PipfileMeta.hash
               (_PipfileBase.meta (snd (PipfileLockWrite.to_dict pipfile self_pipfile self)))
             = Some (PipfileLockWrite.hash_value p)).
Proof.
  intros pipfile self_pipfile self. split.
  - intros Hp. unfold PipfileLockWrite.to_dict.
    fold (chosen_pipfile pipfile self_pipfile). now rewrite Hp.
  - intros p Hp Hwf Hno.
    destruct (lock_to_dict_run pipfile self_pipfile p self Hp Hwf)
      as [r [sources' [Hloop Hrun]]].
    destruct (sanitize_loop_spec (all_packages self) _ Hwf)
      as [r0 [s0 [Hloop0 [_ [_ Hres]]]]].
    rewrite Hloop in Hloop0. injection Hloop0 as <- <-.
    destruct Hres as [[Hall _]|[_ ->]]; [contradiction|].
    cbv zeta in Hrun. rewrite Hrun. split; reflexivity.
Qed.

Lemma lock_to_dict_failures_witness :
  PipfileLockWrite.to_dict None None stale_lock = (Raise InternalError, stale_lock)
  /\ fst (PipfileLockWrite.to_dict None (Some hash_example_a) conflicting_lock)
     = Raise InternalError
  /\ PipfileMeta.hash
       (_PipfileBase.meta
          (snd (PipfileLockWrite.to_dict None (Some hash_example_a) conflicting_lock)))
     = Some (PipfileLockWrite.hash_value hash_example_a).
Proof.
  split.
  - apply (proj1 (lock_to_dict_failures None None stale_lock)). reflexivity.
  - apply (proj2 (lock_to_dict_failures None (Some hash_example_a) conflicting_lock)
             hash_example_a eq_refl).
    + split.
      * repeat constructor. intros [].
      * intros k s [[= <- <-]|[]]. reflexivity.
    + intros Hall.
      assert (Hc : consistent pypi pypi_http).
      { apply Hall; simpl; auto. }
      destruct (Hc eq_refl) as [Hu _]. discriminate Hu.
Defined.

(** ** Settings of a project *)

Lemma PyDict_pop_get :
  forall (V : Type) (d d' : PyDict.t V) (k : string) (v : V),
    PyDict_pop d k = Some (v, d') ->
    PyDict.get d k = Some v
    /\ (forall k', k' <> k -> PyDict.get d' k' = PyDict.get d k')
    /\ (PyDict.wf d -> PyDict.get d' k = None).
Proof.
  induction d as [|[k0 v0] d IH]; intros d' k v H; simpl in H; [discriminate|].
  simpl. destruct (String.eqb_spec k0 k) as [->|Hne].
  - injection H as <- <-. split; [reflexivity|]. split.
    + intros k' Hk'. apply not_eq_sym in Hk'. apply String.eqb_neq in Hk'.
      now rewrite Hk'.
    + intros Hwf. inversion Hwf; subst. now apply PyDict_get_None_keys.
  - destruct (PyDict_pop d k) as [[x d'']|] eqn:E; [|discriminate].
    injection H as <- <-. destruct (IH _ _ _ E) as [H1 [H2 H3]].
    split; [assumption|]. split.
    + intros k' Hk'. simpl. rewrite (H2 k' Hk'). reflexivity.
    + intros Hwf. inversion Hwf; subst. simpl.
      apply String.eqb_neq in Hne. rewrite Hne. now apply H3.
Qed.

Lemma PyDict_pop_None :
  forall (V : Type) (d : PyDict.t V) (k : string),
    PyDict_pop d k = None <-> PyDict.get d k = None.
Proof.
  induction d as [|[k0 v0] d IH]; intros k; simpl; [tauto|].
  destruct (String.eqb k0 k); [split; discriminate|].
  rewrite <- IH. destruct (PyDict_pop d k) as [[x d'']|]; split; congruence.
Qed.

Lemma PyDict_set_not_empty :
  forall (V : Type) (d : PyDict.t V) (k : string) (v : V),
    exists kv d', PyDict.set d k v = kv :: d'.
Proof.
  intros V [|[k0 v0] d] k v; simpl.
  - eexists. eexists. reflexivity.
  - destruct (String.eqb k0 k); eexists; eexists; reflexivity.
Qed.

(** X9: [set_python_version] with a version always succeeds, also when
    [requires] is [None], and the property [python_version] then reads
    that version back; the other entries of [requires], the sources, the
    [pipenv] section and the packages of the Pipfile stay as they are.
    The packages of the lock stay as they are too; its metadata is
    untouched unless the lock shares the PipfileMeta object of the
    Pipfile, and then it shows the new metadata of the Pipfile. *)
Theorem set_python_version_then_read :
  forall (lock_shares_meta : bool) (v : string) (self : Project.t),
    let outcome := ProjectSettings.set_python_version lock_shares_meta (Some v) self in
    let before :=
      match PipfileMeta.requires (ProjectSettings.meta self) with
      | Some r => r
      | None => []
      end in
    fst outcome = Done tt
    /\ ProjectSettings.python_version (snd outcome) = Some (JStr v)
    /\ (forall k, k <> "python_version" ->
          exists after,
            PipfileMeta.requires (ProjectSettings.meta (snd outcome)) = Some after
            /\ PyDict.get after k = PyDict.get before k)
    /\ PipfileMeta.sources (ProjectSettings.meta (snd outcome))
       = PipfileMeta.sources (ProjectSettings.meta self)
    /\ PipfileMeta.pipenv (ProjectSettings.meta (snd outcome))
       = PipfileMeta.pipenv (ProjectSettings.meta self)
    /\ _PipfileBase.packages (Project.pipfile (snd outcome))
       = _PipfileBase.packages (Project.pipfile self)
    /\ _PipfileBase.dev_packages (Project.pipfile (snd outcome))
       = _PipfileBase.dev_packages (Project.pipfile self)
    /\ (lock_shares_meta = false ->
        Project.pipfile_lock (snd outcome) = Project.pipfile_lock self)
    /\ match Project.pipfile_lock self with
       | None => Project.pipfile_lock (snd outcome) = None
       | Some lock =>
           exists lock',
             Project.pipfile_lock (snd outcome) = Some lock'
             /\ _PipfileBase.packages lock' = _PipfileBase.packages lock
             /\ _PipfileBase.dev_packages lock' = _PipfileBase.dev_packages lock
             /\ _PipfileBase.meta lock'
                = if lock_shares_meta then ProjectSettings.meta (snd outcome)
                  else _PipfileBase.meta lock
       end.
Proof.
  intros lock_shares_meta v self outcome before.
  unfold outcome, ProjectSettings.set_python_version.
  fold before. cbn [fst snd]. split; [reflexivity|]. split.
  - unfold ProjectSettings.python_version. cbn.
    destruct (PyDict_set_not_empty _ before "python_version" (JStr v)) as [kv [d' E]].
    pose proof (PyDict_get_set_eq _ before "python_version" (JStr v)) as G.
    rewrite E in *. cbn. exact G.
  - split; [|split; [|split; [|split; [|split; [|split]]]]]; try reflexivity.
    + intros k Hk. eexists. split; [reflexivity|].
      apply PyDict_get_set_neq. congruence.
    + intros ->. reflexivity.
    + unfold ProjectSettings.set_meta. cbn [Project.pipfile_lock].
      destruct (Project.pipfile_lock self) as [lock|].
      * destruct lock_shares_meta; cbn [option_map]; eexists;
          (split; [reflexivity|]); repeat split.
      * now destruct lock_shares_meta.
Qed.

(** Example for X9: a locked project whose lock has metadata of its
    own. *)
Lemma set_python_version_then_read_witness :
  Project.pipfile_lock
    (snd (ProjectSettings.set_python_version false (Some "3.6") project_sharing_meta))
  = Project.pipfile_lock project_sharing_meta.
Proof.
  exact (proj1 (proj2 (proj2 (proj2 (proj2 (proj2 (proj2 (proj2
           (set_python_version_then_read false "3.6" project_sharing_meta))))))))
           eq_refl).
Defined.

(** X10: [set_python_version] without a version removes the entry from
    [requires], after which the property [python_version] is [None] and
    the other entries are as before.  It raises AttributeError when
    [requires] is [None] and KeyError when [requires] has no such entry,
    and then leaves the project as it is. *)
Theorem unset_python_version :
  forall (lock_shares_meta : bool) (self : Project.t),
    let outcome := ProjectSettings.set_python_version lock_shares_meta None self in
    (PipfileMeta.requires (ProjectSettings.meta self) = None ->
     outcome = (Fail (Known AttributeError), self))
    /\ (forall r,
          PipfileMeta.requires (ProjectSettings.meta self) = Some r ->
          PyDict.get r "python_version" = None ->
          outcome = (Fail KeyError, self))
    /\ (forall r v,
          PipfileMeta.requires (ProjectSettings.meta self) = Some r ->
          PyDict.wf r ->
          PyDict.get r "python_version" = Some v ->
          fst outcome = Done tt
          /\ ProjectSettings.python_version (snd outcome) = None
          /\ exists after,
               PipfileMeta.requires (ProjectSettings.meta (snd outcome)) = Some after
               /\ forall k, k <> "python_version" ->
                            PyDict.get after k = PyDict.get r k).
Proof.
  intros lock_shares_meta self outcome.
  unfold outcome, ProjectSettings.set_python_version.
  split; [|split].
  - intros ->. reflexivity.
  - intros r -> Hg. apply PyDict_pop_None in Hg. now rewrite Hg.
  - intros r v -> Hwf Hg.
    destruct (PyDict_pop r "python_version") as [[x r']|] eqn:E.
    + destruct (PyDict_pop_get _ _ _ _ _ E) as [_ [Hother Hgone]].
      cbn [fst snd]. split; [reflexivity|]. split.
      * unfold ProjectSettings.python_version. cbn.
        destruct r' as [|kv r']; [reflexivity|]. cbn. now apply Hgone.
      * exists r'. split; [reflexivity|exact Hother].
    + apply PyDict_pop_None in E. congruence.
Qed.

Lemma unset_python_version_witness :
  ProjectSettings.python_version
    (snd (ProjectSettings.set_python_version false None
            (project_with_requires (Some [("python_version", JStr "3.6")]) None)))
  = None.
Proof.
  apply (proj2 (proj2 (unset_python_version false
                         (project_with_requires (Some [("python_version", JStr "3.6")])
                            None)))
           [("python_version", JStr "3.6")] (JStr "3.6") eq_refl).
  - repeat constructor. intros [].
  - reflexivity.
Defined.

(** X11: [set_allow_prereleases] raises TypeError, and changes nothing, on
    a project whose metadata has no [pipenv] section ([None]); with a
    section, also an empty one, it succeeds and [prereleases_allowed] then
    reads the flag back.  Without a section, or with an empty one,
    [prereleases_allowed] is [False]. *)
Theorem allow_prereleases_then_read :
  forall (lock_shares_meta allow : bool) (self : Project.t),
    let outcome :=
      ProjectSettings.set_allow_prereleases lock_shares_meta allow self in
    (PipfileMeta.pipenv (ProjectSettings.meta self) = None ->
     outcome = (Fail TypeError, self)
     /\ ProjectSettings.prereleases_allowed self = JBool false)
    /\ (PipfileMeta.pipenv (ProjectSettings.meta self) = Some [] ->
        ProjectSettings.prereleases_allowed self = JBool false)
    /\ (forall pipenv,
          PipfileMeta.pipenv (ProjectSettings.meta self) = Some pipenv ->
          fst outcome = Done tt
          /\ ProjectSettings.prereleases_allowed (snd outcome) = JBool allow
          /\ PipfileMeta.requires (ProjectSettings.meta (snd outcome))
             = PipfileMeta.requires (ProjectSettings.meta self)
          /\ PipfileMeta.sources (ProjectSettings.meta (snd outcome))
             = PipfileMeta.sources (ProjectSettings.meta self)).
Proof.
  intros lock_shares_meta allow self outcome.
  unfold outcome, ProjectSettings.set_allow_prereleases,
    ProjectSettings.prereleases_allowed.
  split; [|split].
  - intros ->. split; reflexivity.
  - intros ->. reflexivity.
  - intros pipenv ->. cbn [fst snd]. split; [reflexivity|]. split; [|split; reflexivity].
    cbn -[PyDict.get PyDict.set].
    destruct (PyDict_set_not_empty _ pipenv "allow_prereleases" (JBool allow))
      as [kv [d' E]].
    pose proof (PyDict_get_set_eq _ pipenv "allow_prereleases" (JBool allow)) as G.
    rewrite E in *. cbn -[PyDict.get]. now rewrite G.
Qed.

Lemma allow_prereleases_then_read_witness :
  ProjectSettings.set_allow_prereleases false true (project_with_requires None None)
  = (Fail TypeError, project_with_requires None None)
  /\ ProjectSettings.prereleases_allowed
       (snd (ProjectSettings.set_allow_prereleases false true
               (project_with_requires None (Some []))))
     = JBool true.
Proof.
  split.
  - apply (proj1 (allow_prereleases_then_read false true
                    (project_with_requires None None))).
    reflexivity.
  - apply (proj2 (proj2 (allow_prereleases_then_read false true
                           (project_with_requires None (Some [])))) []).
    reflexivity.
Defined.

(** ** Configuration check *)

(** X12: [get_configuration_check_report] raises AttributeError when
    [requires] is [None].  Otherwise it reports nothing as soon as the
    runtime environment states a Python version, whatever the Pipfile
    says; when the runtime environment states none, it returns exactly one
    WARNING, together with a recommended configuration only if the Pipfile
    states a version: the runtime environment with that version filled
    in. *)
Theorem configuration_check_report_cases :
  forall (self : Project.t) (env : ProjectSettings.RuntimeEnvironment),
    let report := ProjectSettings.get_configuration_check_report self env in
    (PipfileMeta.requires (ProjectSettings.meta self) = None ->
     report = Raise AttributeError)
    /\ (forall requires,
          PipfileMeta.requires (ProjectSettings.meta self) = Some requires ->
          let stated :=
            match PyDict.get requires "python_version" with
            | Some v => v
            | None => JNull
            end in
          (json_truthy (ProjectSettings.runtime_python_version env) = true ->
           report = Ok None)
          /\ (json_truthy (ProjectSettings.runtime_python_version env) = false ->
              json_truthy stated = false ->
              exists w, report = Ok (Some (None, [w]))
                        /\ ProjectSettings.finding_type w = WARNING)
          /\ (json_truthy (ProjectSettings.runtime_python_version env) = false ->
              json_truthy stated = true ->
              exists w,
                report
                = Ok (Some (Some (ProjectSettings.mkRuntimeEnvironment stated
                                    (ProjectSettings.runtime_other env)),
                            [w]))
                /\ ProjectSettings.finding_type w = WARNING)).
Proof.
  intros self env report. unfold report, ProjectSettings.get_configuration_check_report.
  split.
  - intros ->. reflexivity.
  - intros requires ->.
    set (stated := match PyDict.get requires "python_version" with
                   | Some v => v
                   | None => JNull
                   end).
    split; [|split].
    + intros ->. rewrite !andb_false_r. reflexivity.
    + intros -> ->. cbn [negb andb]. eexists. split; reflexivity.
    + intros -> ->. cbn [negb andb]. eexists. split; reflexivity.
Qed.

Lemma configuration_check_report_cases_witness :
  exists w,
    ProjectSettings.get_configuration_check_report
      (project_with_requires (Some [("python_version", JStr "3.6")]) None) bare_runtime
    = Ok (Some (Some (ProjectSettings.mkRuntimeEnvironment (JStr "3.6")
                        [("operating_system", JStr "rhel")]),
                [w]))
    /\ ProjectSettings.finding_type w = WARNING.
Proof.
  apply (proj2 (proj2 (proj2 (configuration_check_report_cases
                                (project_with_requires
                                   (Some [("python_version", JStr "3.6")]) None)
                                bare_runtime)
                         [("python_version", JStr "3.6")] eq_refl)));
    reflexivity.
Defined.

(** ** Excluding a package, continued *)

Lemma set_section_other :
  forall (self : Project.t) (develop : bool) (section : Packages.t),
    Project.section_of (Project.set_section self develop section) (negb develop)
    = Project.section_of self (negb develop).
Proof.
  intros self [|] section; reflexivity.
Qed.

Lemma pipfile_lock_set_section :
  forall (self : Project.t) (develop : bool) (section : Packages.t),
    Project.pipfile_lock (Project.set_section self develop section)
    = Project.pipfile_lock self.
Proof.
  intros self [|] section; reflexivity.
Qed.

Lemma meta_set_section :
  forall (self : Project.t) (develop : bool) (section : Packages.t),
    _PipfileBase.meta (Project.pipfile (Project.set_section self develop section))
    = _PipfileBase.meta (Project.pipfile self).
Proof.
  intros self [|] section; reflexivity.
Qed.

Lemma rebind_keys :
  forall (section : Packages.t) (k : string) (pv : PackageVersion.t),
    PyDict.keys (Packages.packages (Project.rebind section k pv))
    = PyDict.keys (Packages.packages section).
Proof.
  intros section k pv. unfold Project.rebind, Packages.contains.
  destruct (PyDict.contains (Packages.packages section) k) eqn:C; [|reflexivity].
  unfold Packages.setitem. cbn [Packages.packages].
  now rewrite PyDict_set_keys, C.
Qed.

Lemma keys_rewrite_held :
  forall (held : list Project.place) (pv : PackageVersion.t) (self : Project.t)
         (d : bool),
    PyDict.keys (Packages.packages
                   (Project.section_of (Project.rewrite_held held pv self) d))
    = PyDict.keys (Packages.packages (Project.section_of self d)).
Proof.
  unfold Project.rewrite_held.
  induction held as [|q rest IH]; intros pv self d; simpl; [reflexivity|].
  rewrite IH. destruct q as [d' k|d' k]; simpl.
  - destruct d', d; simpl; try reflexivity; apply rebind_keys.
  - now destruct (Project.pipfile_lock self).
Qed.

Lemma contains_rewrite_held :
  forall (held : list Project.place) (pv : PackageVersion.t) (self : Project.t)
         (d : bool) (n : string),
    Packages.contains (Project.section_of (Project.rewrite_held held pv self) d) n
    = Packages.contains (Project.section_of self d) n.
Proof.
  intros held pv self d n.
  pose proof (at_place_rewrite_held held pv self (Project.InPipfile d n)) as H.
  cbn [Project.at_place] in H.
  unfold Packages.contains, PyDict.contains. unfold Packages.get in H. rewrite H.
  destruct (Project.holds held (Project.InPipfile d n)); [|reflexivity].
  now destruct (PyDict.get (Packages.packages (Project.section_of self d)) n).
Qed.

Lemma section_rewrite_held_other :
  forall (held : list Project.place) (pv : PackageVersion.t) (self : Project.t)
         (d : bool),
    (forall k, ~ In (Project.InPipfile d k) held) ->
    Project.section_of (Project.rewrite_held held pv self) d = Project.section_of self d.
Proof.
  unfold Project.rewrite_held.
  induction held as [|q rest IH]; intros pv self d Hno; simpl; [reflexivity|].
  rewrite IH by (intros k Hk; apply (Hno k); now right).
  destruct q as [d' k|d' k]; simpl.
  - destruct d', d; simpl; try reflexivity; exfalso; apply (Hno k); now left.
  - now destruct (Project.pipfile_lock self).
Qed.

Lemma lock_rewrite_held_other :
  forall (held : list Project.place) (pv : PackageVersion.t) (self : Project.t),
    (forall d k, Project.holds held (Project.InLock d k) = false) ->
    Project.pipfile_lock (Project.rewrite_held held pv self) = Project.pipfile_lock self.
Proof.
  unfold Project.rewrite_held.
  induction held as [|q rest IH]; intros pv self Hno; simpl; [reflexivity|].
  assert (Hrest : forall d k, Project.holds rest (Project.InLock d k) = false).
  { intros d k. specialize (Hno d k). simpl in Hno.
    apply orb_false_iff in Hno. tauto. }
  rewrite (IH _ _ Hrest). destruct q as [d k|d k]; simpl.
  - apply pipfile_lock_set_section.
  - specialize (Hno d k). simpl in Hno.
    now rewrite Bool.eqb_reflx, String.eqb_refl in Hno.
Qed.

Lemma lock_meta_rewrite_held :
  forall (held : list Project.place) (pv : PackageVersion.t) (self : Project.t),
    option_map _PipfileBase.meta (Project.pipfile_lock (Project.rewrite_held held pv self))
    = option_map _PipfileBase.meta (Project.pipfile_lock self).
Proof.
  unfold Project.rewrite_held.
  induction held as [|q rest IH]; intros pv self; simpl; [reflexivity|].
  rewrite IH. destruct q as [d k|d k]; simpl.
  - now rewrite pipfile_lock_set_section.
  - destruct self as [pf [lock|]]; simpl; [|reflexivity]. now destruct d.
Qed.

(** X13: [exclude_package] of a package that is not pinned raises
    InternalError, changes nothing and does not relock.  For a pinned
    package the object handed in is rewritten and written into the
    Pipfile first, and the relock runs on that Pipfile.  If the relock
    succeeds the new lock takes the place of the old one.  If it fails,
    its error is raised and the exclusion stays in the Pipfile; the old
    lock stays, and so does its metadata, but an entry of it that is the
    object handed in shows the rewritten package: the lock is as before
    only if the package handed in is none of its entries. *)
Theorem exclude_package_outcome :
  forall (run : Pipfile.t -> result PipfileLock.t) (pv : PackageVersion.t)
         (held : list Project.place) (self : Project.t),
    let outcome := Project.exclude_package run pv held self in
    (PackageVersion.is_locked pv = false -> outcome = (Raise InternalError, self))
    /\ (PackageVersion.is_locked pv = true ->
        let develop := PackageVersion.develop pv in
        let rewritten :=
          PackageVersion.set_version pv
            (excluded_version pv
               (Project.holds held (Project.InPipfile develop (PackageVersion.name pv)))
               (Packages.get (Project.section_of self develop)
                  (PackageVersion.name pv))) in
        let pipfile' := Project.pipfile (snd outcome) in
        Packages.get (Project.section_of (snd outcome) develop) (PackageVersion.name pv)
        = Some rewritten
        /\ (forall lock, run pipfile' = Ok lock ->
                         outcome = (Ok tt, Project.mk pipfile' (Some lock)))
        /\ (forall e, run pipfile' = Raise e ->
              fst outcome = Raise e
              /\ option_map _PipfileBase.meta (Project.pipfile_lock (snd outcome))
                 = option_map _PipfileBase.meta (Project.pipfile_lock self)
              /\ (forall d k,
                    Project.at_place (snd outcome) (Project.InLock d k)
                    = if Project.holds held (Project.InLock d k)
                      then option_map (fun _ => rewritten)
                             (Project.at_place self (Project.InLock d k))
                      else Project.at_place self (Project.InLock d k))
              /\ ((forall d k, Project.holds held (Project.InLock d k) = false) ->
                  Project.pipfile_lock (snd outcome) = Project.pipfile_lock self))).
Proof.
  intros run pv held self outcome. split.
  - intros H. unfold outcome, Project.exclude_package. now rewrite H.
  - intros Hlocked develop rewritten pipfile'.
    split; [apply (exclude_package_entry run pv held self Hlocked)|].
    unfold pipfile', outcome.
    rewrite (exclude_package_locked run pv held self Hlocked). cbv zeta.
    fold develop. fold rewritten.
    set (self1 := Project.rewrite_held held rewritten self).
    set (self2 := Project.set_section self1 develop _).
    rewrite pipenv_lock_keeps_pipfile. split.
    + intros lock Hrun. unfold Project.pipenv_lock. now rewrite Hrun.
    + intros e Hrun. unfold Project.pipenv_lock. rewrite Hrun. cbn [fst snd].
      split; [reflexivity|]. unfold self2. split; [|split].
      * rewrite pipfile_lock_set_section. apply lock_meta_rewrite_held.
      * intros d k. cbn [Project.at_place]. rewrite pipfile_lock_set_section.
        apply (at_place_rewrite_held held rewritten self (Project.InLock d k)).
      * intros Hno. rewrite pipfile_lock_set_section.
        now apply lock_rewrite_held_other.
Qed.

(** Example for X13: the stored entry [x==1.0] itself is handed in. *)
Lemma exclude_package_outcome_witness :
  option_map PackageVersion.version
    (Packages.get
       (Project.section_of
          (snd (Project.exclude_package no_pipenv pin_x1 [Project.InPipfile false "x"]
                  project_with_x1)) false) "x")
  = Some "!=1.0,!=1.0".
Proof.
  exact (f_equal (option_map PackageVersion.version)
           (proj1 (proj2 (exclude_package_outcome no_pipenv pin_x1
                            [Project.InPipfile false "x"] project_with_x1) eq_refl))).
Defined.

(** X14: [exclude_package] of a pinned package touches one entry only: in
    the section that matches the [develop] flag of the package every other
    name keeps its entry, the other section and the metadata stay as they
    are, and the keys of the section keep their order, the name of the
    package being appended if the section did not have it.  The package
    handed in may be an object of its own, the entry stored under its name
    or an entry of the lock. *)
Theorem exclude_package_frame :
  forall (run : Pipfile.t -> result PipfileLock.t) (pv : PackageVersion.t)
         (held : list Project.place) (self : Project.t),
    PackageVersion.is_locked pv = true ->
    (forall d k, In (Project.InPipfile d k) held ->
                 d = PackageVersion.develop pv /\ k = PackageVersion.name pv) ->
    let develop := PackageVersion.develop pv in
    let self' := snd (Project.exclude_package run pv held self) in
    (forall n, n <> PackageVersion.name pv ->
               Packages.get (Project.section_of self' develop) n
               = Packages.get (Project.section_of self develop) n)
    /\ Project.section_of self' (negb develop) = Project.section_of self (negb develop)
    /\ _PipfileBase.meta (Project.pipfile self') = _PipfileBase.meta (Project.pipfile self)
    /\ PyDict.keys (Packages.packages (Project.section_of self' develop))
       = (if Packages.contains (Project.section_of self develop) (PackageVersion.name pv)
          then PyDict.keys (Packages.packages (Project.section_of self develop))
          else PyDict.keys (Packages.packages (Project.section_of self develop))
               ++ [PackageVersion.name pv]).
Proof.
  intros run pv held self Hlocked Hheld develop self'. unfold self'.
  rewrite (exclude_package_locked run pv held self Hlocked). cbv zeta. fold develop.
  set (rewritten := PackageVersion.set_version pv _).
  split; [|split; [|split]].
  - intros n Hn. rewrite section_of_pipenv_lock, section_of_set_section.
    unfold Packages.get at 1. unfold Packages.setitem. cbn [Packages.packages].
    rewrite PyDict_get_set_neq by congruence.
    pose proof (at_place_rewrite_held held rewritten self (Project.InPipfile develop n))
      as H.
    cbn [Project.at_place] in H. unfold Packages.get in *. rewrite H.
    destruct (Project.holds held (Project.InPipfile develop n)) eqn:E; [|reflexivity].
    apply holds_In in E. destruct (Hheld _ _ E) as [_ Hk]. contradiction.
  - rewrite section_of_pipenv_lock, set_section_other.
    apply section_rewrite_held_other.
    intros k Hk. destruct (Hheld _ _ Hk) as [Hd _]. fold develop in Hd.
    now destruct develop.
  - rewrite pipenv_lock_keeps_pipfile, meta_set_section. apply meta_rewrite_held.
  - rewrite section_of_pipenv_lock, section_of_set_section.
    unfold Packages.setitem. cbn [Packages.packages].
    rewrite PyDict_set_keys.
    fold (Packages.contains (Project.section_of (Project.rewrite_held held rewritten self)
                               develop) (PackageVersion.name pv)).
    now rewrite contains_rewrite_held, keys_rewrite_held.
Qed.

(** Example for X14: the stored entry [x==1.0] itself is handed in. *)
Lemma exclude_package_frame_witness :
  Packages.get
    (Project.section_of
       (snd (Project.exclude_package no_pipenv pin_x1 [Project.InPipfile false "x"]
               project_with_x1)) false) "y"
  = Some (PackageVersion.mk "y" "*" false None [] None).
Proof.
  apply (proj1 (exclude_package_frame no_pipenv pin_x1 [Project.InPipfile false "x"]
                  project_with_x1 eq_refl
                  (fun d k H =>
                     match H with
                     | or_introl E =>
                         conj (f_equal (fun p => match p with
                                                 | Project.InPipfile d' _ => d'
                                                 | Project.InLock d' _ => d'
                                                 end) (eq_sym E))
                              (f_equal (fun p => match p with
                                                 | Project.InPipfile _ k' => k'
                                                 | Project.InLock _ k' => k'
                                                 end) (eq_sym E))
                     | or_intror F => match F with end
                     end)) "y").
  discriminate.
Defined.

Lemma excluded_version_not_star :
  forall (pv : PackageVersion.t) (same_object : bool)
         (existing : option PackageVersion.t),
    String.eqb (excluded_version pv same_object existing) "*" = false.
Proof.
  intros pv same_object existing. unfold excluded_version.
  destruct existing as [e|]; [|reflexivity].
  destruct (String.eqb (if same_object
                        then ("!=" ++ PackageVersion.locked_version pv)%string
                        else PackageVersion.version e) "*"); reflexivity.
Qed.

Lemma excluded_version_not_locked :
  forall (pv : PackageVersion.t) (same_object : bool)
         (existing : option PackageVersion.t),
    PackageVersion.is_locked
      (PackageVersion.set_version pv (excluded_version pv same_object existing)) = false.
Proof.
  intros pv same_object existing. unfold PackageVersion.is_locked, excluded_version.
  cbn [PackageVersion.set_version PackageVersion.version].
  destruct existing as [e|]; [|reflexivity].
  destruct (String.eqb (if same_object
                        then ("!=" ++ PackageVersion.locked_version pv)%string
                        else PackageVersion.version e) "*"); reflexivity.
Qed.

(** X15: excluding the same pinned version again is not idempotent: the
    second call finds the entry that the first one wrote and puts another
    copy of the negated pin in front of its version.  The first call has
    rewritten the object it was handed, so the pinned package of the
    second call is another object, held by the project or not. *)
Theorem exclude_package_twice :
  forall (run run' : Pipfile.t -> result PipfileLock.t) (pv : PackageVersion.t)
         (held held' : list Project.place) (self : Project.t),
    PackageVersion.is_locked pv = true ->
    let develop := PackageVersion.develop pv in
    let once := snd (Project.exclude_package run pv held self) in
    let twice := snd (Project.exclude_package run' pv held' once) in
    held_object once pv held' ->
    exists first second,
      Packages.get (Project.section_of once develop) (PackageVersion.name pv)
      = Some first
      /\ Packages.get (Project.section_of twice develop) (PackageVersion.name pv)
         = Some second
      /\ PackageVersion.version second
         = ("!=" ++ PackageVersion.locked_version pv ++ ","
            ++ PackageVersion.version first)%string.
Proof.
  intros run run' pv held held' self Hlocked develop once twice Hheld.
  pose proof (exclude_package_entry run pv held self Hlocked) as Hfirst.
  pose proof (exclude_package_entry run' pv held' once Hlocked) as Hsecond.
  cbv zeta in Hfirst, Hsecond. fold develop in Hfirst, Hsecond.
  fold once in Hfirst. fold once twice in Hsecond.
  set (stored := Project.InPipfile develop (PackageVersion.name pv)) in *.
  set (first := PackageVersion.set_version pv _) in Hfirst.
  assert (Hother : Project.holds held' stored = false).
  { apply (held_object_other once pv first held' stored Hheld); [exact Hfirst|].
    intros E. pose proof (excluded_version_not_locked pv
                            (Project.holds held stored)
                            (Packages.get (Project.section_of self develop)
                               (PackageVersion.name pv))) as Hn.
    fold first in Hn. rewrite E in Hn. congruence. }
  rewrite Hother, Hfirst in Hsecond.
  exists first. eexists. split; [exact Hfirst|]. split; [exact Hsecond|].
  cbn [PackageVersion.set_version PackageVersion.version]. unfold excluded_version at 1.
  cbn [PackageVersion.version]. unfold first at 1.
  cbn [PackageVersion.set_version PackageVersion.version].
  now rewrite excluded_version_not_star.
Qed.

Lemma exclude_package_twice_witness :
  exists first second,
    Packages.get
      (Project.section_of
         (snd (Project.exclude_package no_pipenv pin_x1 [] project_with_x2))
         false) "x" = Some first
    /\ Packages.get
         (Project.section_of
            (snd (Project.exclude_package no_pipenv pin_x1 []
                    (snd (Project.exclude_package no_pipenv pin_x1 [] project_with_x2))))
            false) "x" = Some second
    /\ PackageVersion.version second
       = ("!=1.0," ++ PackageVersion.version first)%string.
Proof.
  exact (exclude_package_twice no_pipenv no_pipenv pin_x1 [] [] project_with_x2 eq_refl
           (fun p H => match H with end)).
Defined.

(** ** Source policy pass, continued *)

Lemma check_source_length :
  forall (whitelist : option (list string)) (source : Source.t),
    List.length (Project.check_source whitelist source) <= 1.
Proof.
  intros whitelist source. rewrite check_source_not_whitelisted.
  destruct (not_whitelisted whitelist source); [auto|].
  destruct (negb (Source.verify_ssl source)); auto.
Qed.

(** X16: in the source policy pass an empty whitelist is no whitelist: it
    turns no source down.  With a whitelist that is not empty, a
    configured source gets the ERROR finding SOURCE-NOT-WHITELISTED exactly
    when its url is not listed. *)
Theorem check_sources_whitelist :
  forall (self : Project.t) (whitelist : option (list string)),
    Project._check_sources self (Some []) = Project._check_sources self None
    /\ forall source,
         In source (PyDict.values
                      (PipfileMeta.sources (_PipfileBase.meta (Project.pipfile self)))) ->
         ((exists f, In f (Project._check_sources self whitelist)
                     /\ type f = ERROR /\ id f = "SOURCE-NOT-WHITELISTED"
                     /\ context f = CtxSource source)
          <-> exists u l, whitelist = Some (u :: l)
                          /\ ~ In (Source.url source) (u :: l)).
Proof.
  intros self whitelist. split; [reflexivity|].
  intros source Hin. unfold Project._check_sources.
  assert (Hnw : not_whitelisted whitelist source = true
                <-> exists u l, whitelist = Some (u :: l)
                                /\ ~ In (Source.url source) (u :: l)).
  { unfold not_whitelisted. destruct whitelist as [[|u l]|].
    - split; [discriminate|]. intros [u [l [H _]]]. discriminate H.
    - rewrite negb_true_iff. split.
      + intros H. exists u, l. split; [reflexivity|]. intros Hm.
        apply mem_string_In in Hm. congruence.
      + intros [u' [l' [[= <- <-] Hn]]].
        destruct (mem_string (Source.url source) (u :: l)) eqn:E; [|reflexivity].
        apply mem_string_In in E. contradiction.
    - split; [discriminate|]. intros [u [l [H _]]]. discriminate H. }
  rewrite <- Hnw. split.
  - intros [f [Hf [Hty [Hid Hctx]]]].
    apply in_flat_map in Hf. destruct Hf as [s [_ Hf]].
    rewrite check_source_not_whitelisted in Hf.
    destruct (not_whitelisted whitelist s) eqn:Hw.
    + destruct Hf as [<-|[]]. simpl in Hctx. injection Hctx as ->. exact Hw.
    + destruct (negb (Source.verify_ssl s)); simpl in Hf; [|contradiction].
      destruct Hf as [<-|[]]. discriminate Hty.
  - intros Hw.
    exists (mkFinding ERROR "SOURCE-NOT-WHITELISTED"
              ("Provided index " ++ repr (Source.name source)
               ++ " is not stated in the whitelisted package sources listing")
              (CtxSource source)).
    split; [|repeat split].
    apply in_flat_map. exists source. split; [assumption|].
    rewrite check_source_not_whitelisted, Hw. now left.
Qed.

Lemma check_sources_whitelist_witness :
  exists f, In f (Project._check_sources
                    (Project.mk (example_pipfile [] [("mirror", mirror)]) None)
                    (Some ["https://pypi.org/simple"]))
            /\ type f = ERROR /\ id f = "SOURCE-NOT-WHITELISTED"
            /\ context f = CtxSource mirror.
Proof.
  apply (proj2 (check_sources_whitelist
                  (Project.mk (example_pipfile [] [("mirror", mirror)]) None)
                  (Some ["https://pypi.org/simple"])) mirror).
  - now left.
  - exists "https://pypi.org/simple", []. split; [reflexivity|].
    intros [H|[]]. discriminate H.
Defined.

(** X17: the source policy pass gives at most one finding per configured
    source, and none at all exactly when every configured source verifies
    SSL and is not turned down by the whitelist. *)
Theorem check_sources_clean :
  forall (self : Project.t) (whitelist : option (list string)),
    let sources :=
      PyDict.values (PipfileMeta.sources (_PipfileBase.meta (Project.pipfile self))) in
    List.length (Project._check_sources self whitelist) <= List.length sources
    /\ (Project._check_sources self whitelist = []
        <-> forall source, In source sources ->
                           Source.verify_ssl source = true
                           /\ not_whitelisted whitelist source = false).
Proof.
  intros self whitelist sources. unfold Project._check_sources. fold sources.
  generalize sources. clear sources. intros sources. split.
  - induction sources as [|s l IH]; simpl; [auto|].
    rewrite length_app. pose proof (check_source_length whitelist s). lia.
  - induction sources as [|s l IH]; simpl.
    + split; [intros _ x []|reflexivity].
    + rewrite check_source_not_whitelisted. split.
      * intros H. apply app_eq_nil in H. destruct H as [Hs Hl].
        intros source [<-|Hin]; [|now apply IH].
        destruct (not_whitelisted whitelist s); [discriminate Hs|].
        destruct (Source.verify_ssl s); [auto|discriminate Hs].
      * intros H. destruct (H s (or_introl eq_refl)) as [-> ->]. simpl.
        apply IH. intros source Hin. apply H. now right.
Qed.

(** ** Index scan, continued *)

Lemma visit_other_source_keys :
  forall (index : Source.t) (h : string)
         (acc : PyDict.t (list (option string * string)))
         (item : string * list Artifact) (u : string),
    In u (PyDict.keys (Project.visit_other_source index h acc item))
    <-> In u (PyDict.keys acc)
        \/ (u = fst item /\ fst item <> Source.url index
            /\ In h (map sha256 (snd item))).
Proof.
  intros index h acc [url info] u. unfold Project.visit_other_source. cbn [fst snd].
  destruct (String.eqb_spec url (Source.url index)) as [E|E].
  - split; [now left|]. intros [H|[_ [H _]]]; [assumption|contradiction].
  - assert (Hf : filter (fun i => String.eqb (sha256 i) h) info = []
                 \/ In h (map sha256 info)).
    { induction info as [|a info IH]; [now left|]. simpl.
      destruct (String.eqb_spec (sha256 a) h) as [Ea|Ea].
      - right. now left.
      - destruct IH as [IH|IH]; [now left|right; now right]. }
    destruct (map _ (filter _ info)) as [|e es] eqn:Em.
    + split; [now left|]. intros [H|[_ [_ H]]]; [assumption|].
      exfalso. apply in_map_iff in H. destruct H as [a [Ha Hin]].
      assert (Hin' : In a (filter (fun i => String.eqb (sha256 i) h) info)).
      { apply filter_In. split; [assumption|]. rewrite Ha. apply String.eqb_refl. }
      apply (in_map (fun i => (artifact_name i, sha256 i))) in Hin'.
      rewrite Em in Hin'. destruct Hin'.
    + assert (Hh : In h (map sha256 info)).
      { destruct Hf as [Hf|Hf]; [|assumption]. rewrite Hf in Em. discriminate Em. }
      rewrite PyDict_set_keys. unfold PyDict.contains.
      destruct (PyDict.get acc url) eqn:G.
      * split; [now left|]. intros [H|[-> _]]; [assumption|].
        apply PyDict_get_In in G. change url with (fst (url, l)). now apply in_map.
      * rewrite in_app_iff. split.
        -- intros [H|[<-|[]]]; [now left|right; auto].
        -- intros [H|[-> _]]; [now left|right; now left].
Qed.

Lemma find_other_sources_keys_gen :
  forall (index : Source.t) (report : IndexReport) (hashes : list string)
         (acc : PyDict.t (list (option string * string))) (u : string),
    In u (PyDict.keys
            (fold_left
               (fun other_sources artifact_hash =>
                  fold_left (Project.visit_other_source index
                               (Project.strip_sha256 artifact_hash))
                            (PyDict.items report) other_sources)
               hashes acc))
    <-> In u (PyDict.keys acc) \/ listed_elsewhere (Source.url index) hashes report u.
Proof.
  intros index report.
  assert (Hinner : forall (h : string) (items : list (string * list Artifact))
                          (acc : PyDict.t (list (option string * string))) (u : string),
             In u (PyDict.keys (fold_left (Project.visit_other_source index h) items acc))
             <-> In u (PyDict.keys acc)
                 \/ (u <> Source.url index
                     /\ exists info, In (u, info) items /\ In h (map sha256 info))).
  { intros h items. induction items as [|[url info] items IH]; intros acc u; simpl.
    - split; [now left|]. intros [H|[_ [info [[] _]]]]. assumption.
    - rewrite IH, visit_other_source_keys. cbn [fst snd]. split.
      + intros [[H|[-> [Hne Hh]]]|[Hne [info' [Hin Hh]]]].
        * now left.
        * right. split; [assumption|]. exists info. split; [now left|assumption].
        * right. split; [assumption|]. exists info'. split; [now right|assumption].
      + intros [H|[Hne [info' [[[= -> ->]|Hin] Hh]]]].
        * left. now left.
        * left. right. auto.
        * right. split; [assumption|]. now exists info'. }
  induction hashes as [|h hashes IH]; intros acc u; simpl.
  - split; [now left|]. intros [H|[_ [info [h [_ [[] _]]]]]]. assumption.
  - rewrite IH, Hinner. unfold listed_elsewhere, PyDict.items. split.
    + intros [[H|[Hne [info [Hin Hh]]]]|[Hne [info [h' [Hin [Hh' Hs]]]]]].
      * now left.
      * right. split; [assumption|]. exists info, h.
        split; [assumption|]. split; [now left|assumption].
      * right. split; [assumption|]. exists info, h'.
        split; [assumption|]. split; [now right|assumption].
    + intros [H|[Hne [info [h' [Hin [[<-|Hh'] Hs]]]]]].
      * left. now left.
      * left. right. split; [assumption|]. now exists info.
      * right. split; [assumption|]. now exists info, h'.
Qed.

(** X18: the sources that the scan names as other sources of a package are
    exactly the sources of the report, other than the index assigned to
    the package, that list the digest of one of the package's hashes; the
    assigned index itself is never among them. *)
Theorem find_other_sources_keys :
  forall (index : Source.t) (hashes : list string) (report : IndexReport) (u : string),
    In u (PyDict.keys (Project.find_other_sources index hashes report))
    <-> listed_elsewhere (Source.url index) hashes report u.
Proof.
  intros index hashes report u. unfold Project.find_other_sources.
  rewrite find_other_sources_keys_gen. simpl. tauto.
Qed.

Lemma check_digest_cases :
  forall (pv : PackageVersion.t) (report : IndexReport) (h : string),
    Project.check_digest pv report h
    = if Project.digest_known report (Project.strip_sha256 h) then []
      else [mkFinding ERROR "INVALID-ARTIFACT-HASH"
              "Hash for the given artifact was not found"
              (CtxDigest (PackageVersion.index pv) pv (Project.strip_sha256 h))].
Proof. reflexivity. Qed.

Lemma check_different_artifacts_cases :
  forall (pv : PackageVersion.t) (report : IndexReport),
    Project.check_different_artifacts pv report = []
    \/ exists f, Project.check_different_artifacts pv report = [f]
                 /\ type f = WARNING /\ id f = "DIFFERENT-ARTIFACTS-ON-SOURCES"
                 /\ PackageVersion.index pv = None.
Proof.
  intros pv report. unfold Project.check_different_artifacts.
  destruct (PackageVersion.index pv); [now left|].
  destruct (Nat.ltb 1 _); [|now left].
  destruct (negb _); [|now left].
  right. eexists. split; [reflexivity|]. repeat split.
Qed.

Lemma check_different_source_cases :
  forall (pv : PackageVersion.t) (report : IndexReport),
    Project.check_different_source pv report = []
    \/ exists f i, Project.check_different_source pv report = [f]
                   /\ PackageVersion.index pv = Some i
                   /\ Project.reports_any report (Source.url i) = true
                   /\ ((type f = ERROR /\ id f = "ARTIFACT-DIFFERENT-SOURCE")
                       \/ (type f = INFO /\ id f = "ARTIFACT-POSSIBLE-DIFFERENT-SOURCE")).
Proof.
  intros pv report. unfold Project.check_different_source.
  destruct (PackageVersion.index pv) as [i|]; [|now left].
  destruct (Project.reports_any report (Source.url i)) eqn:Hany; [|now left].
  destruct (Nat.ltb 1 _); [|now left]. cbn [andb].
  destruct (negb (subsetb _ _)).
  - right. eexists. exists i. split; [reflexivity|]. split; [reflexivity|].
    split; [exact Hany|]. left. split; reflexivity.
  - destruct (Project.find_other_sources _ _ _); [now left|].
    right. eexists. exists i. split; [reflexivity|]. split; [reflexivity|].
    split; [exact Hany|]. right. split; reflexivity.
Qed.

Lemma check_missing_package_cases :
  forall (pv : PackageVersion.t) (report : IndexReport),
    Project.check_missing_package pv report = []
    \/ exists f i, Project.check_missing_package pv report = [f]
                   /\ PackageVersion.index pv = Some i
                   /\ Project.reports_any report (Source.url i) = false
                   /\ type f = ERROR /\ id f = "MISSING-PACKAGE".
Proof.
  intros pv report. unfold Project.check_missing_package.
  destruct (PackageVersion.index pv) as [i|]; [|now left].
  destruct (Project.reports_any report (Source.url i)) eqn:Hany; [now left|].
  right. eexists. exists i. split; [reflexivity|]. split; [reflexivity|].
  split; [exact Hany|]. split; reflexivity.
Qed.

Lemma invalid_digests :
  forall (pv : PackageVersion.t) (report : IndexReport) (hashes : list string),
    let found :=
      with_id "INVALID-ARTIFACT-HASH" (flat_map (Project.check_digest pv report) hashes) in
    map finding_digest found
    = filter (fun d => negb (Project.digest_known report d))
             (map Project.strip_sha256 hashes)
    /\ forall f, In f found -> type f = ERROR.
Proof.
  intros pv report hashes. cbv zeta. unfold with_id.
  induction hashes as [|h hashes [IH1 IH2]]; simpl.
  - split; [reflexivity|]. intros f [].
  - rewrite filter_app, map_app, check_digest_cases.
    destruct (Project.digest_known report (Project.strip_sha256 h)); simpl.
    + split; assumption.
    + split; [now rewrite IH1|]. intros f [<-|Hf]; [reflexivity|now apply IH2].
Qed.

(** X19: the scan of a package gives one ERROR finding
    INVALID-ARTIFACT-HASH for every recorded hash whose digest no source
    of the report lists, in the order of the hashes and once per
    occurrence, and for no other hash; the digest reported is the hash
    without its first seven characters. *)
Theorem check_scan_invalid_hashes :
  forall (pv : PackageVersion.t) (report : IndexReport),
    let found := with_id "INVALID-ARTIFACT-HASH" (Project._check_scan pv report) in
    map finding_digest found
    = filter (fun d => negb (Project.digest_known report d))
             (map Project.strip_sha256 (PackageVersion.hashes pv))
    /\ forall f, In f found -> type f = ERROR.
Proof.
  intros pv report. cbv zeta. unfold Project._check_scan, with_id.
  rewrite !filter_app.
  assert (H1 : filter (fun f => String.eqb (id f) "INVALID-ARTIFACT-HASH")
                 (Project.check_different_artifacts pv report) = []).
  { destruct (check_different_artifacts_cases pv report) as [->|[f [-> [_ [Hid _]]]]];
      [reflexivity|]. simpl. now rewrite Hid. }
  assert (H2 : filter (fun f => String.eqb (id f) "INVALID-ARTIFACT-HASH")
                 (Project.check_different_source pv report) = []).
  { destruct (check_different_source_cases pv report)
      as [->|[f [i [-> [_ [_ [[_ Hid]|[_ Hid]]]]]]]]; [reflexivity| |];
      simpl; now rewrite Hid. }
  assert (H3 : filter (fun f => String.eqb (id f) "INVALID-ARTIFACT-HASH")
                 (Project.check_missing_package pv report) = []).
  { destruct (check_missing_package_cases pv report)
      as [->|[f [i [-> [_ [_ [_ Hid]]]]]]]; [reflexivity|]. simpl. now rewrite Hid. }
  rewrite H1, H2, H3. simpl app.
  apply (invalid_digests pv report (PackageVersion.hashes pv)).
Qed.

Lemma verdicts_check_digests :
  forall (pv : PackageVersion.t) (report : IndexReport) (hashes : list string),
    verdicts (flat_map (Project.check_digest pv report) hashes) = [].
Proof.
  intros pv report hashes. unfold verdicts.
  induction hashes as [|h hashes IH]; simpl; [reflexivity|].
  rewrite filter_app, IH, app_nil_r, check_digest_cases.
  now destruct (Project.digest_known report (Project.strip_sha256 h)).
Qed.

Lemma verdicts_scan :
  forall (pv : PackageVersion.t) (report : IndexReport),
    verdicts (Project._check_scan pv report)
    = Project.check_different_artifacts pv report
      ++ Project.check_different_source pv report
      ++ Project.check_missing_package pv report.
Proof.
  intros pv report. unfold Project._check_scan, verdicts. rewrite !filter_app.
  fold (verdicts (flat_map (Project.check_digest pv report) (PackageVersion.hashes pv))).
  rewrite verdicts_check_digests, app_nil_r.
  destruct (check_different_artifacts_cases pv report) as [->|[f [-> [_ [Hid _]]]]];
    destruct (check_different_source_cases pv report)
      as [->|[f2 [i2 [-> [_ [_ [[_ Hid2]|[_ Hid2]]]]]]]];
    destruct (check_missing_package_cases pv report)
      as [->|[f3 [i3 [-> [_ [_ [_ Hid3]]]]]]];
    simpl; rewrite ?Hid, ?Hid2, ?Hid3; reflexivity.
Qed.

(** X20: apart from the INVALID-ARTIFACT-HASH findings, the scan of a
    package gives at most one finding.  For a package without an index it
    can only be DIFFERENT-ARTIFACTS-ON-SOURCES; for a package with an
    index it is MISSING-PACKAGE when the report has no entries under the
    url of the index, and otherwise it can only be
    ARTIFACT-DIFFERENT-SOURCE or ARTIFACT-POSSIBLE-DIFFERENT-SOURCE. *)
Theorem check_scan_one_verdict :
  forall (pv : PackageVersion.t) (report : IndexReport),
    let found := verdicts (Project._check_scan pv report) in
    List.length found <= 1
    /\ (PackageVersion.index pv = None ->
        forall f, In f found -> id f = "DIFFERENT-ARTIFACTS-ON-SOURCES")
    /\ (forall i, PackageVersion.index pv = Some i ->
                  if Project.reports_any report (Source.url i)
                  then forall f, In f found ->
                                 id f = "ARTIFACT-DIFFERENT-SOURCE"
                                 \/ id f = "ARTIFACT-POSSIBLE-DIFFERENT-SOURCE"
                  else exists f, found = [f] /\ id f = "MISSING-PACKAGE").
Proof.
  intros pv report. cbv zeta. rewrite verdicts_scan.
  destruct (check_different_artifacts_cases pv report) as [Ha|[f [Ha [_ [Hid Hnone]]]]];
    destruct (check_different_source_cases pv report)
      as [Hb|[f2 [i2 [Hb [Hi2 [Hany2 Hid2]]]]]];
    destruct (check_missing_package_cases pv report)
      as [Hc|[f3 [i3 [Hc [Hi3 [Hany3 [_ Hid3]]]]]]];
    rewrite Ha, Hb, Hc; try congruence; simpl.
  - split; [auto|]. split; [intros _ x []|].
    intros i Hi. unfold Project.check_missing_package in Hc. rewrite Hi in Hc.
    destruct (Project.reports_any report (Source.url i)); [intros x []|discriminate Hc].
  - split; [auto|]. split; [congruence|].
    intros i Hi. rewrite Hi3 in Hi. injection Hi as <-. rewrite Hany3.
    exists f3. now split.
  - split; [auto|]. split; [congruence|].
    intros i Hi. rewrite Hi2 in Hi. injection Hi as <-. rewrite Hany2.
    intros x [<-|[]]. destruct Hid2 as [[_ H]|[_ H]]; auto.
  - split; [auto|]. split; [intros _ x [<-|[]]; assumption|congruence].
Qed.

Lemma find_other_sources_none :
  forall (index : Source.t) (hashes : list string) (report : IndexReport),
    Project.find_other_sources index hashes report = []
    <-> ~ exists u, listed_elsewhere (Source.url index) hashes report u.
Proof.
  intros index hashes report.
  pose proof (find_other_sources_keys_gen index report hashes []) as K.
  fold (Project.find_other_sources index hashes report) in K.
  destruct (Project.find_other_sources index hashes report) as [|[k v] d]; split.
  - intros _ [u Hu]. now apply (K u); right.
  - reflexivity.
  - discriminate.
  - intros H. exfalso. apply H. exists k.
    destruct (proj1 (K k) (or_introl eq_refl)) as [[]|Hk]. exact Hk.
Qed.

Lemma with_id_different_source :
  forall (i : string) (pv : PackageVersion.t) (report : IndexReport) (index : Source.t),
    PackageVersion.index pv = Some index ->
    i <> "INVALID-ARTIFACT-HASH" ->
    i <> "MISSING-PACKAGE" ->
    with_id i (Project._check_scan pv report)
    = with_id i (Project.check_different_source pv report).
Proof.
  intros i pv report index Hidx Hi Hm.
  unfold Project._check_scan, with_id. rewrite !filter_app.
  fold (with_id i (flat_map (Project.check_digest pv report) (PackageVersion.hashes pv))).
  rewrite (with_id_check_digests i pv report _ Hi), app_nil_r.
  assert (Ha : Project.check_different_artifacts pv report = []).
  { unfold Project.check_different_artifacts. now rewrite Hidx. }
  rewrite Ha. simpl app.
  destruct (check_missing_package_cases pv report)
    as [->|[f [j [-> [_ [_ [_ Hid]]]]]]]; [now rewrite app_nil_r|].
  simpl. rewrite Hid.
  destruct (String.eqb_spec "MISSING-PACKAGE" i) as [E|_]; [now elim Hm|].
  now rewrite app_nil_r.
Qed.

(** X21: for a package with an assigned index that the report has entries
    for, in a report of at least two sources, the scan gives the ERROR
    ARTIFACT-DIFFERENT-SOURCE exactly when the digest of some hash of the
    package is not listed by the assigned index, and the INFO
    ARTIFACT-POSSIBLE-DIFFERENT-SOURCE exactly when the assigned index
    lists all of them and another source lists one of them as well; in no
    other situation is either of them given.  Both name the other sources
    that list one of the package's digests. *)
Theorem check_scan_different_source :
  forall (pv : PackageVersion.t) (report : IndexReport) (index : Source.t),
    PackageVersion.index pv = Some index ->
    let configured := configured_hashes report index in
    let other := Project.find_other_sources index (PackageVersion.hashes pv) report in
    let compared :=
      Project.reports_any report (Source.url index) = true /\ 1 < List.length report in
    (with_id "ARTIFACT-DIFFERENT-SOURCE" (Project._check_scan pv report) <> []
     <-> compared
         /\ exists h, In h (PackageVersion.hashes pv)
                      /\ ~ In (Project.strip_sha256 h) configured)
    /\ (with_id "ARTIFACT-POSSIBLE-DIFFERENT-SOURCE" (Project._check_scan pv report) <> []
        <-> compared
            /\ (forall h, In h (PackageVersion.hashes pv) ->
                          In (Project.strip_sha256 h) configured)
            /\ exists u, listed_elsewhere (Source.url index) (PackageVersion.hashes pv)
                           report u)
    /\ forall f,
         In f (with_id "ARTIFACT-DIFFERENT-SOURCE" (Project._check_scan pv report)
               ++ with_id "ARTIFACT-POSSIBLE-DIFFERENT-SOURCE"
                    (Project._check_scan pv report)) ->
         context f = CtxOtherSources (Some index) pv (PyDict.keys other) other.
Proof.
  intros pv report index Hidx configured other compared.
  rewrite (with_id_different_source "ARTIFACT-DIFFERENT-SOURCE" pv report index Hidx)
    by discriminate.
  rewrite (with_id_different_source "ARTIFACT-POSSIBLE-DIFFERENT-SOURCE" pv report index Hidx)
    by discriminate.
  unfold Project.check_different_source. rewrite Hidx. cbv zeta.
  unfold PyDict.values. rewrite !length_map.
  fold (configured_hashes report index). fold configured. fold other.
  pose proof (find_other_sources_none index (PackageVersion.hashes pv) report) as Hnone.
  fold other in Hnone.
  assert (Hsub : subsetb (map Project.strip_sha256 (PackageVersion.hashes pv)) configured = true
                 <-> forall h, In h (PackageVersion.hashes pv) ->
                               In (Project.strip_sha256 h) configured).
  { rewrite subsetb_incl. split.
    - intros H h Hh. apply H. now apply in_map.
    - intros H x Hx. apply in_map_iff in Hx. destruct Hx as [h [<- Hh]]. now apply H. }
  subst compared.
  destruct (Project.reports_any report (Source.url index)); cbn [andb].
  2: { split; [|split].
       - split; [intros H; now elim H|intros [[H _] _]; discriminate H].
       - split; [intros H; now elim H|intros [[H _] _]; discriminate H].
       - intros f []. }
  destruct (Nat.ltb_spec 1 (List.length report)) as [Hlen|Hlen].
  2: { split; [|split].
       - split; [intros H; now elim H|intros [[_ H] _]; lia].
       - split; [intros H; now elim H|intros [[_ H] _]; lia].
       - intros f []. }
  destruct (subsetb (map Project.strip_sha256 (PackageVersion.hashes pv)) configured)
    eqn:Es; cbn [negb].
  - pose proof (proj1 Hsub eq_refl) as Hall.
    pose proof (find_other_sources_keys_gen index report (PackageVersion.hashes pv) [])
      as Hkeys.
    fold (Project.find_other_sources index (PackageVersion.hashes pv) report) in Hkeys.
    fold other in Hkeys. clearbody other.
    destruct other as [|kv d].
    + split; [|split].
      * split; [intros H; now elim H|].
        intros [_ [h [Hh Hn]]]. elim Hn. now apply Hall.
      * split; [intros H; now elim H|].
        intros [_ [_ Hex]]. elim (proj1 Hnone eq_refl). exact Hex.
      * intros f [].
    + split; [|split].
      * split; [intros H; now elim H|].
        intros [_ [h [Hh Hn]]]. elim Hn. now apply Hall.
      * split; [|discriminate].
        intros _. split; [split; [reflexivity|assumption]|]. split; [assumption|].
        exists (fst kv).
        destruct (proj1 (Hkeys (fst kv)) (or_introl eq_refl)) as [[]|Hk]. exact Hk.
      * intros f [<-|[]]. reflexivity.
  - split; [|split].
    + split; [|discriminate].
      intros _. split; [split; [reflexivity|assumption]|].
      apply subsetb_false in Es. destruct Es as [x [Hx Hn]].
      apply in_map_iff in Hx. destruct Hx as [h [<- Hh]]. now exists h.
    + split; [intros H; now elim H|].
      intros [_ [Hall _]]. apply Hsub in Hall. congruence.
    + intros f [<-|[]]. reflexivity.
Qed.

(** Example for X21: [pkg] pinned with two hashes on pypi, which lists
    only the first of them. *)
Lemma check_scan_different_source_witness :
  with_id "ARTIFACT-DIFFERENT-SOURCE"
    (Project._check_scan pkg_two_hashes report_pypi_and_mirror) <> [].
Proof.
  apply (proj1 (check_scan_different_source pkg_two_hashes report_pypi_and_mirror pypi
                  eq_refl)).
  split; [split; [reflexivity|simpl; lia]|].
  exists "sha256:ccc". split; [simpl; tauto|].
  vm_compute. intros [H|[]]. discriminate H.
Defined.

(** ** Index scan of a project *)

Lemma PyDict_contains_keys :
  forall (V : Type) (d : PyDict.t V) (k : string),
    PyDict.contains d k = true <-> In k (PyDict.keys d).
Proof.
  intros V d k. unfold PyDict.contains.
  destruct (PyDict.get d k) eqn:G.
  - split; [intros _|reflexivity].
    destruct (in_dec string_dec k (PyDict.keys d)) as [H|H]; [assumption|].
    apply PyDict_get_None_keys in H. congruence.
  - split; [discriminate|]. intros H. apply PyDict_get_None_keys in G. contradiction.
Qed.

Lemma index_scan_fold :
  forall (fetch_digests : string -> string -> IndexReport)
         (pvs : list PackageVersion.t) (findings : list Finding)
         (report : PyDict.t IndexReport) (seen : list string),
    (forall n, In n seen <-> In n (PyDict.keys report)) ->
    let fetched pv :=
      fetch_digests (PackageVersion.name pv) (PackageVersion.locked_version pv) in
    fold_left (Project.scan_package fetch_digests) pvs (findings, report)
    = (findings ++ flat_map (fun pv => Project._check_scan pv (fetched pv))
                            (first_by_name seen pvs),
       report ++ map (fun pv => (PackageVersion.name pv, fetched pv))
                     (first_by_name seen pvs)).
Proof.
  intros fetch_digests pvs. cbv zeta.
  induction pvs as [|pv rest IH]; intros findings report seen Hseen; simpl.
  - now rewrite !app_nil_r.
  - unfold Project.scan_package at 2. cbn [fst snd].
    destruct (PyDict.contains report (PackageVersion.name pv)) eqn:C.
    + assert (Hm : mem_string (PackageVersion.name pv) seen = true).
      { apply mem_string_In, Hseen. now apply PyDict_contains_keys. }
      rewrite Hm. now apply IH.
    + assert (Hm : mem_string (PackageVersion.name pv) seen = false).
      { destruct (mem_string (PackageVersion.name pv) seen) eqn:E; [|reflexivity].
        apply mem_string_In, Hseen, PyDict_contains_keys in E. congruence. }
      rewrite Hm.
      assert (G : PyDict.get report (PackageVersion.name pv) = None).
      { unfold PyDict.contains in C.
        destruct (PyDict.get report (PackageVersion.name pv)); [discriminate|reflexivity]. }
      rewrite (PyDict_set_absent _ report _ _ G).
      rewrite (IH _ _ (PackageVersion.name pv :: seen)).
      * simpl. now rewrite <- !app_assoc.
      * intros n. unfold PyDict.keys. rewrite map_app, in_app_iff. simpl.
        specialize (Hseen n). unfold PyDict.keys in Hseen. tauto.
Qed.

Lemma first_by_name_first :
  forall (pvs : list PackageVersion.t) (seen : list string) (pv : PackageVersion.t),
    In pv (first_by_name seen pvs) ->
    ~ In (PackageVersion.name pv) seen
    /\ exists before after,
         pvs = before ++ pv :: after
         /\ ~ In (PackageVersion.name pv) (map PackageVersion.name before).
Proof.
  induction pvs as [|q rest IH]; intros seen pv H; simpl in H; [destruct H|].
  destruct (mem_string (PackageVersion.name q) seen) eqn:E.
  - destruct (IH seen pv H) as [Hn [before [after [-> Hb]]]].
    split; [assumption|]. exists (q :: before), after. split; [reflexivity|].
    simpl. intros [Heq|Hin]; [|contradiction].
    apply mem_string_In in E. rewrite Heq in E. contradiction.
  - destruct H as [<-|H].
    + split.
      * intros Hin. apply mem_string_In in Hin. congruence.
      * exists [], rest. split; [reflexivity|]. intros [].
    + destruct (IH _ pv H) as [Hn [before [after [-> Hb]]]].
      split; [intros Hin; apply Hn; now right|].
      exists (q :: before), after. split; [reflexivity|].
      simpl. intros [Heq|Hin]; [|contradiction]. apply Hn. now left.
Qed.

Lemma first_by_name_NoDup :
  forall (pvs : list PackageVersion.t) (seen : list string),
    NoDup (map PackageVersion.name (first_by_name seen pvs)).
Proof.
  induction pvs as [|q rest IH]; intros seen; simpl; [constructor|].
  destruct (mem_string (PackageVersion.name q) seen); [apply IH|].
  simpl. constructor; [|apply IH].
  intros Hin. apply in_map_iff in Hin. destruct Hin as [pv [Heq Hpv]].
  destruct (first_by_name_first rest _ pv Hpv) as [Hn _].
  apply Hn. left. now rewrite Heq.
Qed.

Lemma first_by_name_names :
  forall (pvs : list PackageVersion.t) (seen : list string) (n : string),
    In n (map PackageVersion.name pvs) ->
    In n seen \/ In n (map PackageVersion.name (first_by_name seen pvs)).
Proof.
  induction pvs as [|q rest IH]; intros seen n H; simpl in *; [destruct H|].
  destruct (mem_string (PackageVersion.name q) seen) eqn:E.
  - destruct H as [<-|H]; [left; now apply mem_string_In|now apply IH].
  - destruct H as [<-|H]; [right; now left|].
    destruct (IH (PackageVersion.name q :: seen) n H) as [[<-|Hs]|Hf].
    + right. now left.
    + now left.
    + right. now right.
Qed.

(** X22: the index scan of a locked project goes through the regular
    packages of the lock and then the development packages, and scans
    every package name once, with the first entry of that name: a package
    that is locked in both sections is fetched and checked as the regular
    entry only, and its development entry is never checked.  The findings
    are the findings of the scanned entries, in that order, and the report
    maps each name to what the fetcher returned for the scanned entry. *)
Theorem index_scan_first_entries :
  forall (fetch_digests : string -> string -> IndexReport) (self : Project.t)
         (lock : PipfileLock.t),
    Project.pipfile_lock self = Some lock ->
    let deps :=
      Packages.iter (_PipfileBase.packages lock)
      ++ Packages.iter (_PipfileBase.dev_packages lock) in
    let fetched pv :=
      fetch_digests (PackageVersion.name pv) (PackageVersion.locked_version pv) in
    let scanned := first_by_name [] deps in
    Project._index_scan fetch_digests self
    = Ok (flat_map (fun pv => Project._check_scan pv (fetched pv)) scanned,
          map (fun pv => (PackageVersion.name pv, fetched pv)) scanned)
    /\ NoDup (map PackageVersion.name scanned)
    /\ (forall n, In n (map PackageVersion.name scanned)
                  <-> In n (map PackageVersion.name deps))
    /\ (forall pv, In pv scanned ->
                   exists before after,
                     deps = before ++ pv :: after
                     /\ ~ In (PackageVersion.name pv) (map PackageVersion.name before)).
Proof.
  intros fetch_digests self lock Hlock deps fetched scanned.
  split; [|split; [|split]].
  - unfold Project._index_scan. rewrite Hlock. f_equal.
    apply (index_scan_fold fetch_digests deps [] [] []).
    intros n. simpl. tauto.
  - apply first_by_name_NoDup.
  - intros n. split.
    + intros H. apply in_map_iff in H. destruct H as [pv [<- Hpv]].
      destruct (first_by_name_first deps [] pv Hpv) as [_ [before [after [-> _]]]].
      apply in_map, in_or_app. right. now left.
    + intros H. destruct (first_by_name_names deps [] n H) as [[]|Hf]. exact Hf.
  - intros pv Hpv. now destruct (first_by_name_first deps [] pv Hpv).
Qed.

(** Example for X22: [pkg] is locked in both sections; only the regular
    entry is scanned. *)
Lemma index_scan_first_entries_witness :
  Project._index_scan fetch_pypi_and_mirror
    (Project.mk (example_pipfile [] []) (Some lock_pkg_twice))
  = Ok (Project._check_scan pkg_on_pypi report_pypi_and_mirror ++ [],
        [("pkg", report_pypi_and_mirror)]).
Proof.
  exact (proj1 (index_scan_first_entries fetch_pypi_and_mirror
                  (Project.mk (example_pipfile [] []) (Some lock_pkg_twice))
                  lock_pkg_twice eq_refl)).
Defined.

(** ** Outdated packages, continued *)

Section OutdatedEntries.

Variable Version : Type.
Variable Version_eqb : Version -> Version -> bool.
Variable parse_semantic_version : string -> Version.
Variable get_latest_package_version : Source.t -> string -> option Version.

Local Abbreviation record :=
  (Project.record_outdated Version Version_eqb parse_semantic_version).
Local Abbreviation probe :=
  (Project.probe_sources Version Version_eqb parse_semantic_version
     get_latest_package_version).
Local Abbreviation check :=
  (Project.check_outdated Version Version_eqb parse_semantic_version
     get_latest_package_version).
Local Abbreviation loop :=
  (Project.outdated_loop Version Version_eqb parse_semantic_version
     get_latest_package_version).
Local Abbreviation reported := (reported_latest Version get_latest_package_version).
Local Abbreviation sound :=
  (outdated_sound Version Version_eqb parse_semantic_version get_latest_package_version).

Lemma record_outdated_sound :
  forall (sources : PyDict.t Source.t) (deps : list PackageVersion.t)
         (pv : PackageVersion.t) (l : Version) (r : Project.Outdated Version),
    In pv deps -> reported sources pv l ->
    PyDict.wf r /\ sound sources deps r ->
    PyDict.wf (record pv l r) /\ sound sources deps (record pv l r).
Proof.
  intros sources deps pv l r Hin Hrep [Hwf Hs]. unfold Project.record_outdated.
  destruct (Version_eqb _ l) eqn:E; cbn [negb]; [now split|].
  split; [now apply PyDict_set_wf|].
  intros n q l' H. apply PyDict_set_In in H.
  destruct H as [[-> [= -> ->]]|H]; [|now apply Hs].
  repeat split; assumption.
Qed.

Lemma probe_sources_sound :
  forall (sources : PyDict.t Source.t) (deps : list PackageVersion.t)
         (pv : PackageVersion.t) (indexes : list Source.t) (found : bool)
         (r : Project.Outdated Version),
    In pv deps -> PackageVersion.index pv = None ->
    incl indexes (PyDict.values sources) ->
    PyDict.wf r /\ sound sources deps r ->
    PyDict.wf (snd (probe pv indexes found r))
    /\ sound sources deps (snd (probe pv indexes found r)).
Proof.
  intros sources deps pv indexes.
  induction indexes as [|s rest IH]; intros found r Hin Hidx Hincl Hr; simpl.
  - exact Hr.
  - assert (Hrest : incl rest (PyDict.values sources)).
    { intros x Hx. apply Hincl. now right. }
    destruct (get_latest_package_version s (PackageVersion.name pv)) as [l|] eqn:El.
    + apply IH; try assumption.
      apply record_outdated_sound; try assumption.
      unfold reported_latest. rewrite Hidx. exists s. split; [|exact El].
      apply Hincl. now left.
    + now apply IH.
Qed.

Lemma check_outdated_sound :
  forall (sources : PyDict.t Source.t) (deps : list PackageVersion.t)
         (pv : PackageVersion.t) (r r' : Project.Outdated Version),
    In pv deps ->
    check sources pv r = Ok r' ->
    PyDict.wf r /\ sound sources deps r ->
    PyDict.wf r' /\ sound sources deps r'.
Proof.
  intros sources deps pv r r' Hin H Hr. unfold Project.check_outdated in H.
  destruct (PackageVersion.index pv) as [index|] eqn:Hidx.
  - destruct (get_latest_package_version index (PackageVersion.name pv)) as [l|] eqn:El;
      [|discriminate].
    injection H as <-. apply record_outdated_sound; try assumption.
    unfold reported_latest. now rewrite Hidx.
  - pose proof (probe_sources_sound sources deps pv (PyDict.values sources) false r
                  Hin Hidx (fun x Hx => Hx) Hr) as Hp.
    destruct (probe pv (PyDict.values sources) false r) as [[|] r1]; [|discriminate].
    simpl in *. now injection H as <-.
Qed.

Lemma outdated_loop_sound :
  forall (sources : PyDict.t Source.t) (deps ds : list PackageVersion.t)
         (r r' : Project.Outdated Version),
    incl ds deps ->
    loop sources ds r = Ok r' ->
    PyDict.wf r /\ sound sources deps r ->
    PyDict.wf r' /\ sound sources deps r'.
Proof.
  intros sources deps ds. induction ds as [|q rest IH]; intros r r' Hincl H Hr; simpl in H.
  - now injection H as <-.
  - destruct (check sources q r) as [r1|e] eqn:E; simpl in H; [|discriminate].
    apply (IH r1 r'); [intros x Hx; apply Hincl; now right|exact H|].
    apply (check_outdated_sound sources deps q r r1); [apply Hincl; now left|exact E|exact Hr].
Qed.

(** X23: a result of [get_outdated_package_versions] holds nothing but
    outdated packages of the lock, also when a name is locked more than
    once: it has every name once, and every entry stands under the name
    of its package, which is one of the locked packages gone through, and
    pairs it with a version that was reported for that package by its
    assigned index or, if it has none, by a configured source, and that
    does not compare equal to the pinned version. *)
Theorem outdated_entries_sound :
  forall (self : Project.t) (devel : bool) (r : Project.Outdated Version),
    Project.get_outdated_package_versions Version Version_eqb parse_semantic_version
      get_latest_package_version self devel = Ok r ->
    exists lock deps,
      Project.pipfile_lock self = Some lock
      /\ Project.iter_dependencies_locked self devel = Ok deps
      /\ PyDict.wf r
      /\ sound (PipfileMeta.sources (_PipfileBase.meta lock)) deps r.
Proof.
  intros self devel r H. unfold Project.get_outdated_package_versions in H.
  destruct (Project.pipfile_lock self) as [lock|] eqn:Hlock; [|discriminate].
  destruct (Project.iter_dependencies_locked self devel) as [deps|e] eqn:Hdeps;
    simpl in H; [|discriminate].
  exists lock, deps. split; [reflexivity|]. split; [reflexivity|].
  apply (outdated_loop_sound _ deps deps [] r (fun x Hx => Hx) H).
  split; [constructor|]. intros n pv l [].
Qed.

End OutdatedEntries.

(** Example for X23: the lock pins [pkg] at 1.0 on pypi, which reports
    1.2, and [up] at 3.0, which every source reports as the latest. *)
Lemma outdated_entries_sound_witness :
  exists lock deps,
    Project.pipfile_lock (Project.mk example_locked (Some example_locked)) = Some lock
    /\ Project.iter_dependencies_locked (Project.mk example_locked (Some example_locked))
         true = Ok deps
    /\ PyDict.wf [("pkg", (PackageVersion.mk "pkg" "==1.0" false (Some pypi) [] None, "1.2"))]
    /\ outdated_sound string String.eqb (fun s => s) example_latest
         (PipfileMeta.sources (_PipfileBase.meta lock)) deps
         [("pkg", (PackageVersion.mk "pkg" "==1.0" false (Some pypi) [] None, "1.2"))].
Proof.
  exact (outdated_entries_sound string String.eqb (fun s => s) example_latest
           (Project.mk example_locked (Some example_locked)) true
           [("pkg", (PackageVersion.mk "pkg" "==1.0" false (Some pypi) [] None, "1.2"))]
           eq_refl).
Defined.

(** ** Requirements file *)

Lemma index_conf_loop_tuple :
  forall (elts : list PipfileMeta.pyobj) (rest : list PipfileMeta.pyobj)
         (primary_index_added : bool) (result_ : string),
    PipfileMeta.index_conf_loop (PipfileMeta.ObjTuple elts :: rest) primary_index_added
      result_ = Raise AttributeError.
Proof. intros elts rest [|] result_; reflexivity. Qed.

Lemma append_requirements_packages :
  forall (pvs : list PackageVersion.t) (requirements_file : string),
    Requirements.append_requirements (map Requirements.ItemPackage pvs) requirements_file
    = Ok (requirements_file ++ String.concat "" (map requirement_text pvs))%string.
Proof.
  induction pvs as [|pv rest IH]; intros requirements_file; simpl.
  - now rewrite append_nil_r.
  - rewrite IH. f_equal. unfold requirement_text.
    destruct rest as [|q rest'].
    + simpl. now rewrite append_nil_r.
    + cbn [map String.concat]. cbn [append]. now rewrite !append_assoc.
Qed.

(** X24: [to_requirements_file] raises AttributeError as soon as the
    metadata has a source, whatever the packages are.  Without sources,
    and with a section that hands out its PackageVersions, it returns the
    name and version of every package of the chosen section in order, one
    directly after the other: no index line, no separator and no newline
    between two requirements.  A section that hands out [(name, package)]
    pairs and is not empty makes it raise AttributeError as well. *)
Theorem to_requirements_file_outcome :
  forall (Packages_items : Packages.t -> list Requirements.item)
         (self : _PipfileBase.t) (develop : bool),
    let section :=
      if develop then _PipfileBase.dev_packages self else _PipfileBase.packages self in
    let written := Requirements.to_requirements_file Packages_items self develop in
    (PipfileMeta.sources (_PipfileBase.meta self) <> [] -> written = Raise AttributeError)
    /\ (PipfileMeta.sources (_PipfileBase.meta self) = [] ->
        (Packages_items section = items_as_packages section ->
         written = Ok (String.concat "" (map requirement_text (Packages.iter section))))
        /\ (forall k pv rest,
              Packages_items section = Requirements.ItemPair k pv :: rest ->
              written = Raise AttributeError)).
Proof.
  intros Packages_items self develop section written.
  subst written. unfold Requirements.to_requirements_file,
    PipfileMeta.to_requirements_index_conf, PipfileMeta.sources_items, PyDict.items.
  split.
  - intros Hne.
    destruct (PipfileMeta.sources (_PipfileBase.meta self)) as [|kv rest]; [now elim Hne|].
    cbn [map]. now rewrite index_conf_loop_tuple.
  - intros ->. cbn [map PipfileMeta.index_conf_loop rbind].
    assert (Hs : (if negb develop
                  then Packages_items (_PipfileBase.packages self)
                  else Packages_items (_PipfileBase.dev_packages self))
                 = Packages_items section).
    { subst section. now destruct develop. }
    rewrite Hs. split.
    + intros ->. unfold items_as_packages.
      now rewrite append_requirements_packages.
    + intros k pv rest ->. reflexivity.
Qed.

(** Example for X24: two requirements without a source run together. *)
Lemma to_requirements_file_outcome_witness :
  Requirements.to_requirements_file items_as_packages two_requirements false
  = Ok "pkg==1.0up==3.0".
Proof.
  exact (proj1 (proj2 (to_requirements_file_outcome items_as_packages two_requirements
                         false) eq_refl) eq_refl).
Defined.
